(** * M25P16 / M25PX16 serial NOR flash drivers and the generic flash facade

    A shallow embedding of [m25p16.c], [m25px16.c], [m25p16.h], [m25px16.h],
    [flash.h] and [flash_m25p16.c], followed by the properties of the
    command protocol that the specification states about them.

    Conventions.
    - C integers are [Z] with the wrap-around written out: [to_uint8] for
      [uint8_t], [to_uint32] for [uint32_t] and [unsigned int] (32 bits on
      the Blackfin target of the sources).
    - The bus transport is an interface ([Transport]); every driver function
      is a computation in the state monad [spi] over a [bus], which pairs the
      transport's own state with the log of everything that crossed the wire.
    - C arrays written through a pointer are [carray]s: the cells of the
      object plus the list of stores that fell outside of it.
    - The only unbounded loop, the busy poll of the facade, is watched for a
      given number of polls: the functions that contain it answer [None],
      with the bus as it then stands, when the device is still busy at the
      last of them. *)

From Stdlib Require Import ZArith List Lia Bool.
Import ListNotations.
Open Scope Z_scope.

(** ** Machine integers *)

Definition to_uint8 (x : Z) : Z := x mod 256.
Definition to_uint32 (x : Z) : Z := x mod 4294967296.

(** ** C arrays behind a pointer *)

Record carray : Type := {
  cells : list Z;
  spilled : list (nat * Z)
}.

Fixpoint list_set (i : nat) (v : Z) (l : list Z) : list Z :=
  match l, i with
  | [], _ => []
  | _ :: t, O => v :: t
  | h :: t, S j => h :: list_set j v t
  end.

(** [a[i] = v].  A store inside the object updates the cell; a store at an
    index past the last cell is not performed on the object but recorded in
    [spilled], in program order. *)
Definition array_store (i : nat) (v : Z) (a : carray) : carray :=
  if (i <? length (cells a))%nat
  then {| cells := list_set i v (cells a); spilled := spilled a |}
  else {| cells := cells a; spilled := spilled a ++ [(i, v)] |}.

Definition fresh_array (n : nat) : carray :=
  {| cells := repeat 0 n; spilled := [] |}.

(** ** The bus transport and its recording wrapper *)

Inductive spi_event : Type :=
| EvInit
| EvAssert
| EvTransmit (mosi miso : Z)
| EvDeassert.

(** The injected capability: bring-up, chip select low, one full-duplex byte
    exchange, chip select high. *)
Class Transport (dev : Type) : Type := {
  hw_init : dev -> dev;
  hw_assert : dev -> dev;
  hw_transmit : Z -> dev -> Z * dev;
  hw_deassert : dev -> dev
}.

Record bus (dev : Type) : Type := {
  hw : dev;
  wire : list spi_event
}.
Arguments hw {dev} _.
Arguments wire {dev} _.

Definition spi (dev A : Type) : Type := bus dev -> A * bus dev.

Definition ret {dev A : Type} (a : A) : spi dev A := fun b => (a, b).

Definition bind {dev A B : Type} (c : spi dev A) (k : A -> spi dev B)
  : spi dev B :=
  fun b => let (a, b') := c b in k a b'.

Declare Scope spi_scope.
Delimit Scope spi_scope with spi.
Notation "x <- c ;; k" := (bind c (fun x => k))
  (at level 61, c at next level, right associativity) : spi_scope.
Notation "c ;; k" := (bind c (fun _ => k))
  (at level 61, right associativity) : spi_scope.
Open Scope spi_scope.

(** [for (i = i0; i < i0 + n; i++) s = body(i, s);] for a body that changes
    neither [i] nor the bound. *)
Fixpoint for_loop {dev St : Type} (n i : nat)
  (body : nat -> St -> spi dev St) (s : St) : spi dev St :=
  match n with
  | O => ret s
  | S k => s' <- body i s ;; for_loop k (S i) body s'
  end.

Section Macros.
Context {dev : Type} {T : Transport dev}.

(** Modelled from the spec: the bodies of the macros [SPI_INIT],
    [SPI_ASSERT], [SPI_TRANSMIT] and [SPI_DEASSERT] are left blank in both
    drivers.  Section 6 of the specification gives their contract:
    [assert()], [transmit(byte) -> byte] and [deassert()].  Each macro
    hands over to the transport and records what it did; [SPI_INIT()] is
    the bring-up of the peripheral. *)
Definition SPI_INIT : spi dev unit :=
  fun b => (tt, {| hw := hw_init (hw b); wire := wire b ++ [EvInit] |}).

(** Modelled from the spec: [SPI_ASSERT()], blank in the sources, selects
    the chip. *)
Definition SPI_ASSERT : spi dev unit :=
  fun b => (tt, {| hw := hw_assert (hw b); wire := wire b ++ [EvAssert] |}).

(** Modelled from the spec: [SPI_TRANSMIT(D)], blank in the sources, is
    [transmit(byte) -> byte]: it puts [D] converted to one byte on the wire
    and yields the byte clocked back. *)
Definition SPI_TRANSMIT (D : Z) : spi dev Z :=
  fun b =>
    let (r, h) := hw_transmit (to_uint8 D) (hw b) in
    (to_uint8 r,
     {| hw := h; wire := wire b ++ [EvTransmit (to_uint8 D) (to_uint8 r)] |}).

(** Modelled from the spec: [SPI_DEASSERT()], blank in the sources,
    deselects the chip. *)
Definition SPI_DEASSERT : spi dev unit :=
  fun b =>
    (tt, {| hw := hw_deassert (hw b); wire := wire b ++ [EvDeassert] |}).
End Macros.

(** ** m25p16.h and m25p16.c *)

Module M25P16.

Definition M25P16_PAGE_COUNT : Z := 8192.
Definition M25P16_PAGE_BYTE_SIZE : Z := 256.
Definition M25P16_SECTOR_COUNT : Z := 32.
Definition M25P16_SECTOR_BYTE_SIZE : Z := 65536.

Record m25p16_identification_t : Type := {
  manufacturer : Z;
  memory_type : Z;
  memory_capacity : Z;
  cfd_length : Z;
  cfd_content : carray          (* uint8_t cfd_content[16] *)
}.

Definition set_manufacturer v p :=
  {| manufacturer := v; memory_type := memory_type p;
     memory_capacity := memory_capacity p; cfd_length := cfd_length p;
     cfd_content := cfd_content p |}.
Definition set_memory_type v p :=
  {| manufacturer := manufacturer p; memory_type := v;
     memory_capacity := memory_capacity p; cfd_length := cfd_length p;
     cfd_content := cfd_content p |}.
Definition set_memory_capacity v p :=
  {| manufacturer := manufacturer p; memory_type := memory_type p;
     memory_capacity := v; cfd_length := cfd_length p;
     cfd_content := cfd_content p |}.
Definition set_cfd_length v p :=
  {| manufacturer := manufacturer p; memory_type := memory_type p;
     memory_capacity := memory_capacity p; cfd_length := v;
     cfd_content := cfd_content p |}.
Definition set_cfd_content (i : nat) v p :=
  {| manufacturer := manufacturer p; memory_type := memory_type p;
     memory_capacity := memory_capacity p; cfd_length := cfd_length p;
     cfd_content := array_store i v (cfd_content p) |}.

(** A structure as a caller declares it: sixteen cells of CFD content. *)
Definition blank_identification : m25p16_identification_t :=
  {| manufacturer := 0; memory_type := 0; memory_capacity := 0;
     cfd_length := 0; cfd_content := fresh_array 16 |}.

Definition M25P16_SREG_WRITE_PROTECT (SREG : Z) : Z :=
  Z.land SREG (Z.shiftl 1 7).
Definition M25P16_SREG_BLOCK_PROTECT_BP2 (SREG : Z) : Z :=
  Z.land SREG (Z.shiftl 1 4).
Definition M25P16_SREG_BLOCK_PROTECT_BP1 (SREG : Z) : Z :=
  Z.land SREG (Z.shiftl 1 3).
Definition M25P16_SREG_BLOCK_PROTECT_BP0 (SREG : Z) : Z :=
  Z.land SREG (Z.shiftl 1 2).
Definition M25P16_SREG_WRITE_ENABLE_LATCH (SREG : Z) : Z :=
  Z.land SREG (Z.shiftl 1 1).
Definition M25P16_SREG_WRITE_IN_PROGRESS (SREG : Z) : Z :=
  Z.land SREG (Z.shiftl 1 0).

Definition CMD_WRITE_ENABLE : Z := 0x06.
Definition CMD_WRITE_DISABLE : Z := 0x04.
Definition CMD_READ_IDENTIFICATION : Z := 0x9F.
Definition CMD_READ_STATUS_REGISTER : Z := 0x05.
Definition CMD_WRITE_STATUS_REGISTER : Z := 0x01.
Definition CMD_READ_DATA_BYTES : Z := 0x03.
Definition CMD_PAGE_PROGRAM : Z := 0x02.
Definition CMD_SECTOR_ERASE : Z := 0xD8.
Definition CMD_BULK_ERASE : Z := 0xC7.
Definition CMD_DEEP_POWER_DOWN : Z := 0xB9.
Definition CMD_RELEASE_FROM_DEEP_POWER_DOWN : Z := 0xAB.

(** Addresses and sizes are [uint32_t] arguments: callers pass values in
    [[0, 2^32)]. *)
Section Driver.
Context {dev : Type} {T : Transport dev}.

Definition m25p16_init : spi dev unit := SPI_INIT.

Definition m25p16_write_enable : spi dev unit :=
  SPI_ASSERT ;;
  SPI_TRANSMIT CMD_WRITE_ENABLE ;;
  SPI_DEASSERT.

Definition m25p16_write_disable : spi dev unit :=
  SPI_ASSERT ;;
  SPI_TRANSMIT CMD_WRITE_DISABLE ;;
  SPI_DEASSERT.

(** The loop bound [p->cfd_length] is a [uint8_t] that the body never
    writes, so the loop runs [cfd_length] times with [i = 0, 1, ...]. *)
Definition m25p16_read_identification (p : m25p16_identification_t)
  : spi dev m25p16_identification_t :=
  SPI_ASSERT ;;
  SPI_TRANSMIT CMD_READ_IDENTIFICATION ;;
  v <- SPI_TRANSMIT 0 ;; let p := set_manufacturer v p in
  v <- SPI_TRANSMIT 0 ;; let p := set_memory_type v p in
  v <- SPI_TRANSMIT 0 ;; let p := set_memory_capacity v p in
  v <- SPI_TRANSMIT 0 ;; let p := set_cfd_length v p in
  p <- for_loop (Z.to_nat (cfd_length p)) 0
         (fun i p => v <- SPI_TRANSMIT 0 ;; ret (set_cfd_content i v p))
         p ;;
  SPI_DEASSERT ;;
  ret p.

Definition m25p16_read_status_register : spi dev Z :=
  SPI_ASSERT ;;
  SPI_TRANSMIT CMD_READ_STATUS_REGISTER ;;
  sreg <- SPI_TRANSMIT 0 ;;
  SPI_DEASSERT ;;
  ret sreg.

Definition m25p16_write_status_register (sreg : Z) : spi dev unit :=
  SPI_ASSERT ;;
  SPI_TRANSMIT CMD_WRITE_STATUS_REGISTER ;;
  SPI_TRANSMIT sreg ;;
  SPI_DEASSERT.

Definition m25p16_read_data_bytes (addr : Z) (buf : carray) (siz : Z)
  : spi dev carray :=
  SPI_ASSERT ;;
  SPI_TRANSMIT CMD_READ_DATA_BYTES ;;
  SPI_TRANSMIT (Z.shiftr addr 16) ;;
  SPI_TRANSMIT (Z.shiftr addr 8) ;;
  SPI_TRANSMIT (Z.shiftr addr 0) ;;
  buf <- for_loop (Z.to_nat siz) 0
           (fun i buf => v <- SPI_TRANSMIT 0 ;; ret (array_store i v buf))
           buf ;;
  SPI_DEASSERT ;;
  ret buf.

(** [buf] is only read here; a caller that passes [siz] larger than its
    buffer makes the C code read past it, which this model reads as 0. *)
Definition m25p16_page_program (addr : Z) (buf : list Z) (siz : Z)
  : spi dev unit :=
  SPI_ASSERT ;;
  SPI_TRANSMIT CMD_PAGE_PROGRAM ;;
  SPI_TRANSMIT (Z.shiftr addr 16) ;;
  SPI_TRANSMIT (Z.shiftr addr 8) ;;
  SPI_TRANSMIT (Z.shiftr addr 0) ;;
  for_loop (Z.to_nat siz) 0
    (fun i (_ : unit) => SPI_TRANSMIT (nth i buf 0) ;; ret tt) tt ;;
  SPI_DEASSERT.

Definition m25p16_sector_erase (addr : Z) : spi dev unit :=
  SPI_ASSERT ;;
  SPI_TRANSMIT CMD_SECTOR_ERASE ;;
  SPI_TRANSMIT (Z.shiftr addr 16) ;;
  SPI_TRANSMIT (Z.shiftr addr 8) ;;
  SPI_TRANSMIT (Z.shiftr addr 0) ;;
  SPI_DEASSERT.

Definition m25p16_bulk_erase : spi dev unit :=
  SPI_ASSERT ;;
  SPI_TRANSMIT CMD_BULK_ERASE ;;
  SPI_DEASSERT.

Definition m25p16_deep_power_down : spi dev unit :=
  SPI_ASSERT ;;
  SPI_TRANSMIT CMD_DEEP_POWER_DOWN ;;
  SPI_DEASSERT.

Definition m25p16_release_from_deep_power_down : spi dev unit :=
  SPI_ASSERT ;;
  SPI_TRANSMIT CMD_RELEASE_FROM_DEEP_POWER_DOWN ;;
  SPI_DEASSERT.
End Driver.

End M25P16.


(** ** m25px16.h and m25px16.c *)

Module M25PX16.


Record m25px16_identification_t : Type := {
  manufacturer : Z;
  memory_type : Z;
  memory_capacity : Z;
  cfd_length : Z;
  cfd_content : carray          (* uint8_t cfd_content[16] *)
}.

Definition set_manufacturer v p :=
  {| manufacturer := v; memory_type := memory_type p;
     memory_capacity := memory_capacity p; cfd_length := cfd_length p;
     cfd_content := cfd_content p |}.
Definition set_memory_type v p :=
  {| manufacturer := manufacturer p; memory_type := v;
     memory_capacity := memory_capacity p; cfd_length := cfd_length p;
     cfd_content := cfd_content p |}.
Definition set_memory_capacity v p :=
  {| manufacturer := manufacturer p; memory_type := memory_type p;
     memory_capacity := v; cfd_length := cfd_length p;
     cfd_content := cfd_content p |}.
Definition set_cfd_length v p :=
  {| manufacturer := manufacturer p; memory_type := memory_type p;
     memory_capacity := memory_capacity p; cfd_length := v;
     cfd_content := cfd_content p |}.
Definition set_cfd_content (i : nat) v p :=
  {| manufacturer := manufacturer p; memory_type := memory_type p;
     memory_capacity := memory_capacity p; cfd_length := cfd_length p;
     cfd_content := array_store i v (cfd_content p) |}.

Definition blank_identification : m25px16_identification_t :=
  {| manufacturer := 0; memory_type := 0; memory_capacity := 0;
     cfd_length := 0; cfd_content := fresh_array 16 |}.

Definition M25PX16_SREG_WRITE_PROTECT (SREG : Z) : Z :=
  Z.land SREG (Z.shiftl 1 7).
Definition M25PX16_SREG_BLOCK_PROTECT_BP2 (SREG : Z) : Z :=
  Z.land SREG (Z.shiftl 1 4).
Definition M25PX16_SREG_BLOCK_PROTECT_BP1 (SREG : Z) : Z :=
  Z.land SREG (Z.shiftl 1 3).
Definition M25PX16_SREG_BLOCK_PROTECT_BP0 (SREG : Z) : Z :=
  Z.land SREG (Z.shiftl 1 2).
Definition M25PX16_SREG_WRITE_ENABLE_LATCH (SREG : Z) : Z :=
  Z.land SREG (Z.shiftl 1 1).
Definition M25PX16_SREG_WRITE_IN_PROGRESS (SREG : Z) : Z :=
  Z.land SREG (Z.shiftl 1 0).

Definition M25PX16_LOCK_REGISTER_BIT_SECTOR_LOCK_DOWN : Z := Z.shiftl 1 1.
Definition M25PX16_LOCK_REGISTER_BIT_SECTOR_WRITE_LOCK : Z := Z.shiftl 1 0.

Definition CMD_WRITE_ENABLE : Z := 0x06.
Definition CMD_WRITE_DISABLE : Z := 0x04.
Definition CMD_READ_IDENTIFICATION : Z := 0x9F.
Definition CMD_READ_STATUS_REGISTER : Z := 0x05.
Definition CMD_WRITE_STATUS_REGISTER : Z := 0x01.
Definition CMD_WRITE_LOCK_REGISTER : Z := 0xE5.
Definition CMD_READ_LOCK_REGISTER : Z := 0xE8.
Definition CMD_READ_DATA_BYTES : Z := 0x03.
Definition CMD_PAGE_PROGRAM : Z := 0x02.
Definition CMD_SECTOR_ERASE : Z := 0xD8.
Definition CMD_BULK_ERASE : Z := 0xC7.
Definition CMD_DEEP_POWER_DOWN : Z := 0xB9.
Definition CMD_RELEASE_FROM_DEEP_POWER_DOWN : Z := 0xAB.

Section Driver.
Context {dev : Type} {T : Transport dev}.

Definition m25px16_init : spi dev unit := SPI_INIT.

Definition m25px16_write_enable : spi dev unit :=
  SPI_ASSERT ;;
  SPI_TRANSMIT CMD_WRITE_ENABLE ;;
  SPI_DEASSERT.

Definition m25px16_write_disable : spi dev unit :=
  SPI_ASSERT ;;
  SPI_TRANSMIT CMD_WRITE_DISABLE ;;
  SPI_DEASSERT.

Definition m25px16_read_identification (p : m25px16_identification_t)
  : spi dev m25px16_identification_t :=
  SPI_ASSERT ;;
  SPI_TRANSMIT CMD_READ_IDENTIFICATION ;;
  v <- SPI_TRANSMIT 0 ;; let p := set_manufacturer v p in
  v <- SPI_TRANSMIT 0 ;; let p := set_memory_type v p in
  v <- SPI_TRANSMIT 0 ;; let p := set_memory_capacity v p in
  v <- SPI_TRANSMIT 0 ;; let p := set_cfd_length v p in
  p <- for_loop (Z.to_nat (cfd_length p)) 0
         (fun i p => v <- SPI_TRANSMIT 0 ;; ret (set_cfd_content i v p))
         p ;;
  SPI_DEASSERT ;;
  ret p.

Definition m25px16_read_status_register : spi dev Z :=
  SPI_ASSERT ;;
  SPI_TRANSMIT CMD_READ_STATUS_REGISTER ;;
  sreg <- SPI_TRANSMIT 0 ;;
  SPI_DEASSERT ;;
  ret sreg.

Definition m25px16_write_status_register (sreg : Z) : spi dev unit :=
  SPI_ASSERT ;;
  SPI_TRANSMIT CMD_WRITE_STATUS_REGISTER ;;
  SPI_TRANSMIT sreg ;;
  SPI_DEASSERT.

Definition m25px16_write_lock_register (addr lock_register : Z)
  : spi dev unit :=
  SPI_ASSERT ;;
  SPI_TRANSMIT CMD_WRITE_LOCK_REGISTER ;;
  SPI_TRANSMIT (Z.shiftr addr 16) ;;
  SPI_TRANSMIT (Z.shiftr addr 8) ;;
  SPI_TRANSMIT (Z.shiftr addr 0) ;;
  SPI_TRANSMIT lock_register ;;
  SPI_DEASSERT.

Definition m25px16_read_lock_register (addr : Z) : spi dev Z :=
  SPI_ASSERT ;;
  SPI_TRANSMIT CMD_READ_LOCK_REGISTER ;;
  SPI_TRANSMIT (Z.shiftr addr 16) ;;
  SPI_TRANSMIT (Z.shiftr addr 8) ;;
  SPI_TRANSMIT (Z.shiftr addr 0) ;;
  lock_register <- SPI_TRANSMIT 0 ;;
  SPI_DEASSERT ;;
  ret lock_register.

Definition m25px16_read_data_bytes (addr : Z) (buf : carray) (siz : Z)
  : spi dev carray :=
  SPI_ASSERT ;;
  SPI_TRANSMIT CMD_READ_DATA_BYTES ;;
  SPI_TRANSMIT (Z.shiftr addr 16) ;;
  SPI_TRANSMIT (Z.shiftr addr 8) ;;
  SPI_TRANSMIT (Z.shiftr addr 0) ;;
  buf <- for_loop (Z.to_nat siz) 0
           (fun i buf => v <- SPI_TRANSMIT 0 ;; ret (array_store i v buf))
           buf ;;
  SPI_DEASSERT ;;
  ret buf.

Definition m25px16_page_program (addr : Z) (buf : list Z) (siz : Z)
  : spi dev unit :=
  SPI_ASSERT ;;
  SPI_TRANSMIT CMD_PAGE_PROGRAM ;;
  SPI_TRANSMIT (Z.shiftr addr 16) ;;
  SPI_TRANSMIT (Z.shiftr addr 8) ;;
  SPI_TRANSMIT (Z.shiftr addr 0) ;;
  for_loop (Z.to_nat siz) 0
    (fun i (_ : unit) => SPI_TRANSMIT (nth i buf 0) ;; ret tt) tt ;;
  SPI_DEASSERT.

Definition m25px16_sector_erase (addr : Z) : spi dev unit :=
  SPI_ASSERT ;;
  SPI_TRANSMIT CMD_SECTOR_ERASE ;;
  SPI_TRANSMIT (Z.shiftr addr 16) ;;
  SPI_TRANSMIT (Z.shiftr addr 8) ;;
  SPI_TRANSMIT (Z.shiftr addr 0) ;;
  SPI_DEASSERT.

Definition m25px16_bulk_erase : spi dev unit :=
  SPI_ASSERT ;;
  SPI_TRANSMIT CMD_BULK_ERASE ;;
  SPI_DEASSERT.

Definition m25px16_deep_power_down : spi dev unit :=
  SPI_ASSERT ;;
  SPI_TRANSMIT CMD_DEEP_POWER_DOWN ;;
  SPI_DEASSERT.

Definition m25px16_release_from_deep_power_down : spi dev unit :=
  SPI_ASSERT ;;
  SPI_TRANSMIT CMD_RELEASE_FROM_DEEP_POWER_DOWN ;;
  SPI_DEASSERT.
End Driver.

End M25PX16.

(** ** flash.h and flash_m25p16.c *)

Import M25P16.


(** A C condition holds when its value is not zero. *)
Definition c_true (x : Z) : bool := negb (x =? 0).

Section Facade.
Context {dev : Type} {T : Transport dev}.

Definition flash_init : spi dev Z :=
  m25p16_init ;;
  ret 0.


(** [do { m25p16_read_status_register(&sreg); }
     while (M25P16_SREG_WRITE_IN_PROGRESS(sreg));]
    watched for at most [polls] iterations.  The answer is [Some sreg] when
    the loop was left, and [None] when the register still reported a cycle
    in progress at the last watched poll: the caller is then still inside
    the loop, and the bus is as that poll left it. *)
Fixpoint poll_while_busy (polls : nat) (b : bus dev) : option Z * bus dev :=
  match polls with
  | O => (None, b)
  | S k =>
      let (sreg, b') := m25p16_read_status_register b in
      if c_true (M25P16_SREG_WRITE_IN_PROGRESS sreg)
      then poll_while_busy k b'
      else (Some sreg, b')
  end.

(** The facade functions that poll answer [Some r] when the C function
    returns [r], and [None] when it is still polling. *)
Definition flash_sector_erase (polls : nat) (sector : Z) (b : bus dev)
  : option Z * bus dev :=
  let (_, b1) := m25p16_write_enable b in
  let (_, b2) :=
    m25p16_sector_erase (to_uint32 (M25P16_SECTOR_BYTE_SIZE * sector)) b1 in
  match poll_while_busy polls b2 with
  | (None, b3) => (None, b3)
  | (Some _, b3) =>
      let (_, b4) := m25p16_write_disable b3 in
      (Some 0, b4)
  end.

Definition flash_page_write (polls : nat) (page : Z) (buf : list Z) (siz : Z)
  (b : bus dev) : option Z * bus dev :=
  let addr := to_uint32 (M25P16_PAGE_BYTE_SIZE * page) in
  if M25P16_PAGE_BYTE_SIZE <? siz then (Some (-1), b)
  else
    let (_, b1) := m25p16_write_enable b in
    let (_, b2) := m25p16_page_program addr buf siz b1 in
    match poll_while_busy polls b2 with
    | (None, b3) => (None, b3)
    | (Some _, b3) =>
        let (_, b4) := m25p16_write_disable b3 in
        (Some 0, b4)
    end.

Definition flash_page_read (page : Z) (buf : carray) (siz : Z) (b : bus dev)
  : Z * carray * bus dev :=
  let addr := to_uint32 (M25P16_PAGE_BYTE_SIZE * page) in
  if M25P16_PAGE_BYTE_SIZE <? siz then (-1, buf, b)
  else
    let (buf', b') := m25p16_read_data_bytes addr buf siz b in
    (0, buf', b').
End Facade.

(** ** Observing the wire *)

Section Wire.
Context {dev : Type} {T : Transport dev}.

(** The bytes [out] clocked out one after the other on a selected device,
    with the bytes clocked back. *)
Fixpoint exchange (out : list Z) (d : dev) : list Z * dev :=
  match out with
  | [] => ([], d)
  | x :: t =>
      let (r, d1) := hw_transmit (to_uint8 x) d in
      let (rs, d2) := exchange t d1 in
      (to_uint8 r :: rs, d2)
  end.

(** What one select / exchange / deselect leaves in the log. *)
Definition frame (out ins : list Z) : list spi_event :=
  EvAssert
    :: map (fun x => EvTransmit (to_uint8 (fst x)) (snd x)) (combine out ins)
    ++ [EvDeassert].

Definition transaction (out : list Z) (b : bus dev) : list Z * bus dev :=
  let (ins, d) := exchange out (hw_assert (hw b)) in
  (ins, {| hw := hw_deassert d; wire := wire b ++ frame out ins |}).

(** The device after a whole frame carrying [out]. *)
Definition after_frame (out : list Z) (d : dev) : dev :=
  hw_deassert (snd (exchange out (hw_assert d))).

(** The status byte a device answers to one Read Status Register frame. *)
Definition status_answer (d : dev) : Z :=
  nth 1 (fst (exchange [0x05; 0x00] (hw_assert d))) 0.

(** The device reports a cycle in progress (bit 0 of the status byte) to
    exactly [n] status reads and reports completion to the next one. *)
Fixpoint busy_for (n : nat) (d : dev) : bool :=
  match n with
  | O => negb (Z.testbit (status_answer d) 0)
  | S k =>
      Z.testbit (status_answer d) 0
      && busy_for k (after_frame [0x05; 0x00] d)
  end.
End Wire.

(** The three address bytes of a 24-bit address, most significant first. *)
Definition address_bytes (addr : Z) : list Z :=
  [(addr / 65536) mod 256; (addr / 256) mod 256; addr mod 256].

(** The driver calls of the mutating protocol as they appear on the wire. *)
Inductive driver_call : Type :=
| call_write_enable
| call_write_disable
| call_read_status_register (sreg : Z)
| call_sector_erase (addr : Z)
| call_page_program (addr : Z) (data : list Z).

Definition wire_out (c : driver_call) : list Z :=
  match c with
  | call_write_enable => [0x06]
  | call_write_disable => [0x04]
  | call_read_status_register _ => [0x05; 0x00]
  | call_sector_erase a => 0xD8 :: address_bytes a
  | call_page_program a data => 0x02 :: address_bytes a ++ data
  end.

(** [tr] is exactly one frame carrying call [c]; for a status read, the byte
    clocked back after the opcode is the status the call returns. *)
Definition on_wire (c : driver_call) (tr : list spi_event) : Prop :=
  exists ins,
    length ins = length (wire_out c)
    /\ tr = frame (wire_out c) ins
    /\ match c with
       | call_read_status_register s => nth 1 ins 0 = s
       | _ => True
       end.

(** [tr] is the concatenation of the frames of [cs], in order, and nothing
    else. *)
Inductive issued : list driver_call -> list spi_event -> Prop :=
| issued_nil : issued [] []
| issued_cons c cs tr1 tr2 :
    on_wire c tr1 -> issued cs tr2 -> issued (c :: cs) (tr1 ++ tr2).

Definition wip_set (sreg : Z) : Prop := Z.testbit sreg 0 = true.
Definition wip_clear (sreg : Z) : Prop := Z.testbit sreg 0 = false.

Definition is_transmit (e : spi_event) : bool :=
  match e with
  | EvTransmit _ _ => true
  | _ => false
  end.

(** One scoped acquisition: select, then byte exchanges only, then
    deselect. *)
Definition scoped (tr : list spi_event) : Prop :=
  exists body,
    tr = EvAssert :: body ++ [EvDeassert] /\ forallb is_transmit body = true.

(** The byte of the first exchange of a log. *)
Fixpoint first_byte (tr : list spi_event) : option Z :=
  match tr with
  | [] => None
  | EvTransmit o _ :: _ => Some o
  | _ :: t => first_byte t
  end.

(** The part of the log of [b'] that was written after [b]. *)
Definition emitted {dev : Type} (b b' : bus dev) : list spi_event :=
  skipn (length (wire b)) (wire b').

(** Received bytes [vs] stored one after the other by [store], at indices
    [i], [i + 1], ... *)
Fixpoint store_each {St : Type} (store : nat -> Z -> St -> St) (i : nat)
  (vs : list Z) (s : St) : St :=
  match vs with
  | [] => s
  | v :: t => store_each store (S i) t (store i v s)
  end.

Definition store_all : nat -> list Z -> carray -> carray :=
  store_each array_store.

(** The bytes [buf[0]], ..., [buf[siz - 1]] that a transfer of [siz] bytes
    takes from [buf]. *)
Definition buffer_bytes (buf : list Z) (siz : Z) : list Z :=
  map (fun j => nth j buf 0) (seq 0 (Z.to_nat siz)).

(** The fourth byte a device answers after the Read Identification opcode:
    the CFD length it reports. *)
Definition reported_cfd_length {dev : Type} {T : Transport dev} (d : dev)
  : Z :=
  nth 4 (fst (exchange [0x9F; 0x00; 0x00; 0x00; 0x00] (hw_assert d))) 0.

(** ** The operations of each driver, as a table *)

Module Ops16.
Import M25P16.

Inductive command : Type :=
| WriteEnable
| WriteDisable
| ReadIdentification (p : m25p16_identification_t)
| ReadStatusRegister
| WriteStatusRegister (sreg : Z)
| ReadDataBytes (addr : Z) (buf : carray) (siz : Z)
| PageProgram (addr : Z) (buf : list Z) (siz : Z)
| SectorErase (addr : Z)
| BulkErase
| DeepPowerDown
| ReleaseFromDeepPowerDown.

Definition perform {dev : Type} {T : Transport dev} (c : command)
  (b : bus dev) : bus dev :=
  match c with
  | WriteEnable => snd (m25p16_write_enable b)
  | WriteDisable => snd (m25p16_write_disable b)
  | ReadIdentification p => snd (m25p16_read_identification p b)
  | ReadStatusRegister => snd (m25p16_read_status_register b)
  | WriteStatusRegister sreg => snd (m25p16_write_status_register sreg b)
  | ReadDataBytes addr buf siz => snd (m25p16_read_data_bytes addr buf siz b)
  | PageProgram addr buf siz => snd (m25p16_page_program addr buf siz b)
  | SectorErase addr => snd (m25p16_sector_erase addr b)
  | BulkErase => snd (m25p16_bulk_erase b)
  | DeepPowerDown => snd (m25p16_deep_power_down b)
  | ReleaseFromDeepPowerDown => snd (m25p16_release_from_deep_power_down b)
  end.

(** The opcode table of section 6 of the specification, in its words. *)
Definition spec_opcode (c : command) : Z :=
  match c with
  | WriteEnable => 0x06
  | WriteDisable => 0x04
  | ReadIdentification _ => 0x9F
  | ReadStatusRegister => 0x05
  | WriteStatusRegister _ => 0x01
  | ReadDataBytes _ _ _ => 0x03
  | PageProgram _ _ _ => 0x02
  | SectorErase _ => 0xD8
  | BulkErase => 0xC7
  | DeepPowerDown => 0xB9
  | ReleaseFromDeepPowerDown => 0xAB
  end.

End Ops16.

Module OpsX16.
Import M25PX16.

Inductive command : Type :=
| WriteEnable
| WriteDisable
| ReadIdentification (p : m25px16_identification_t)
| ReadStatusRegister
| WriteStatusRegister (sreg : Z)
| WriteLockRegister (addr lock_register : Z)
| ReadLockRegister (addr : Z)
| ReadDataBytes (addr : Z) (buf : carray) (siz : Z)
| PageProgram (addr : Z) (buf : list Z) (siz : Z)
| SectorErase (addr : Z)
| BulkErase
| DeepPowerDown
| ReleaseFromDeepPowerDown.

Definition perform {dev : Type} {T : Transport dev} (c : command)
  (b : bus dev) : bus dev :=
  match c with
  | WriteEnable => snd (m25px16_write_enable b)
  | WriteDisable => snd (m25px16_write_disable b)
  | ReadIdentification p => snd (m25px16_read_identification p b)
  | ReadStatusRegister => snd (m25px16_read_status_register b)
  | WriteStatusRegister sreg => snd (m25px16_write_status_register sreg b)
  | WriteLockRegister addr v => snd (m25px16_write_lock_register addr v b)
  | ReadLockRegister addr => snd (m25px16_read_lock_register addr b)
  | ReadDataBytes addr buf siz => snd (m25px16_read_data_bytes addr buf siz b)
  | PageProgram addr buf siz => snd (m25px16_page_program addr buf siz b)
  | SectorErase addr => snd (m25px16_sector_erase addr b)
  | BulkErase => snd (m25px16_bulk_erase b)
  | DeepPowerDown => snd (m25px16_deep_power_down b)
  | ReleaseFromDeepPowerDown => snd (m25px16_release_from_deep_power_down b)
  end.

(** The opcode table of section 6 of the specification, in its words. *)
Definition spec_opcode (c : command) : Z :=
  match c with
  | WriteEnable => 0x06
  | WriteDisable => 0x04
  | ReadIdentification _ => 0x9F
  | ReadStatusRegister => 0x05
  | WriteStatusRegister _ => 0x01
  | WriteLockRegister _ _ => 0xE5
  | ReadLockRegister _ => 0xE8
  | ReadDataBytes _ _ _ => 0x03
  | PageProgram _ _ _ => 0x02
  | SectorErase _ => 0xD8
  | BulkErase => 0xC7
  | DeepPowerDown => 0xB9
  | ReleaseFromDeepPowerDown => 0xAB
  end.

End OpsX16.

(** The bytes [out] exchanged on an already selected bus, log included. *)
Definition clock {dev : Type} {T : Transport dev} (out : list Z)
  (b : bus dev) : list Z * bus dev :=
  let (ins, d) := exchange out (hw b) in
  (ins,
   {| hw := d;
      wire := wire b
              ++ map (fun x => EvTransmit (to_uint8 (fst x)) (snd x))
                   (combine out ins) |}).

(** ** Transport doubles *)

(** A transport that plays back a script: every exchange answers the next
    scripted byte, and 0xFF (an idle data line) once the script is over. *)
Record playback : Type := { pending : list Z }.

#[global] Instance playback_transport : Transport playback := {
  hw_init d := d;
  hw_assert d := d;
  hw_transmit _ d :=
    match pending d with
    | [] => (0xFF, d)
    | r :: t => (r, {| pending := t |})
    end;
  hw_deassert d := d
}.

Definition playback_bus (script : list Z) : bus playback :=
  {| hw := {| pending := script |}; wire := [] |}.

Module Double.

Definition CAPACITY : Z := M25P16_PAGE_COUNT * M25P16_PAGE_BYTE_SIZE.

(** Modelled from the spec: the transport test double of section 8, which
    is not part of the sources: an in-memory byte array behind the bus that
    honours the erase and program semantics (program only clears bits,
    erase sets every bit of the sector).  [mem] is the byte array, [wel] the
    write enable latch, [busy] the number of status reads the running
    self-timed cycle still answers with WIP set, [cycle] the length of such
    a cycle and [latched] the bytes clocked in since the chip was
    selected. *)
Record chip : Type := {
  mem : Z -> Z;
  wel : bool;
  busy : nat;
  cycle : nat;
  latched : list Z
}.

Definition with_mem (m : Z -> Z) (c : chip) : chip :=
  {| mem := m; wel := wel c; busy := busy c; cycle := cycle c;
     latched := latched c |}.
Definition with_wel (w : bool) (c : chip) : chip :=
  {| mem := mem c; wel := w; busy := busy c; cycle := cycle c;
     latched := latched c |}.
Definition with_busy (n : nat) (c : chip) : chip :=
  {| mem := mem c; wel := wel c; busy := n; cycle := cycle c;
     latched := latched c |}.
Definition with_latched (l : list Z) (c : chip) : chip :=
  {| mem := mem c; wel := wel c; busy := busy c; cycle := cycle c;
     latched := l |}.

(** Modelled from the spec: the status register of the double, WIP in bit
    0 and WEL in bit 1. *)
Definition status (c : chip) : Z :=
  (if (0 <? busy c)%nat then 1 else 0) + (if wel c then 2 else 0).

(** Modelled from the spec: the address of three big-endian bytes, inside
    the byte array. *)
Definition address (a2 a1 a0 : Z) : Z :=
  (a2 * 65536 + a1 * 256 + a0) mod CAPACITY.

(** Modelled from the spec: erase of the double, "erase sets all bits to 1
    within the sector". *)
Definition erase_sector (addr : Z) (m : Z -> Z) : Z -> Z :=
  fun a => if a / 65536 =? addr / 65536 then 0xFF else m a.

(** Modelled from the spec: program of the double, "program only clears
    bits 1 to 0": every targeted byte becomes its old value ANDed with the
    data byte.  Data wraps inside the 256-byte page and only the last 256
    bytes of a longer transfer are kept, as the driver's comments describe
    the chip. *)
Definition program_page (addr : Z) (data : list Z) (m : Z -> Z) : Z -> Z :=
  let skip := (length data - 256)%nat in
  let kept := skipn skip data in
  let off := (addr + Z.of_nat skip) mod 256 in
  fun a =>
    let k := (a - off) mod 256 in
    if (a / 256 =? addr / 256) && (k <? Z.of_nat (length kept))
    then Z.land (m a) (nth (Z.to_nat k) kept 0xFF)
    else m a.

(** Modelled from the spec: a self-timed cycle begins: WEL is reset and
    WIP reads 1 for [cycle] status reads. *)
Definition start_cycle (c : chip) : chip :=
  with_busy (cycle c) (with_wel false c).

(** Modelled from the spec: one byte exchange with the double.  A status
    read answers the status register (and lets the cycle advance); a data
    read answers the addressed bytes in increasing order, unless a cycle is
    in progress; anything else leaves the data line idle. *)
Definition chip_transmit (x : Z) (c : chip) : Z * chip :=
  let c' := with_latched (latched c ++ [x]) c in
  match latched c with
  | [] => (0xFF, c')
  | op :: args =>
      if op =? 0x05 then (status c, with_busy (pred (busy c)) c')
      else
        match args with
        | a2 :: a1 :: a0 :: got =>
            if (op =? 0x03) && (busy c =? 0)%nat
            then (mem c ((address a2 a1 a0 + Z.of_nat (length got))
                         mod CAPACITY), c')
            else (0xFF, c')
        | _ => (0xFF, c')
        end
  end.

(** Modelled from the spec: deselecting the double executes the latched
    command: the latch is set and reset by Write Enable and Write Disable,
    and an erase or program is carried out only with the latch set and no
    cycle in progress. *)
Definition chip_deassert (c : chip) : chip :=
  let c0 := with_latched [] c in
  if (0 <? busy c)%nat then c0
  else
    match latched c with
    | [op] =>
        if op =? 0x06 then with_wel true c0
        else if op =? 0x04 then with_wel false c0
        else if (op =? 0xC7) && wel c
        then start_cycle (with_mem (fun _ => 0xFF) c0)
        else c0
    | op :: a2 :: a1 :: a0 :: data =>
        if (op =? 0xD8) && wel c && (length data =? 0)%nat
        then start_cycle
               (with_mem (erase_sector (address a2 a1 a0) (mem c)) c0)
        else if (op =? 0x02) && wel c && (0 <? length data)%nat
        then start_cycle
               (with_mem (program_page (address a2 a1 a0) data (mem c)) c0)
        else c0
    | _ => c0
    end.

(** Modelled from the spec: the double as a transport; selecting the chip
    starts a new command. *)
#[global] Instance chip_transport : Transport chip := {
  hw_init c := c;
  hw_assert c := with_latched [] c;
  hw_transmit := chip_transmit;
  hw_deassert := chip_deassert
}.

(** A double at rest holding memory [m], whose cycles last [n] polls. *)
Definition idle_chip (m : Z -> Z) (n : nat) : chip :=
  {| mem := m; wel := false; busy := 0; cycle := n; latched := [] |}.

Definition chip_bus (c : chip) : bus chip := {| hw := c; wire := [] |}.

(** The bytes of [m] at [addr], [addr + 1], ... *)
Definition peek (m : Z -> Z) (addr : Z) (n : nat) : list Z :=
  map (fun k => m (addr + Z.of_nat k)) (seq 0 n).

End Double.

(** ** Further vocabulary *)

Definition is_byte (x : Z) : Prop := 0 <= x < 256.

(** The log entries of the bytes [out] exchanged against the answers
    [ins]. *)
Definition transmit_events (out ins : list Z) : list spi_event :=
  map (fun x => EvTransmit (fst x) (snd x)) (combine out ins).

(** [c] adds to the log one frame that carries the single byte [op], and
    the transport sees a select, that one exchange and a deselect. *)
Definition sends_only {dev : Type} {T : Transport dev} (op : Z)
  (c : spi dev unit) (b : bus dev) : Prop :=
  exists r,
    wire (snd (c b)) = wire b ++ [EvAssert; EvTransmit op r; EvDeassert]
    /\ hw (snd (c b))
       = hw_deassert (snd (hw_transmit op (hw_assert (hw b)))).

(** A device that answers WIP set to every status read, however many. *)
Definition stuck {dev : Type} {T : Transport dev} (d : dev) : Prop :=
  forall k : nat,
    Z.testbit (status_answer (Nat.iter k (after_frame [0x05; 0x00]) d)) 0
    = true.

(** The identification structure of one driver read as that of the other:
    the two declarations have the same members. *)
Definition as_m25px16 (p : m25p16_identification_t)
  : M25PX16.m25px16_identification_t :=
  {| M25PX16.manufacturer := manufacturer p;
     M25PX16.memory_type := memory_type p;
     M25PX16.memory_capacity := memory_capacity p;
     M25PX16.cfd_length := cfd_length p;
     M25PX16.cfd_content := cfd_content p |}.

(** * Properties *)

(** ** Machine integers *)

Lemma to_uint8_range (x : Z) : 0 <= to_uint8 x < 256.
Proof. unfold to_uint8. apply Z.mod_pos_bound. lia. Qed.

Lemma to_uint8_small (x : Z) : 0 <= x < 256 -> to_uint8 x = x.
Proof. intros H. unfold to_uint8. apply Z.mod_small. exact H. Qed.

Lemma to_uint8_idem (x : Z) : to_uint8 (to_uint8 x) = to_uint8 x.
Proof. apply to_uint8_small, to_uint8_range. Qed.

(** The C test [sreg & (1 << 0)] is the test of bit 0. *)
Lemma wip_test_bit0 (sreg : Z) :
  c_true (M25P16_SREG_WRITE_IN_PROGRESS sreg) = Z.testbit sreg 0.
Proof.
  unfold c_true, M25P16_SREG_WRITE_IN_PROGRESS.
  change (Z.shiftl 1 0) with (Z.ones 1).
  rewrite Z.land_ones by lia.
  change (2 ^ 1) with 2.
  rewrite <- Z.bit0_mod.
  now destruct (Z.testbit sreg 0).
Qed.

(** ** Exchanges, frames and transactions *)

Lemma combine_split_app {A B : Type} (l1 l2 : list A) (r1 r2 : list B) :
  length l1 = length r1 ->
  combine (l1 ++ l2) (r1 ++ r2) = combine l1 r1 ++ combine l2 r2.
Proof.
  revert r1. induction l1 as [|a l1 IH]; intros [|b r1] H;
    simpl in *; try discriminate; [reflexivity|].
  f_equal. apply IH. now injection H.
Qed.

Section WireFacts.
Context {dev : Type} {T : Transport dev}.

Lemma exchange_length (out : list Z) (d : dev) :
  length (fst (exchange out d)) = length out.
Proof.
  revert d. induction out as [|x t IH]; intros d; simpl; [reflexivity|].
  destruct (hw_transmit (to_uint8 x) d) as [r d1].
  specialize (IH d1). destruct (exchange t d1) as [rs d2]. simpl in *.
  now rewrite IH.
Qed.

Lemma exchange_app (l1 l2 : list Z) (d : dev) :
  exchange (l1 ++ l2) d =
  (fst (exchange l1 d) ++ fst (exchange l2 (snd (exchange l1 d))),
   snd (exchange l2 (snd (exchange l1 d)))).
Proof.
  revert d. induction l1 as [|x t IH]; intros d; simpl.
  - now destruct (exchange l2 d).
  - destruct (hw_transmit (to_uint8 x) d) as [r d1].
    rewrite IH. destruct (exchange t d1) as [rs d2]. reflexivity.
Qed.

Lemma exchange_bytes (out : list Z) (d : dev) :
  Forall (fun r => 0 <= r < 256) (fst (exchange out d)).
Proof.
  revert d. induction out as [|x t IH]; intros d; simpl; [constructor|].
  destruct (hw_transmit (to_uint8 x) d) as [r d1].
  specialize (IH d1). destruct (exchange t d1) as [rs d2]. simpl in *.
  constructor; [apply to_uint8_range | exact IH].
Qed.

Lemma clock_length (out : list Z) (b : bus dev) :
  length (fst (clock out b)) = length out.
Proof.
  unfold clock. pose proof (exchange_length out (hw b)) as H.
  destruct (exchange out (hw b)). exact H.
Qed.

Lemma clock_nil (b : bus dev) : clock [] b = ([], b).
Proof.
  unfold clock. simpl. rewrite app_nil_r. now destruct b.
Qed.

Lemma clock_app (l1 l2 : list Z) (b : bus dev) :
  clock (l1 ++ l2) b =
  (fst (clock l1 b) ++ fst (clock l2 (snd (clock l1 b))),
   snd (clock l2 (snd (clock l1 b)))).
Proof.
  unfold clock. rewrite exchange_app.
  pose proof (exchange_length l1 (hw b)) as H1.
  destruct (exchange l1 (hw b)) as [i1 d1]. simpl in *.
  destruct (exchange l2 d1) as [i2 d2]. simpl.
  f_equal. f_equal.
  rewrite <- app_assoc, <- map_app. f_equal. f_equal.
  apply combine_split_app. now rewrite H1.
Qed.

Lemma SPI_TRANSMIT_clock (D : Z) (b : bus dev) :
  SPI_TRANSMIT D b = (nth 0 (fst (clock [D] b)) 0, snd (clock [D] b)).
Proof.
  unfold SPI_TRANSMIT, clock. simpl.
  destruct (hw_transmit (to_uint8 D) (hw b)) as [r h]. reflexivity.
Qed.

Lemma clock_cons (x : Z) (l : list Z) (b : bus dev) :
  clock (x :: l) b =
  (fst (SPI_TRANSMIT x b) :: fst (clock l (snd (SPI_TRANSMIT x b))),
   snd (clock l (snd (SPI_TRANSMIT x b)))).
Proof.
  change (x :: l) with ([x] ++ l). rewrite clock_app.
  rewrite SPI_TRANSMIT_clock. simpl.
  pose proof (clock_length [x] b) as H.
  destruct (clock [x] b) as [i1 b1]. simpl in *.
  destruct i1 as [|r [|? ?]]; simpl in H; try discriminate. reflexivity.
Qed.

Lemma transaction_clock (out : list Z) (b : bus dev) :
  transaction out b =
  (fst (clock out (snd (SPI_ASSERT b))),
   snd (SPI_DEASSERT (snd (clock out (snd (SPI_ASSERT b)))))).
Proof.
  unfold transaction, clock, SPI_ASSERT, SPI_DEASSERT, frame. simpl.
  destruct (exchange out (hw_assert (hw b))) as [ins d]. simpl.
  f_equal. f_equal. now rewrite <- !app_assoc.
Qed.

Lemma transaction_length (out : list Z) (b : bus dev) :
  length (fst (transaction out b)) = length out.
Proof. rewrite transaction_clock. simpl. apply clock_length. Qed.

Lemma transaction_wire (out : list Z) (b : bus dev) :
  wire (snd (transaction out b)) =
  wire b ++ frame out (fst (transaction out b)).
Proof.
  unfold transaction. now destruct (exchange out (hw_assert (hw b))).
Qed.

Lemma transaction_hw (out : list Z) (b : bus dev) :
  hw (snd (transaction out b)) = after_frame out (hw b).
Proof.
  unfold transaction, after_frame.
  now destruct (exchange out (hw_assert (hw b))).
Qed.

Lemma transaction_bytes (out : list Z) (b : bus dev) :
  Forall (fun r => 0 <= r < 256) (fst (transaction out b)).
Proof.
  unfold transaction. pose proof (exchange_bytes out (hw_assert (hw b))) as H.
  now destruct (exchange out (hw_assert (hw b))).
Qed.
End WireFacts.

Lemma emitted_app {dev : Type} (b b' : bus dev) (tr : list spi_event) :
  wire b' = wire b ++ tr -> emitted b b' = tr.
Proof.
  intros H. unfold emitted. rewrite H.
  rewrite skipn_app, skipn_all, Nat.sub_diag. reflexivity.
Qed.

Lemma frame_scoped (out ins : list Z) : scoped (frame out ins).
Proof.
  unfold scoped, frame. eexists. split; [reflexivity|].
  apply forallb_forall. intros e He. apply in_map_iff in He.
  destruct He as [x [<- _]]. reflexivity.
Qed.

Lemma first_byte_frame (o : Z) (out ins : list Z) :
  length ins = length (o :: out) ->
  first_byte (frame (o :: out) ins) = Some (to_uint8 o).
Proof.
  intros H. destruct ins as [|r ins]; [discriminate|]. reflexivity.
Qed.

(** ** Loops of exchanges *)

Section LoopFacts.
Context {dev : Type} {T : Transport dev}.

Lemma for_loop_transmit (buf : list Z) (n i : nat) (b : bus dev) :
  for_loop n i (fun i (_ : unit) => SPI_TRANSMIT (nth i buf 0) ;; ret tt) tt b
  = (tt, snd (clock (map (fun j => nth j buf 0) (seq i n)) b)).
Proof.
  revert i b. induction n as [|n IH]; intros i b.
  - cbn [for_loop seq map]. now rewrite clock_nil.
  - cbn [for_loop seq map]. rewrite clock_cons. cbn [snd].
    unfold bind at 1. unfold bind at 1.
    destruct (SPI_TRANSMIT (nth i buf 0) b) as [r b1]. cbn [ret snd].
    apply IH.
Qed.

Lemma for_loop_receive {St : Type} (store : nat -> Z -> St -> St)
  (n i : nat) (s : St) (b : bus dev) :
  for_loop n i (fun i s => v <- SPI_TRANSMIT 0 ;; ret (store i v s)) s b
  = (store_each store i (fst (clock (repeat 0 n) b)) s,
     snd (clock (repeat 0 n) b)).
Proof.
  revert i s b. induction n as [|n IH]; intros i s b.
  - cbn [for_loop repeat]. now rewrite clock_nil.
  - cbn [for_loop repeat]. rewrite clock_cons. cbn [fst snd store_each].
    unfold bind at 1. unfold bind at 1.
    destruct (SPI_TRANSMIT 0 b) as [r b1]. cbn [ret fst snd].
    apply IH.
Qed.
End LoopFacts.

Lemma store_each_length (i : nat) (vs : list Z) (a : carray) :
  length (cells (store_all i vs a)) = length (cells a).
Proof.
  unfold store_all. revert i a. induction vs as [|v t IH]; intros i a; simpl;
    [reflexivity|].
  rewrite IH. unfold array_store.
  destruct (i <? length (cells a))%nat; simpl; [|reflexivity].
  generalize (cells a). clear. intros l. revert i.
  induction l as [|h l IHl]; intros [|i]; simpl; auto.
Qed.

(** ** Every driver function is one transaction *)

Lemma bind_run {dev A B : Type} (c : spi dev A) (k : A -> spi dev B)
  (b : bus dev) :
  bind c k b = k (fst (c b)) (snd (c b)).
Proof. unfold bind. now destruct (c b). Qed.

Ltac run_frame :=
  rewrite transaction_clock;
  repeat (rewrite clock_app || rewrite clock_cons || rewrite clock_nil);
  repeat (first [ rewrite bind_run
                | rewrite for_loop_transmit
                | rewrite for_loop_receive ];
          cbv beta);
  cbn [ret fst snd nth app skipn];
  try reflexivity;
  try (match goal with
       | |- context [SPI_DEASSERT ?b] =>
           destruct (SPI_DEASSERT b) as [[] ?]; reflexivity
       end).

Section Frames16.
Context {dev : Type} {T : Transport dev}.

Lemma m25p16_write_enable_frame (b : bus dev) :
  m25p16_write_enable b = (tt, snd (transaction [CMD_WRITE_ENABLE] b)).
Proof. unfold m25p16_write_enable. run_frame. Qed.

Lemma m25p16_write_disable_frame (b : bus dev) :
  m25p16_write_disable b = (tt, snd (transaction [CMD_WRITE_DISABLE] b)).
Proof. unfold m25p16_write_disable. run_frame. Qed.

Lemma m25p16_read_status_register_frame (b : bus dev) :
  m25p16_read_status_register b =
  (nth 1 (fst (transaction [CMD_READ_STATUS_REGISTER; 0] b)) 0,
   snd (transaction [CMD_READ_STATUS_REGISTER; 0] b)).
Proof. unfold m25p16_read_status_register. run_frame. Qed.

Lemma m25p16_write_status_register_frame (sreg : Z) (b : bus dev) :
  m25p16_write_status_register sreg b =
  (tt, snd (transaction [CMD_WRITE_STATUS_REGISTER; sreg] b)).
Proof. unfold m25p16_write_status_register. run_frame. Qed.

Lemma m25p16_sector_erase_frame (addr : Z) (b : bus dev) :
  m25p16_sector_erase addr b =
  (tt,
   snd (transaction
          [CMD_SECTOR_ERASE; Z.shiftr addr 16; Z.shiftr addr 8;
           Z.shiftr addr 0] b)).
Proof. unfold m25p16_sector_erase. run_frame. Qed.

Lemma m25p16_bulk_erase_frame (b : bus dev) :
  m25p16_bulk_erase b = (tt, snd (transaction [CMD_BULK_ERASE] b)).
Proof. unfold m25p16_bulk_erase. run_frame. Qed.

Lemma m25p16_deep_power_down_frame (b : bus dev) :
  m25p16_deep_power_down b = (tt, snd (transaction [CMD_DEEP_POWER_DOWN] b)).
Proof. unfold m25p16_deep_power_down. run_frame. Qed.

Lemma m25p16_release_from_deep_power_down_frame (b : bus dev) :
  m25p16_release_from_deep_power_down b =
  (tt, snd (transaction [CMD_RELEASE_FROM_DEEP_POWER_DOWN] b)).
Proof. unfold m25p16_release_from_deep_power_down. run_frame. Qed.

Lemma m25p16_page_program_frame (addr : Z) (buf : list Z) (siz : Z)
  (b : bus dev) :
  m25p16_page_program addr buf siz b =
  (tt,
   snd (transaction
          ([CMD_PAGE_PROGRAM; Z.shiftr addr 16; Z.shiftr addr 8;
            Z.shiftr addr 0] ++ buffer_bytes buf siz) b)).
Proof. unfold m25p16_page_program, buffer_bytes. run_frame. Qed.

Lemma m25p16_read_data_bytes_frame (addr : Z) (buf : carray) (siz : Z)
  (b : bus dev) :
  m25p16_read_data_bytes addr buf siz b =
  (store_all 0
     (skipn 4
        (fst (transaction
                ([CMD_READ_DATA_BYTES; Z.shiftr addr 16; Z.shiftr addr 8;
                  Z.shiftr addr 0] ++ repeat 0 (Z.to_nat siz)) b))) buf,
   snd (transaction
          ([CMD_READ_DATA_BYTES; Z.shiftr addr 16; Z.shiftr addr 8;
            Z.shiftr addr 0] ++ repeat 0 (Z.to_nat siz)) b)).
Proof. unfold m25p16_read_data_bytes, store_all. run_frame. Qed.
End Frames16.

Section Identification16.
Context {dev : Type} {T : Transport dev}.

Lemma clock_answers (out : list Z) (b : bus dev) :
  fst (clock out b) = fst (exchange out (hw b)).
Proof. unfold clock. now destruct (exchange out (hw b)). Qed.

Lemma store_cfd_content (i : nat) (vs : list Z)
  (p : m25p16_identification_t) :
  store_each set_cfd_content i vs p =
  {| manufacturer := manufacturer p;
     memory_type := memory_type p;
     memory_capacity := memory_capacity p;
     cfd_length := cfd_length p;
     cfd_content := store_all i vs (cfd_content p) |}.
Proof.
  unfold store_all. revert i p. induction vs as [|v t IH]; intros i p.
  - now destruct p.
  - cbn [store_each]. rewrite IH. reflexivity.
Qed.

Lemma m25p16_read_identification_frame (p : m25p16_identification_t)
  (b : bus dev) :
  let n := Z.to_nat (reported_cfd_length (hw b)) in
  let tx := transaction (CMD_READ_IDENTIFICATION :: repeat 0 (4 + n)) b in
  m25p16_read_identification p b =
  ({| manufacturer := nth 1 (fst tx) 0;
      memory_type := nth 2 (fst tx) 0;
      memory_capacity := nth 3 (fst tx) 0;
      cfd_length := nth 4 (fst tx) 0;
      cfd_content := store_all 0 (skipn 5 (fst tx)) (cfd_content p) |},
   snd tx).
Proof.
  intros n tx. subst tx.
  assert (E : reported_cfd_length (hw b) =
              nth 4 (fst (clock [CMD_READ_IDENTIFICATION; 0; 0; 0; 0]
                            (snd (SPI_ASSERT b)))) 0).
  { rewrite clock_answers. reflexivity. }
  subst n. rewrite E. clear E.
  change (CMD_READ_IDENTIFICATION
            :: repeat 0 (4 + ?k))
    with ([CMD_READ_IDENTIFICATION; 0; 0; 0; 0] ++ repeat 0 k).
  unfold m25p16_read_identification.
  rewrite transaction_clock.
  repeat (rewrite clock_app || rewrite clock_cons || rewrite clock_nil).
  repeat (first [ rewrite bind_run | rewrite for_loop_receive ]; cbv beta).
  cbn [ret fst snd nth app skipn cfd_length set_cfd_length].
  rewrite store_cfd_content.
  cbn [manufacturer memory_type memory_capacity cfd_length cfd_content
       set_manufacturer set_memory_type set_memory_capacity set_cfd_length].
  destruct (SPI_DEASSERT _) as [[] ?]. reflexivity.
Qed.
End Identification16.

(** The same for the M25PX16 driver. *)

Module X16Frames.
Import M25PX16.

Section FramesX16.
Context {dev : Type} {T : Transport dev}.

Lemma m25px16_write_enable_frame (b : bus dev) :
  m25px16_write_enable b = (tt, snd (transaction [CMD_WRITE_ENABLE] b)).
Proof. unfold m25px16_write_enable. run_frame. Qed.

Lemma m25px16_write_disable_frame (b : bus dev) :
  m25px16_write_disable b = (tt, snd (transaction [CMD_WRITE_DISABLE] b)).
Proof. unfold m25px16_write_disable. run_frame. Qed.

Lemma m25px16_read_status_register_frame (b : bus dev) :
  m25px16_read_status_register b =
  (nth 1 (fst (transaction [CMD_READ_STATUS_REGISTER; 0] b)) 0,
   snd (transaction [CMD_READ_STATUS_REGISTER; 0] b)).
Proof. unfold m25px16_read_status_register. run_frame. Qed.

Lemma m25px16_write_status_register_frame (sreg : Z) (b : bus dev) :
  m25px16_write_status_register sreg b =
  (tt, snd (transaction [CMD_WRITE_STATUS_REGISTER; sreg] b)).
Proof. unfold m25px16_write_status_register. run_frame. Qed.

Lemma m25px16_sector_erase_frame (addr : Z) (b : bus dev) :
  m25px16_sector_erase addr b =
  (tt,
   snd (transaction
          [CMD_SECTOR_ERASE; Z.shiftr addr 16; Z.shiftr addr 8;
           Z.shiftr addr 0] b)).
Proof. unfold m25px16_sector_erase. run_frame. Qed.

Lemma m25px16_bulk_erase_frame (b : bus dev) :
  m25px16_bulk_erase b = (tt, snd (transaction [CMD_BULK_ERASE] b)).
Proof. unfold m25px16_bulk_erase. run_frame. Qed.

Lemma m25px16_deep_power_down_frame (b : bus dev) :
  m25px16_deep_power_down b = (tt, snd (transaction [CMD_DEEP_POWER_DOWN] b)).
Proof. unfold m25px16_deep_power_down. run_frame. Qed.

Lemma m25px16_release_from_deep_power_down_frame (b : bus dev) :
  m25px16_release_from_deep_power_down b =
  (tt, snd (transaction [CMD_RELEASE_FROM_DEEP_POWER_DOWN] b)).
Proof. unfold m25px16_release_from_deep_power_down. run_frame. Qed.

Lemma m25px16_page_program_frame (addr : Z) (buf : list Z) (siz : Z)
  (b : bus dev) :
  m25px16_page_program addr buf siz b =
  (tt,
   snd (transaction
          ([CMD_PAGE_PROGRAM; Z.shiftr addr 16; Z.shiftr addr 8;
            Z.shiftr addr 0] ++ buffer_bytes buf siz) b)).
Proof. unfold m25px16_page_program, buffer_bytes. run_frame. Qed.

Lemma m25px16_read_data_bytes_frame (addr : Z) (buf : carray) (siz : Z)
  (b : bus dev) :
  m25px16_read_data_bytes addr buf siz b =
  (store_all 0
     (skipn 4
        (fst (transaction
                ([CMD_READ_DATA_BYTES; Z.shiftr addr 16; Z.shiftr addr 8;
                  Z.shiftr addr 0] ++ repeat 0 (Z.to_nat siz)) b))) buf,
   snd (transaction
          ([CMD_READ_DATA_BYTES; Z.shiftr addr 16; Z.shiftr addr 8;
            Z.shiftr addr 0] ++ repeat 0 (Z.to_nat siz)) b)).
Proof. unfold m25px16_read_data_bytes, store_all. run_frame. Qed.
Lemma m25px16_write_lock_register_frame (addr lock_register : Z)
  (b : bus dev) :
  m25px16_write_lock_register addr lock_register b =
  (tt,
   snd (transaction
          [CMD_WRITE_LOCK_REGISTER; Z.shiftr addr 16; Z.shiftr addr 8;
           Z.shiftr addr 0; lock_register] b)).
Proof. unfold m25px16_write_lock_register. run_frame. Qed.

Lemma m25px16_read_lock_register_frame (addr : Z) (b : bus dev) :
  m25px16_read_lock_register addr b =
  (nth 4
     (fst (transaction
             [CMD_READ_LOCK_REGISTER; Z.shiftr addr 16; Z.shiftr addr 8;
              Z.shiftr addr 0; 0] b)) 0,
   snd (transaction
          [CMD_READ_LOCK_REGISTER; Z.shiftr addr 16; Z.shiftr addr 8;
           Z.shiftr addr 0; 0] b)).
Proof. unfold m25px16_read_lock_register. run_frame. Qed.

End FramesX16.

Section IdentificationX16.
Context {dev : Type} {T : Transport dev}.

Lemma store_cfd_content_x (i : nat) (vs : list Z)
  (p : m25px16_identification_t) :
  store_each set_cfd_content i vs p =
  {| manufacturer := manufacturer p;
     memory_type := memory_type p;
     memory_capacity := memory_capacity p;
     cfd_length := cfd_length p;
     cfd_content := store_all i vs (cfd_content p) |}.
Proof.
  unfold store_all. revert i p. induction vs as [|v t IH]; intros i p.
  - now destruct p.
  - cbn [store_each]. rewrite IH. reflexivity.
Qed.

Lemma m25px16_read_identification_frame (p : m25px16_identification_t)
  (b : bus dev) :
  let n := Z.to_nat (reported_cfd_length (hw b)) in
  let tx := transaction (CMD_READ_IDENTIFICATION :: repeat 0 (4 + n)) b in
  m25px16_read_identification p b =
  ({| manufacturer := nth 1 (fst tx) 0;
      memory_type := nth 2 (fst tx) 0;
      memory_capacity := nth 3 (fst tx) 0;
      cfd_length := nth 4 (fst tx) 0;
      cfd_content := store_all 0 (skipn 5 (fst tx)) (cfd_content p) |},
   snd tx).
Proof.
  intros n tx. subst tx.
  assert (E : reported_cfd_length (hw b) =
              nth 4 (fst (clock [CMD_READ_IDENTIFICATION; 0; 0; 0; 0]
                            (snd (SPI_ASSERT b)))) 0).
  { rewrite clock_answers. reflexivity. }
  subst n. rewrite E. clear E.
  change (CMD_READ_IDENTIFICATION
            :: repeat 0 (4 + ?k))
    with ([CMD_READ_IDENTIFICATION; 0; 0; 0; 0] ++ repeat 0 k).
  unfold m25px16_read_identification.
  rewrite transaction_clock.
  repeat (rewrite clock_app || rewrite clock_cons || rewrite clock_nil).
  repeat (first [ rewrite bind_run | rewrite for_loop_receive ]; cbv beta).
  cbn [ret fst snd nth app skipn cfd_length set_cfd_length].
  rewrite store_cfd_content_x.
  cbn [manufacturer memory_type memory_capacity cfd_length cfd_content
       set_manufacturer set_memory_type set_memory_capacity set_cfd_length].
  destruct (SPI_DEASSERT _) as [[] ?]. reflexivity.
Qed.
End IdentificationX16.

End X16Frames.

(** ** The operation tables *)

Section Tables.
Context {dev : Type} {T : Transport dev}.

Lemma perform16_transaction (c : Ops16.command) (b : bus dev) :
  exists out,
    Ops16.perform c b = snd (transaction (Ops16.spec_opcode c :: out) b).
Proof.
  destruct c; cbn [Ops16.perform Ops16.spec_opcode].
  - rewrite m25p16_write_enable_frame. now exists [].
  - rewrite m25p16_write_disable_frame. now exists [].
  - pose proof (m25p16_read_identification_frame p b) as H. cbv zeta in H.
    rewrite H. eexists. reflexivity.
  - rewrite m25p16_read_status_register_frame. eexists. reflexivity.
  - rewrite m25p16_write_status_register_frame. eexists. reflexivity.
  - rewrite m25p16_read_data_bytes_frame. eexists. reflexivity.
  - rewrite m25p16_page_program_frame. eexists. reflexivity.
  - rewrite m25p16_sector_erase_frame. eexists. reflexivity.
  - rewrite m25p16_bulk_erase_frame. now exists [].
  - rewrite m25p16_deep_power_down_frame. now exists [].
  - rewrite m25p16_release_from_deep_power_down_frame. now exists [].
Qed.

Lemma performX16_transaction (c : OpsX16.command) (b : bus dev) :
  exists out,
    OpsX16.perform c b = snd (transaction (OpsX16.spec_opcode c :: out) b).
Proof.
  destruct c; cbn [OpsX16.perform OpsX16.spec_opcode].
  - rewrite X16Frames.m25px16_write_enable_frame. now exists [].
  - rewrite X16Frames.m25px16_write_disable_frame. now exists [].
  - pose proof (X16Frames.m25px16_read_identification_frame p b) as H.
    cbv zeta in H. rewrite H. eexists. reflexivity.
  - rewrite X16Frames.m25px16_read_status_register_frame.
    eexists. reflexivity.
  - rewrite X16Frames.m25px16_write_status_register_frame.
    eexists. reflexivity.
  - rewrite X16Frames.m25px16_write_lock_register_frame.
    eexists. reflexivity.
  - rewrite X16Frames.m25px16_read_lock_register_frame. eexists. reflexivity.
  - rewrite X16Frames.m25px16_read_data_bytes_frame. eexists. reflexivity.
  - rewrite X16Frames.m25px16_page_program_frame. eexists. reflexivity.
  - rewrite X16Frames.m25px16_sector_erase_frame. eexists. reflexivity.
  - rewrite X16Frames.m25px16_bulk_erase_frame. now exists [].
  - rewrite X16Frames.m25px16_deep_power_down_frame. now exists [].
  - rewrite X16Frames.m25px16_release_from_deep_power_down_frame.
    now exists [].
Qed.

Lemma transaction_first_byte (o : Z) (out : list Z) (b : bus dev) :
  first_byte (emitted b (snd (transaction (o :: out) b))) = Some (to_uint8 o).
Proof.
  rewrite (emitted_app _ _ _ (transaction_wire (o :: out) b)).
  apply first_byte_frame, transaction_length.
Qed.

Lemma transaction_scoped (out : list Z) (b : bus dev) :
  exists tr,
    wire (snd (transaction out b)) = wire b ++ tr /\ scoped tr.
Proof.
  eexists. split; [apply transaction_wire | apply frame_scoped].
Qed.
End Tables.

(** C6.  Every operation of the M25P16 driver and of the M25PX16 driver puts
    on the wire, as the first byte after selecting the chip, the opcode that
    the table of the specification gives for it: 0x06, 0x04, 0x9F, 0x05,
    0x01, 0x03, 0x02, 0xD8, 0xC7, 0xB9, 0xAB, and 0xE5 and 0xE8 for the lock
    register commands of the extended variant. *)
Theorem opcodes_match_table :
  forall (dev : Type) (T : Transport dev) (b : bus dev),
    (forall c : Ops16.command,
        first_byte (emitted b (Ops16.perform c b))
        = Some (Ops16.spec_opcode c))
    /\ (forall c : OpsX16.command,
        first_byte (emitted b (OpsX16.perform c b))
        = Some (OpsX16.spec_opcode c)).
Proof.
  intros dev T b. split; intros c.
  - destruct (perform16_transaction c b) as [out ->].
    rewrite transaction_first_byte. now destruct c.
  - destruct (performX16_transaction c b) as [out ->].
    rewrite transaction_first_byte. now destruct c.
Qed.

(** C8.  Every operation of either driver makes exactly one scoped
    acquisition of the bus: what it adds to the log is one select, then
    byte exchanges only, then one deselect, which is the last thing it
    does: the bus is never left selected and nothing is exchanged while it
    is deselected. *)
Theorem operations_are_scoped :
  forall (dev : Type) (T : Transport dev) (b : bus dev),
    (forall c : Ops16.command,
        exists tr, wire (Ops16.perform c b) = wire b ++ tr /\ scoped tr)
    /\ (forall c : OpsX16.command,
        exists tr, wire (OpsX16.perform c b) = wire b ++ tr /\ scoped tr).
Proof.
  intros dev T b. split; intros c.
  - destruct (perform16_transaction c b) as [out ->].
    apply transaction_scoped.
  - destruct (performX16_transaction c b) as [out ->].
    apply transaction_scoped.
Qed.

(** ** Addresses on the wire *)

Lemma address_on_wire (a : Z) :
  map to_uint8
    [Z.shiftr (to_uint32 a) 16; Z.shiftr (to_uint32 a) 8;
     Z.shiftr (to_uint32 a) 0]
  = address_bytes a.
Proof.
  unfold address_bytes, to_uint8, to_uint32. cbn [map].
  rewrite !Z.shiftr_div_pow2 by lia.
  change (2 ^ 16) with 65536. change (2 ^ 8) with 256. change (2 ^ 0) with 1.
  rewrite Z.div_1_r.
  f_equal; [|f_equal; [|f_equal]]; Z.div_mod_to_equations; lia.
Qed.

Lemma address_bytes_bytes (a : Z) : map to_uint8 (address_bytes a) = address_bytes a.
Proof.
  unfold address_bytes. cbn [map].
  rewrite !to_uint8_small by (apply Z.mod_pos_bound; lia). reflexivity.
Qed.

Lemma address_bytes_big_endian (a : Z) :
  0 <= a < 16777216 ->
  exists b2 b1 b0,
    address_bytes a = [b2; b1; b0]
    /\ 0 <= b2 < 256 /\ 0 <= b1 < 256 /\ 0 <= b0 < 256
    /\ a = b2 * 65536 + b1 * 256 + b0.
Proof.
  intros H. unfold address_bytes. do 3 eexists. split; [reflexivity|].
  Z.div_mod_to_equations. lia.
Qed.

Lemma sector_address_bytes (s : Z) :
  address_bytes (s * M25P16_SECTOR_BYTE_SIZE) = [s mod 256; 0; 0].
Proof.
  unfold address_bytes, M25P16_SECTOR_BYTE_SIZE.
  f_equal; [|f_equal; [|f_equal]]; Z.div_mod_to_equations; lia.
Qed.

Section Extensionality.
Context {dev : Type} {T : Transport dev}.

Lemma exchange_ext (l1 l2 : list Z) (d : dev) :
  map to_uint8 l1 = map to_uint8 l2 -> exchange l1 d = exchange l2 d.
Proof.
  revert l2 d. induction l1 as [|x t IH]; intros [|y u] d H;
    simpl in H; try discriminate; [reflexivity|].
  injection H as Hx Ht. simpl. rewrite Hx.
  destruct (hw_transmit (to_uint8 y) d) as [r d1].
  now rewrite (IH u d1 Ht).
Qed.

Lemma frame_ext (l1 l2 ins : list Z) :
  map to_uint8 l1 = map to_uint8 l2 -> frame l1 ins = frame l2 ins.
Proof.
  intros H. unfold frame. do 2 f_equal.
  revert l2 ins H. induction l1 as [|x t IH]; intros [|y u] ins H;
    simpl in H; try discriminate; [reflexivity|].
  injection H as Hx Ht. destruct ins as [|r ins]; [reflexivity|].
  simpl. rewrite Hx. f_equal. now apply IH.
Qed.

Lemma transaction_ext (l1 l2 : list Z) (b : bus dev) :
  map to_uint8 l1 = map to_uint8 l2 -> transaction l1 b = transaction l2 b.
Proof.
  intros H. unfold transaction. rewrite (exchange_ext l1 l2 _ H).
  destruct (exchange l2 (hw_assert (hw b))) as [ins d].
  now rewrite (frame_ext l1 l2 ins H).
Qed.

Lemma transaction_answers (out : list Z) (b : bus dev) :
  fst (transaction out b) = fst (exchange out (hw_assert (hw b))).
Proof.
  unfold transaction. now destruct (exchange out (hw_assert (hw b))).
Qed.
End Extensionality.

(** ** The calls of the facade, as seen on the wire *)

Lemma issued_one (c : driver_call) (tr : list spi_event) :
  on_wire c tr -> issued [c] tr.
Proof.
  intros H. rewrite <- (app_nil_r tr). apply issued_cons; [exact H|].
  constructor.
Qed.

Lemma issued_app (cs1 cs2 : list driver_call) (tr1 tr2 : list spi_event) :
  issued cs1 tr1 -> issued cs2 tr2 -> issued (cs1 ++ cs2) (tr1 ++ tr2).
Proof.
  induction 1 as [|c cs t1 t2 Hc Hcs IH]; intros H2; [exact H2|].
  rewrite <- app_assoc. simpl. apply issued_cons; auto.
Qed.

Section FacadeFacts.
Context {dev : Type} {T : Transport dev}.

Lemma write_enable_on_wire (b : bus dev) :
  exists tr,
    wire (snd (m25p16_write_enable b)) = wire b ++ tr
    /\ on_wire call_write_enable tr
    /\ hw (snd (m25p16_write_enable b))
       = after_frame (wire_out call_write_enable) (hw b).
Proof.
  rewrite m25p16_write_enable_frame. cbn [snd].
  eexists. split; [apply transaction_wire|]. split.
  - eexists. split; [apply transaction_length|]. split; [reflexivity|exact I].
  - apply transaction_hw.
Qed.

Lemma write_disable_on_wire (b : bus dev) :
  exists tr,
    wire (snd (m25p16_write_disable b)) = wire b ++ tr
    /\ on_wire call_write_disable tr
    /\ hw (snd (m25p16_write_disable b))
       = after_frame (wire_out call_write_disable) (hw b).
Proof.
  rewrite m25p16_write_disable_frame. cbn [snd].
  eexists. split; [apply transaction_wire|]. split.
  - eexists. split; [apply transaction_length|]. split; [reflexivity|exact I].
  - apply transaction_hw.
Qed.

Lemma sector_erase_on_wire (a : Z) (b : bus dev) :
  exists tr,
    wire (snd (m25p16_sector_erase (to_uint32 a) b)) = wire b ++ tr
    /\ on_wire (call_sector_erase a) tr
    /\ hw (snd (m25p16_sector_erase (to_uint32 a) b))
       = after_frame (wire_out (call_sector_erase a)) (hw b).
Proof.
  rewrite m25p16_sector_erase_frame. cbn [snd].
  rewrite (transaction_ext _ (wire_out (call_sector_erase a))).
  2:{ cbn [wire_out map]. rewrite address_bytes_bytes, <- address_on_wire.
      reflexivity. }
  eexists. split; [apply transaction_wire|]. split.
  - eexists. split; [apply transaction_length|]. split; [reflexivity|exact I].
  - apply transaction_hw.
Qed.

Lemma page_program_on_wire (a : Z) (buf : list Z) (siz : Z) (b : bus dev) :
  exists tr,
    wire (snd (m25p16_page_program (to_uint32 a) buf siz b)) = wire b ++ tr
    /\ on_wire (call_page_program a (buffer_bytes buf siz)) tr
    /\ hw (snd (m25p16_page_program (to_uint32 a) buf siz b))
       = after_frame (wire_out (call_page_program a (buffer_bytes buf siz)))
           (hw b).
Proof.
  rewrite m25p16_page_program_frame. cbn [snd].
  rewrite (transaction_ext _
             (wire_out (call_page_program a (buffer_bytes buf siz)))).
  2:{ cbn [wire_out].
      rewrite map_cons, (map_app _ (address_bytes a)), address_bytes_bytes,
        <- address_on_wire.
      reflexivity. }
  eexists. split; [apply transaction_wire|]. split.
  - eexists. split; [apply transaction_length|]. split; [reflexivity|exact I].
  - apply transaction_hw.
Qed.

Lemma read_status_register_on_wire (b : bus dev) :
  exists tr,
    wire (snd (m25p16_read_status_register b)) = wire b ++ tr
    /\ on_wire (call_read_status_register (status_answer (hw b))) tr
    /\ fst (m25p16_read_status_register b) = status_answer (hw b)
    /\ hw (snd (m25p16_read_status_register b))
       = after_frame [0x05; 0x00] (hw b).
Proof.
  rewrite m25p16_read_status_register_frame. cbn [fst snd].
  eexists. split; [apply transaction_wire|]. split; [|split].
  - eexists. split; [apply transaction_length|]. split; [reflexivity|].
    now rewrite transaction_answers.
  - now rewrite transaction_answers.
  - apply transaction_hw.
Qed.

(** The poll loop against a device that is busy for [n] status reads. *)
Lemma poll_while_busy_settles (n : nat) :
  forall (polls : nat) (b : bus dev),
    (n < polls)%nat ->
    busy_for n (hw b) = true ->
    exists busy last b' tr,
      poll_while_busy polls b = (Some last, b')
      /\ wire b' = wire b ++ tr
      /\ issued (map call_read_status_register (busy ++ [last])) tr
      /\ length busy = n /\ Forall wip_set busy /\ wip_clear last.
Proof.
  induction n as [|n IH]; intros polls b Hlt Hbusy;
    (destruct polls as [|k]; [lia|]); cbn [poll_while_busy busy_for] in *;
    destruct (read_status_register_on_wire b) as (tr & Hw & Hon & Hs & Hhw);
    destruct (m25p16_read_status_register b) as [sreg b1];
    cbn [fst snd] in *; subst sreg; rewrite wip_test_bit0.
  - apply negb_true_iff in Hbusy. rewrite Hbusy.
    exists [], (status_answer (hw b)), b1, tr.
    split; [reflexivity|]. split; [exact Hw|].
    split; [now apply issued_one|]. split; [reflexivity|].
    split; [constructor | exact Hbusy].
  - apply andb_true_iff in Hbusy. destruct Hbusy as [Hbit Hrest].
    rewrite Hbit. rewrite <- Hhw in Hrest.
    destruct (IH k b1 ltac:(lia) Hrest)
      as (busy & last & b' & tr' & Hrun & Hw' & Hiss & Hlen & Hall & Hlast).
    exists (status_answer (hw b) :: busy), last, b', (tr ++ tr').
    split; [exact Hrun|]. split; [now rewrite Hw', Hw, app_assoc|].
    split; [cbn [map app]; now apply issued_cons|].
    split; [cbn [length]; now rewrite Hlen|].
    split; [constructor; assumption | exact Hlast].
Qed.

(** A loop that was left saw a device that was busy for fewer reads than
    were watched. *)
Lemma poll_while_busy_left (polls : nat) :
  forall (b b' : bus dev) (sreg : Z),
    poll_while_busy polls b = (Some sreg, b') ->
    exists n, (n < polls)%nat /\ busy_for n (hw b) = true.
Proof.
  induction polls as [|k IH]; intros b b' sreg H;
    cbn [poll_while_busy] in H; [discriminate|].
  destruct (read_status_register_on_wire b) as (tr & _ & _ & Hs & Hhw).
  destruct (m25p16_read_status_register b) as [s b1]. cbn [fst snd] in *.
  subst s. rewrite wip_test_bit0 in H.
  destruct (Z.testbit (status_answer (hw b)) 0) eqn:Hbit.
  - destruct (IH _ _ _ H) as (n & Hn & Hb).
    exists (S n). split; [lia|]. cbn [busy_for]. now rewrite Hbit, <- Hhw.
  - exists O. split; [lia|]. cbn [busy_for]. now rewrite Hbit.
Qed.

(** What follows the mutating command in both facade functions. *)
Lemma settle_and_disable (n polls : nat) (b : bus dev) :
  (n < polls)%nat ->
  busy_for n (hw b) = true ->
  exists busy last b' tr,
    match poll_while_busy polls b with
    | (None, b3) => (None, b3)
    | (Some _, b3) => let (_, b4) := m25p16_write_disable b3 in (Some 0, b4)
    end = (Some 0, b')
    /\ wire b' = wire b ++ tr
    /\ issued (map call_read_status_register (busy ++ [last])
               ++ [call_write_disable]) tr
    /\ length busy = n /\ Forall wip_set busy /\ wip_clear last.
Proof.
  intros Hlt Hbusy.
  destruct (poll_while_busy_settles n polls b Hlt Hbusy)
    as (busy & last & b3 & tr & Hrun & Hw & Hiss & Hlen & Hall & Hlast).
  rewrite Hrun.
  destruct (write_disable_on_wire b3) as (tr' & Hw' & Hon & _).
  destruct (m25p16_write_disable b3) as [[] b4]. cbn [snd] in *.
  exists busy, last, b4, (tr ++ tr').
  split; [reflexivity|]. split; [now rewrite Hw', Hw, app_assoc|].
  split; [apply issued_app; [exact Hiss | now apply issued_one]|].
  auto.
Qed.

Lemma flash_sector_erase_run (n polls : nat) (sector : Z) (b : bus dev) :
  (n < polls)%nat ->
  busy_for n
    (after_frame
       (wire_out (call_sector_erase (sector * M25P16_SECTOR_BYTE_SIZE)))
       (after_frame (wire_out call_write_enable) (hw b))) = true ->
  exists busy last b' tr,
    flash_sector_erase polls sector b = (Some 0, b')
    /\ wire b' = wire b ++ tr
    /\ issued
         (call_write_enable
            :: call_sector_erase (sector * M25P16_SECTOR_BYTE_SIZE)
            :: map call_read_status_register (busy ++ [last])
            ++ [call_write_disable]) tr
    /\ length busy = n /\ Forall wip_set busy /\ wip_clear last.
Proof.
  intros Hlt Hbusy. unfold flash_sector_erase.
  destruct (write_enable_on_wire b) as (tr1 & Hw1 & Hon1 & Hhw1).
  destruct (m25p16_write_enable b) as [[] b1]. cbn [snd] in *.
  rewrite (Z.mul_comm M25P16_SECTOR_BYTE_SIZE sector).
  destruct (sector_erase_on_wire (sector * M25P16_SECTOR_BYTE_SIZE) b1)
    as (tr2 & Hw2 & Hon2 & Hhw2).
  destruct (m25p16_sector_erase _ b1) as [[] b2]. cbn [snd] in *.
  rewrite <- Hhw1, <- Hhw2 in Hbusy.
  destruct (settle_and_disable n polls b2 Hlt Hbusy)
    as (busy & last & b' & tr & Hrun & Hw & Hiss & Hlen & Hall & Hlast).
  exists busy, last, b', (tr1 ++ tr2 ++ tr).
  split; [exact Hrun|]. split; [now rewrite Hw, Hw2, Hw1, <- !app_assoc|].
  split; [|auto].
  apply issued_cons; [exact Hon1|]. apply issued_cons; [exact Hon2|].
  exact Hiss.
Qed.

Lemma flash_page_write_run (n polls : nat) (page : Z) (buf : list Z)
  (siz : Z) (b : bus dev) :
  siz <= M25P16_PAGE_BYTE_SIZE ->
  (n < polls)%nat ->
  busy_for n
    (after_frame
       (wire_out (call_page_program (page * M25P16_PAGE_BYTE_SIZE)
                    (buffer_bytes buf siz)))
       (after_frame (wire_out call_write_enable) (hw b))) = true ->
  exists busy last b' tr,
    flash_page_write polls page buf siz b = (Some 0, b')
    /\ wire b' = wire b ++ tr
    /\ issued
         (call_write_enable
            :: call_page_program (page * M25P16_PAGE_BYTE_SIZE)
                 (buffer_bytes buf siz)
            :: map call_read_status_register (busy ++ [last])
            ++ [call_write_disable]) tr
    /\ length busy = n /\ Forall wip_set busy /\ wip_clear last.
Proof.
  intros Hsiz Hlt Hbusy. unfold flash_page_write.
  destruct (Z.ltb_spec M25P16_PAGE_BYTE_SIZE siz) as [Hbad|_]; [lia|].
  destruct (write_enable_on_wire b) as (tr1 & Hw1 & Hon1 & Hhw1).
  destruct (m25p16_write_enable b) as [[] b1]. cbn [snd] in *.
  rewrite (Z.mul_comm M25P16_PAGE_BYTE_SIZE page).
  destruct (page_program_on_wire (page * M25P16_PAGE_BYTE_SIZE) buf siz b1)
    as (tr2 & Hw2 & Hon2 & Hhw2).
  destruct (m25p16_page_program _ buf siz b1) as [[] b2]. cbn [snd] in *.
  rewrite <- Hhw1, <- Hhw2 in Hbusy.
  destruct (settle_and_disable n polls b2 Hlt Hbusy)
    as (busy & last & b' & tr & Hrun & Hw & Hiss & Hlen & Hall & Hlast).
  exists busy, last, b', (tr1 ++ tr2 ++ tr).
  split; [exact Hrun|]. split; [now rewrite Hw, Hw2, Hw1, <- !app_assoc|].
  split; [|auto].
  apply issued_cons; [exact Hon1|]. apply issued_cons; [exact Hon2|].
  exact Hiss.
Qed.
End FacadeFacts.

Section FacadePrefix.
Context {dev : Type} {T : Transport dev}.

Lemma poll_while_busy_extends (polls : nat) :
  forall b : bus dev,
    exists tr, wire (snd (poll_while_busy polls b)) = wire b ++ tr.
Proof.
  induction polls as [|k IH]; intros b; cbn [poll_while_busy].
  - exists []. now rewrite app_nil_r.
  - destruct (read_status_register_on_wire b) as (tr & Hw & _).
    destruct (m25p16_read_status_register b) as [sreg b1]. cbn [snd] in Hw.
    destruct (c_true (M25P16_SREG_WRITE_IN_PROGRESS sreg)).
    + destruct (IH b1) as [tr' Hw']. exists (tr ++ tr').
      now rewrite Hw', Hw, app_assoc.
    + now exists tr.
Qed.

Lemma settle_extends (polls : nat) (b : bus dev) :
  exists tr,
    wire (snd (match poll_while_busy polls b with
               | (None, b3) => (None, b3)
               | (Some _, b3) =>
                   let (_, b4) := m25p16_write_disable b3 in (Some 0, b4)
               end)) = wire b ++ tr.
Proof.
  destruct (poll_while_busy_extends polls b) as [tr Hw].
  destruct (poll_while_busy polls b) as [[s|] b3]; cbn [snd] in *.
  - destruct (write_disable_on_wire b3) as (tr' & Hw' & _ & _).
    destruct (m25p16_write_disable b3) as [[] b4]. cbn [snd] in *.
    exists (tr ++ tr'). now rewrite Hw', Hw, app_assoc.
  - now exists tr.
Qed.

Lemma settle_result (polls : nat) (b : bus dev) :
  let r := fst (match poll_while_busy polls b with
                | (None, b3) => (None, b3)
                | (Some _, b3) =>
                    let (_, b4) := m25p16_write_disable b3 in (Some 0, b4)
                end) in
  r = None \/ r = Some 0.
Proof.
  destruct (poll_while_busy polls b) as [[s|] b3]; cbn zeta.
  - destruct (m25p16_write_disable b3). now right.
  - now left.
Qed.

(** Whatever the device answers, an erase starts with Write Enable and the
    Sector Erase frame of the product address. *)
Lemma flash_sector_erase_prefix (polls : nat) (sector : Z) (b : bus dev) :
  exists tr1 tr2 rest,
    wire (snd (flash_sector_erase polls sector b))
    = wire b ++ tr1 ++ tr2 ++ rest
    /\ on_wire call_write_enable tr1
    /\ on_wire (call_sector_erase (sector * M25P16_SECTOR_BYTE_SIZE)) tr2.
Proof.
  unfold flash_sector_erase.
  destruct (write_enable_on_wire b) as (tr1 & Hw1 & Hon1 & _).
  destruct (m25p16_write_enable b) as [[] b1]. cbn [snd] in *.
  rewrite (Z.mul_comm M25P16_SECTOR_BYTE_SIZE sector).
  destruct (sector_erase_on_wire (sector * M25P16_SECTOR_BYTE_SIZE) b1)
    as (tr2 & Hw2 & Hon2 & _).
  destruct (m25p16_sector_erase _ b1) as [[] b2]. cbn [snd] in *.
  destruct (settle_extends polls b2) as [rest Hw].
  exists tr1, tr2, rest. split; [|now split].
  now rewrite Hw, Hw2, Hw1, <- !app_assoc.
Qed.

Lemma flash_page_write_prefix (polls : nat) (page : Z) (buf : list Z)
  (siz : Z) (b : bus dev) :
  siz <= M25P16_PAGE_BYTE_SIZE ->
  exists tr1 tr2 rest,
    wire (snd (flash_page_write polls page buf siz b))
    = wire b ++ tr1 ++ tr2 ++ rest
    /\ on_wire call_write_enable tr1
    /\ on_wire (call_page_program (page * M25P16_PAGE_BYTE_SIZE)
                  (buffer_bytes buf siz)) tr2.
Proof.
  intros Hsiz. unfold flash_page_write.
  destruct (Z.ltb_spec M25P16_PAGE_BYTE_SIZE siz) as [Hbad|_]; [lia|].
  destruct (write_enable_on_wire b) as (tr1 & Hw1 & Hon1 & _).
  destruct (m25p16_write_enable b) as [[] b1]. cbn [snd] in *.
  rewrite (Z.mul_comm M25P16_PAGE_BYTE_SIZE page).
  destruct (page_program_on_wire (page * M25P16_PAGE_BYTE_SIZE) buf siz b1)
    as (tr2 & Hw2 & Hon2 & _).
  destruct (m25p16_page_program _ buf siz b1) as [[] b2]. cbn [snd] in *.
  destruct (settle_extends polls b2) as [rest Hw].
  exists tr1, tr2, rest. split; [|now split].
  now rewrite Hw, Hw2, Hw1, <- !app_assoc.
Qed.

Lemma flash_sector_erase_result (polls : nat) (sector : Z) (b : bus dev) :
  fst (flash_sector_erase polls sector b) = None
  \/ fst (flash_sector_erase polls sector b) = Some 0.
Proof.
  unfold flash_sector_erase.
  destruct (m25p16_write_enable b) as [[] b1].
  destruct (m25p16_sector_erase _ b1) as [[] b2].
  apply settle_result.
Qed.

Lemma flash_page_write_result (polls : nat) (page : Z) (buf : list Z)
  (siz : Z) (b : bus dev) :
  siz <= M25P16_PAGE_BYTE_SIZE ->
  fst (flash_page_write polls page buf siz b) = None
  \/ fst (flash_page_write polls page buf siz b) = Some 0.
Proof.
  intros Hsiz. unfold flash_page_write.
  destruct (Z.ltb_spec M25P16_PAGE_BYTE_SIZE siz) as [Hbad|_]; [lia|].
  destruct (m25p16_write_enable b) as [[] b1].
  destruct (m25p16_page_program _ buf siz b1) as [[] b2].
  apply settle_result.
Qed.

Lemma flash_page_read_run (page : Z) (buf : carray) (siz : Z) (b : bus dev) :
  siz <= M25P16_PAGE_BYTE_SIZE ->
  let out := 0x03 :: address_bytes (page * M25P16_PAGE_BYTE_SIZE)
                  ++ repeat 0 (Z.to_nat siz) in
  flash_page_read page buf siz b =
  (0, store_all 0 (skipn 4 (fst (transaction out b))) buf,
   snd (transaction out b)).
Proof.
  intros Hsiz out. unfold flash_page_read.
  destruct (Z.ltb_spec M25P16_PAGE_BYTE_SIZE siz) as [Hbad|_]; [lia|].
  rewrite m25p16_read_data_bytes_frame.
  rewrite (Z.mul_comm M25P16_PAGE_BYTE_SIZE page).
  rewrite (transaction_ext _ out); [reflexivity|].
  subst out.
  rewrite map_cons, (map_app _ (address_bytes _)), address_bytes_bytes,
    <- address_on_wire.
  reflexivity.
Qed.
(** A mutation that returned met a device that became ready in time. *)
Lemma flash_sector_erase_left (polls : nat) (sector : Z) (b b' : bus dev)
  (r : Z) :
  flash_sector_erase polls sector b = (Some r, b') ->
  exists n,
    (n < polls)%nat
    /\ busy_for n
         (after_frame
            (wire_out (call_sector_erase (sector * M25P16_SECTOR_BYTE_SIZE)))
            (after_frame (wire_out call_write_enable) (hw b))) = true.
Proof.
  unfold flash_sector_erase.
  destruct (write_enable_on_wire b) as (tr1 & _ & _ & Hhw1).
  destruct (m25p16_write_enable b) as [[] b1]. cbn [snd] in *.
  rewrite (Z.mul_comm M25P16_SECTOR_BYTE_SIZE sector).
  destruct (sector_erase_on_wire (sector * M25P16_SECTOR_BYTE_SIZE) b1)
    as (tr2 & _ & _ & Hhw2).
  destruct (m25p16_sector_erase _ b1) as [[] b2]. cbn [snd] in *.
  destruct (poll_while_busy polls b2) as [[s|] b3] eqn:Hpoll;
    [|discriminate].
  intros _. rewrite <- Hhw1, <- Hhw2.
  exact (poll_while_busy_left polls b2 b3 s Hpoll).
Qed.

Lemma flash_page_write_left (polls : nat) (page : Z) (buf : list Z)
  (siz : Z) (b b' : bus dev) (r : Z) :
  siz <= M25P16_PAGE_BYTE_SIZE ->
  flash_page_write polls page buf siz b = (Some r, b') ->
  exists n,
    (n < polls)%nat
    /\ busy_for n
         (after_frame
            (wire_out (call_page_program (page * M25P16_PAGE_BYTE_SIZE)
                         (buffer_bytes buf siz)))
            (after_frame (wire_out call_write_enable) (hw b))) = true.
Proof.
  intros Hsiz. unfold flash_page_write.
  destruct (Z.ltb_spec M25P16_PAGE_BYTE_SIZE siz) as [Hbad|_]; [lia|].
  destruct (write_enable_on_wire b) as (tr1 & _ & _ & Hhw1).
  destruct (m25p16_write_enable b) as [[] b1]. cbn [snd] in *.
  rewrite (Z.mul_comm M25P16_PAGE_BYTE_SIZE page).
  destruct (page_program_on_wire (page * M25P16_PAGE_BYTE_SIZE) buf siz b1)
    as (tr2 & _ & _ & Hhw2).
  destruct (m25p16_page_program _ buf siz b1) as [[] b2]. cbn [snd] in *.
  destruct (poll_while_busy polls b2) as [[s|] b3] eqn:Hpoll;
    [|discriminate].
  intros _. rewrite <- Hhw1, <- Hhw2.
  exact (poll_while_busy_left polls b2 b3 s Hpoll).
Qed.
End FacadePrefix.

(** ** The mutating protocol *)

(** C1.  Every run of [flash_sector_erase] (any sector) and of
    [flash_page_write] (any page, [siz <= page_bytes]) that returns has put
    on the wire exactly Write Enable, then the mutating command, then one or
    more Read Status Register calls of which all but the last answered WIP
    set and the last answered WIP clear, then Write Disable, in that order
    and with nothing in between.  And the run does return, with that many
    status reads, whenever the device answers busy to [n] status reads and
    ready to the next, for [n] below the number of watched polls. *)
Theorem mutations_follow_protocol :
  forall (dev : Type) (T : Transport dev) (polls : nat) (b : bus dev),
    (forall (sector r : Z) (b' : bus dev),
        flash_sector_erase polls sector b = (Some r, b') ->
        exists busy last tr,
          wire b' = wire b ++ tr
          /\ issued
               (call_write_enable
                  :: call_sector_erase (sector * M25P16_SECTOR_BYTE_SIZE)
                  :: map call_read_status_register (busy ++ [last])
                  ++ [call_write_disable]) tr
          /\ Forall wip_set busy /\ wip_clear last)
    /\ (forall (page : Z) (buf : list Z) (siz r : Z) (b' : bus dev),
        siz <= M25P16_PAGE_BYTE_SIZE ->
        flash_page_write polls page buf siz b = (Some r, b') ->
        exists busy last tr,
          wire b' = wire b ++ tr
          /\ issued
               (call_write_enable
                  :: call_page_program (page * M25P16_PAGE_BYTE_SIZE)
                       (buffer_bytes buf siz)
                  :: map call_read_status_register (busy ++ [last])
                  ++ [call_write_disable]) tr
          /\ Forall wip_set busy /\ wip_clear last)
    /\ (forall (n : nat) (sector : Z),
        (n < polls)%nat ->
        busy_for n
          (after_frame
             (wire_out (call_sector_erase (sector * M25P16_SECTOR_BYTE_SIZE)))
             (after_frame (wire_out call_write_enable) (hw b))) = true ->
        exists busy last b' tr,
          flash_sector_erase polls sector b = (Some 0, b')
          /\ wire b' = wire b ++ tr
          /\ issued
               (call_write_enable
                  :: call_sector_erase (sector * M25P16_SECTOR_BYTE_SIZE)
                  :: map call_read_status_register (busy ++ [last])
                  ++ [call_write_disable]) tr
          /\ length busy = n /\ Forall wip_set busy /\ wip_clear last)
    /\ (forall (n : nat) (page : Z) (buf : list Z) (siz : Z),
        (n < polls)%nat ->
        siz <= M25P16_PAGE_BYTE_SIZE ->
        busy_for n
          (after_frame
             (wire_out (call_page_program (page * M25P16_PAGE_BYTE_SIZE)
                          (buffer_bytes buf siz)))
             (after_frame (wire_out call_write_enable) (hw b))) = true ->
        exists busy last b' tr,
          flash_page_write polls page buf siz b = (Some 0, b')
          /\ wire b' = wire b ++ tr
          /\ issued
               (call_write_enable
                  :: call_page_program (page * M25P16_PAGE_BYTE_SIZE)
                       (buffer_bytes buf siz)
                  :: map call_read_status_register (busy ++ [last])
                  ++ [call_write_disable]) tr
          /\ length busy = n /\ Forall wip_set busy /\ wip_clear last).
Proof.
  intros dev T polls b. split; [|split; [|split]].
  - intros sector r b' Hret.
    destruct (flash_sector_erase_left polls sector b b' r Hret)
      as (n & Hlt & Hbusy).
    destruct (flash_sector_erase_run n polls sector b Hlt Hbusy)
      as (busy & last & b'' & tr & Hrun & Hw & Hiss & _ & Hall & Hlast).
    rewrite Hrun in Hret. injection Hret as _ <-.
    now exists busy, last, tr.
  - intros page buf siz r b' Hsiz Hret.
    destruct (flash_page_write_left polls page buf siz b b' r Hsiz Hret)
      as (n & Hlt & Hbusy).
    destruct (flash_page_write_run n polls page buf siz b Hsiz Hlt Hbusy)
      as (busy & last & b'' & tr & Hrun & Hw & Hiss & _ & Hall & Hlast).
    rewrite Hrun in Hret. injection Hret as _ <-.
    now exists busy, last, tr.
  - intros n sector Hlt Hbusy. now apply flash_sector_erase_run.
  - intros n page buf siz Hlt Hsiz Hbusy. now apply flash_page_write_run.
Qed.

Lemma mutations_follow_protocol_witness :
  (2 < 3)%nat
  /\ fst (flash_sector_erase 3 31
            (Double.chip_bus (Double.idle_chip (fun _ => 0x00) 2))) = Some 0
  /\ 2 <= M25P16_PAGE_BYTE_SIZE
  /\ fst (flash_page_write 3 3 [0xAA; 0xBB] 2
            (Double.chip_bus (Double.idle_chip (fun _ => 0xFF) 2))) = Some 0.
Proof.
  assert (Hs : 2 <= M25P16_PAGE_BYTE_SIZE)
    by (unfold M25P16_PAGE_BYTE_SIZE; lia).
  split; [lia|]. split; [|split; [exact Hs|]].
  - destruct (mutations_follow_protocol Double.chip _ 3
                (Double.chip_bus (Double.idle_chip (fun _ => 0x00) 2)))
      as (_ & _ & H & _).
    destruct (H 2%nat 31 ltac:(lia) ltac:(vm_compute; reflexivity))
      as (busy & last & b' & tr & Hrun & _).
    now rewrite Hrun.
  - destruct (mutations_follow_protocol Double.chip _ 3
                (Double.chip_bus (Double.idle_chip (fun _ => 0xFF) 2)))
      as (_ & _ & _ & H).
    destruct (H 2%nat 3 [0xAA; 0xBB] 2 ltac:(lia) Hs
                ltac:(vm_compute; reflexivity))
      as (busy & last & b' & tr & Hrun & _).
    now rewrite Hrun.
Defined.

(** C5.  For an in-range sector [s], the address computed by
    [flash_sector_erase] is exactly [s * sector_bytes] (no wrap-around), it
    fits in 24 bits, and what goes on the wire after Write Enable is the
    Sector Erase opcode 0xD8 immediately followed by its three bytes, most
    significant first: [s], 0, 0.  For sector 31 the address is 0x1F0000 and
    the bytes are 0x1F, 0x00, 0x00. *)
Theorem sector_address_on_wire :
  forall (dev : Type) (T : Transport dev) (polls : nat) (s : Z) (b : bus dev),
    0 <= s < M25P16_SECTOR_COUNT ->
    to_uint32 (M25P16_SECTOR_BYTE_SIZE * s) = s * M25P16_SECTOR_BYTE_SIZE
    /\ 0 <= s * M25P16_SECTOR_BYTE_SIZE <= 0xFFFFFF
    /\ address_bytes (s * M25P16_SECTOR_BYTE_SIZE) = [s; 0; 0]
    /\ s * M25P16_SECTOR_BYTE_SIZE = s * 65536 + 0 * 256 + 0
    /\ (s = 31 ->
        s * M25P16_SECTOR_BYTE_SIZE = 0x1F0000
        /\ address_bytes (s * M25P16_SECTOR_BYTE_SIZE) = [0x1F; 0x00; 0x00])
    /\ (exists r0 r1 r2 r3 r4 rest,
        wire (snd (flash_sector_erase polls s b))
        = wire b
          ++ [EvAssert; EvTransmit 0x06 r0; EvDeassert;
              EvAssert; EvTransmit 0xD8 r1; EvTransmit s r2;
              EvTransmit 0 r3; EvTransmit 0 r4; EvDeassert]
          ++ rest)
    /\ (forall addr : Z,
        0 <= addr <= 0xFFFFFF ->
        exists a2 a1 a0 r1 r2 r3 r4,
          addr = a2 * 65536 + a1 * 256 + a0
          /\ 0 <= a2 < 256 /\ 0 <= a1 < 256 /\ 0 <= a0 < 256
          /\ wire (snd (m25p16_sector_erase addr b))
             = wire b
               ++ [EvAssert; EvTransmit 0xD8 r1; EvTransmit a2 r2;
                   EvTransmit a1 r3; EvTransmit a0 r4; EvDeassert]).
Proof.
  intros dev T polls s b Hs. unfold M25P16_SECTOR_COUNT in Hs.
  assert (Hb : address_bytes (s * M25P16_SECTOR_BYTE_SIZE) = [s; 0; 0]).
  { rewrite sector_address_bytes. now rewrite Z.mod_small by lia. }
  split; [unfold to_uint32, M25P16_SECTOR_BYTE_SIZE;
          rewrite Z.mod_small; lia|].
  split; [unfold M25P16_SECTOR_BYTE_SIZE; lia|].
  split; [exact Hb|].
  split; [unfold M25P16_SECTOR_BYTE_SIZE; lia|].
  split; [intros ->; split; reflexivity|].
  destruct (flash_sector_erase_prefix polls s b)
    as (tr1 & tr2 & rest & Hw & Hon1 & Hon2).
  destruct Hon1 as (i1 & Hl1 & -> & _).
  destruct Hon2 as (i2 & Hl2 & -> & _).
  cbn [wire_out] in *. rewrite Hb in *. cbn [length] in *.
  destruct i1 as [|r0 [|? ?]]; try discriminate.
  destruct i2 as [|r1 [|r2 [|r3 [|r4 [|? ?]]]]]; try discriminate.
  split.
  - exists r0, r1, r2, r3, r4, rest. rewrite Hw.
    unfold frame. cbn [combine map fst snd app].
    rewrite (to_uint8_small s) by lia. reflexivity.
  - intros addr Haddr.
    destruct (address_bytes_big_endian addr ltac:(lia))
      as (a2 & a1 & a0 & Hab & H2 & H1 & H0 & Hsum).
    destruct (sector_erase_on_wire addr b) as (tr & Hwa & Hon & _).
    replace (to_uint32 addr) with addr in Hwa
      by (unfold to_uint32; rewrite Z.mod_small; lia).
    destruct Hon as (ins & Hli & -> & _).
    cbn [wire_out] in *. rewrite Hab in *. cbn [length] in Hli.
    destruct ins as [|q1 [|q2 [|q3 [|q4 [|? ?]]]]]; try discriminate.
    exists a2, a1, a0, q1, q2, q3, q4.
    split; [exact Hsum|]. do 3 (split; [assumption|]).
    rewrite Hwa. unfold frame. cbn [combine map fst snd app].
    rewrite !to_uint8_small by (first [assumption | lia]). reflexivity.
Qed.

Lemma sector_address_on_wire_witness :
  0 <= 31 < M25P16_SECTOR_COUNT
  /\ address_bytes (31 * M25P16_SECTOR_BYTE_SIZE) = [0x1F; 0x00; 0x00]
  /\ 31 * M25P16_SECTOR_BYTE_SIZE = 0x1F0000.
Proof.
  assert (H : 0 <= 31 < M25P16_SECTOR_COUNT) 
    by (unfold M25P16_SECTOR_COUNT; lia).
  split; [exact H|].
  destruct (sector_address_on_wire playback _ 1 31 (playback_bus []) H)
    as (_ & _ & _ & _ & H31 & _ & _).
  destruct (H31 eq_refl) as [Ha Hb]. split; [exact Hb | exact Ha].
Defined.

(** C7.  [flash_sector_erase] checks no bound.  For every sector index,
    those at and beyond [sector_count] included, it starts with Write Enable
    and forwards the product [sector * sector_bytes] to the driver's Sector
    Erase (the product is taken in 32-bit unsigned arithmetic and its three
    low bytes go on the wire, where they are those of the exact product:
    [sector mod 256], 0, 0); it never answers an error; and against a device
    that is busy for [n] status reads it completes the whole Write Enable /
    Sector Erase / poll / Write Disable sequence and returns 0, exactly as
    for an in-range index. *)
Theorem out_of_range_sector_is_forwarded :
  forall (dev : Type) (T : Transport dev) (polls : nat) (sector : Z)
         (b : bus dev),
    (exists tr1 tr2 rest,
        wire (snd (flash_sector_erase polls sector b))
        = wire b ++ tr1 ++ tr2 ++ rest
        /\ on_wire call_write_enable tr1
        /\ on_wire (call_sector_erase (sector * M25P16_SECTOR_BYTE_SIZE)) tr2)
    /\ address_bytes (sector * M25P16_SECTOR_BYTE_SIZE)
       = [sector mod 256; 0; 0]
    /\ (fst (flash_sector_erase polls sector b) = None
        \/ fst (flash_sector_erase polls sector b) = Some 0)
    /\ (forall n : nat,
        (n < polls)%nat ->
        busy_for n
          (after_frame
             (wire_out (call_sector_erase (sector * M25P16_SECTOR_BYTE_SIZE)))
             (after_frame (wire_out call_write_enable) (hw b))) = true ->
        exists busy last b' tr,
          flash_sector_erase polls sector b = (Some 0, b')
          /\ wire b' = wire b ++ tr
          /\ issued
               (call_write_enable
                  :: call_sector_erase (sector * M25P16_SECTOR_BYTE_SIZE)
                  :: map call_read_status_register (busy ++ [last])
                  ++ [call_write_disable]) tr
          /\ length busy = n /\ Forall wip_set busy /\ wip_clear last).
Proof.
  intros dev T polls sector b.
  split; [apply flash_sector_erase_prefix|].
  split; [apply sector_address_bytes|].
  split; [apply flash_sector_erase_result|].
  intros n Hlt Hbusy. now apply flash_sector_erase_run.
Qed.

Lemma out_of_range_sector_is_forwarded_witness :
  M25P16_SECTOR_COUNT <= 300
  /\ (1 < 2)%nat
  /\ address_bytes (300 * M25P16_SECTOR_BYTE_SIZE) = [44; 0; 0]
  /\ fst (flash_sector_erase 2 300
            (Double.chip_bus (Double.idle_chip (fun _ => 0x00) 1))) = Some 0.
Proof.
  split; [unfold M25P16_SECTOR_COUNT; lia|]. split; [lia|].
  destruct (out_of_range_sector_is_forwarded Double.chip _ 2 300
              (Double.chip_bus (Double.idle_chip (fun _ => 0x00) 1)))
    as (_ & Hbytes & _ & H).
  split; [exact Hbytes|].
  destruct (H 1%nat ltac:(lia) ltac:(vm_compute; reflexivity))
    as (busy & last & b' & tr & Hrun & _).
  now rewrite Hrun.
Defined.

(** C10.  The value returned by [flash_sector_erase], for every sector, and
    by [flash_page_write], for every page when [siz <= page_bytes], is 0:
    as long as the device reports busy the function has not returned
    ([None]), and once the device reports ready within the watched polls it
    returns 0.  The only other return value of the facade's mutations is
    the -1 of the size check, reached exactly when [siz > page_bytes]. *)
Theorem mutations_return_zero :
  forall (dev : Type) (T : Transport dev) (polls : nat) (b : bus dev),
    (forall sector : Z,
        fst (flash_sector_erase polls sector b) = None
        \/ fst (flash_sector_erase polls sector b) = Some 0)
    /\ (forall (page : Z) (buf : list Z) (siz : Z),
        siz <= M25P16_PAGE_BYTE_SIZE ->
        fst (flash_page_write polls page buf siz b) = None
        \/ fst (flash_page_write polls page buf siz b) = Some 0)
    /\ (forall (page : Z) (buf : list Z) (siz : Z),
        fst (flash_page_write polls page buf siz b) = Some (-1)
        <-> M25P16_PAGE_BYTE_SIZE < siz)
    /\ (forall (n : nat) (sector : Z),
        (n < polls)%nat ->
        busy_for n
          (after_frame
             (wire_out (call_sector_erase (sector * M25P16_SECTOR_BYTE_SIZE)))
             (after_frame (wire_out call_write_enable) (hw b))) = true ->
        fst (flash_sector_erase polls sector b) = Some 0)
    /\ (forall (n : nat) (page : Z) (buf : list Z) (siz : Z),
        (n < polls)%nat ->
        siz <= M25P16_PAGE_BYTE_SIZE ->
        busy_for n
          (after_frame
             (wire_out (call_page_program (page * M25P16_PAGE_BYTE_SIZE)
                          (buffer_bytes buf siz)))
             (after_frame (wire_out call_write_enable) (hw b))) = true ->
        fst (flash_page_write polls page buf siz b) = Some 0).
Proof.
  intros dev T polls b.
  split; [intros; apply flash_sector_erase_result|].
  split; [intros; now apply flash_page_write_result|].
  split; [|split].
  - intros page buf siz. split.
    + intros H. destruct (Z.ltb_spec M25P16_PAGE_BYTE_SIZE siz) as [Hb|Hb];
        [exact Hb|].
      destruct (flash_page_write_result polls page buf siz b Hb) as [E|E];
        rewrite E in H; discriminate.
    + intros H. unfold flash_page_write.
      destruct (Z.ltb_spec M25P16_PAGE_BYTE_SIZE siz) as [_|Hb];
        [reflexivity | lia].
  - intros n sector Hlt Hbusy.
    destruct (flash_sector_erase_run n polls sector b Hlt Hbusy)
      as (busy & last & b' & tr & Hrun & _).
    now rewrite Hrun.
  - intros n page buf siz Hlt Hsiz Hbusy.
    destruct (flash_page_write_run n polls page buf siz b Hsiz Hlt Hbusy)
      as (busy & last & b' & tr & Hrun & _).
    now rewrite Hrun.
Qed.

Lemma mutations_return_zero_witness :
  fst (flash_sector_erase 4 40
         (Double.chip_bus (Double.idle_chip (fun _ => 0x00) 3))) = Some 0
  /\ fst (flash_page_write 4 8191 [0x12] 1
            (Double.chip_bus (Double.idle_chip (fun _ => 0x00) 3))) = Some 0.
Proof.
  destruct (mutations_return_zero Double.chip _ 4
              (Double.chip_bus (Double.idle_chip (fun _ => 0x00) 3)))
    as (_ & _ & _ & He & Hw).
  split.
  - apply (He 3%nat 40); [lia | vm_compute; reflexivity].
  - apply (Hw 3%nat 8191 [0x12] 1);
      [lia | unfold M25P16_PAGE_BYTE_SIZE; lia | vm_compute; reflexivity].
Defined.

(** C2.  With [siz > page_bytes], [flash_page_write] and [flash_page_read]
    return -1 and leave the bus exactly as it was: the transport is not
    touched and nothing is logged.  With [siz <= page_bytes] the check
    passes: the write goes on to Write Enable and Page Program and never
    answers -1, and the read returns 0 after one Read Data Bytes frame of
    [siz] data bytes. *)
Theorem size_check_guards_the_bus :
  forall (dev : Type) (T : Transport dev) (polls : nat) (page : Z)
         (buf : list Z) (out : carray) (siz : Z) (b : bus dev),
    (M25P16_PAGE_BYTE_SIZE < siz ->
       flash_page_write polls page buf siz b = (Some (-1), b)
       /\ flash_page_read page out siz b = (-1, out, b))
    /\ (siz <= M25P16_PAGE_BYTE_SIZE ->
        (exists tr1 tr2 rest,
            wire (snd (flash_page_write polls page buf siz b))
            = wire b ++ tr1 ++ tr2 ++ rest
            /\ on_wire call_write_enable tr1
            /\ on_wire (call_page_program (page * M25P16_PAGE_BYTE_SIZE)
                          (buffer_bytes buf siz)) tr2
            /\ fst (flash_page_write polls page buf siz b) <> Some (-1))
        /\ (exists ins out' b',
            flash_page_read page out siz b = (0, out', b')
            /\ length ins = (4 + Z.to_nat siz)%nat
            /\ wire b'
               = wire b
                 ++ frame (0x03 :: address_bytes (page * M25P16_PAGE_BYTE_SIZE)
                                ++ repeat 0 (Z.to_nat siz)) ins)).
Proof.
  intros dev T polls page buf out siz b. split.
  - intros Hbig. unfold flash_page_write, flash_page_read.
    destruct (Z.ltb_spec M25P16_PAGE_BYTE_SIZE siz) as [_|Hb]; [|lia].
    now split.
  - intros Hsiz. split.
    + destruct (flash_page_write_prefix polls page buf siz b Hsiz)
        as (tr1 & tr2 & rest & Hw & Hon1 & Hon2).
      exists tr1, tr2, rest. repeat (split; [assumption|]).
      destruct (flash_page_write_result polls page buf siz b Hsiz) as [E|E];
        rewrite E; discriminate.
    + pose proof (flash_page_read_run page out siz b Hsiz) as H.
      cbv zeta in H. rewrite H.
      set (o := 0x03 :: address_bytes (page * M25P16_PAGE_BYTE_SIZE)
                     ++ repeat 0 (Z.to_nat siz)).
      exists (fst (transaction o b)). eexists _, _.
      split; [reflexivity|]. split.
      * rewrite transaction_length. subst o. cbn [length].
        rewrite length_app, repeat_length. reflexivity.
      * apply transaction_wire.
Qed.

Lemma size_check_guards_the_bus_witness :
  M25P16_PAGE_BYTE_SIZE < 257
  /\ flash_page_write 1 0 [0xAA; 0xBB] 257 (playback_bus [])
     = (Some (-1), playback_bus [])
  /\ 2 <= M25P16_PAGE_BYTE_SIZE
  /\ fst (flash_page_write 1 0 [0xAA; 0xBB] 2 (playback_bus [])) <> Some (-1).
Proof.
  assert (H1 : M25P16_PAGE_BYTE_SIZE < 257)
    by (unfold M25P16_PAGE_BYTE_SIZE; lia).
  assert (H2 : 2 <= M25P16_PAGE_BYTE_SIZE)
    by (unfold M25P16_PAGE_BYTE_SIZE; lia).
  split; [exact H1|]. split; [|split; [exact H2|]].
  - destruct (size_check_guards_the_bus playback _ 1 0 [0xAA; 0xBB]
                (fresh_array 2) 257 (playback_bus [])) as [H _].
    exact (proj1 (H H1)).
  - destruct (size_check_guards_the_bus playback _ 1 0 [0xAA; 0xBB]
                (fresh_array 2) 2 (playback_bus [])) as [_ H].
    destruct (proj1 (H H2)) as (tr1 & tr2 & rest & _ & _ & _ & Hne).
    exact Hne.
Defined.

(** ** Stores into arrays *)

Lemma list_set_middle (pre post : list Z) (o v : Z) :
  list_set (length pre) v (pre ++ o :: post) = pre ++ v :: post.
Proof.
  induction pre as [|h pre IH]; simpl; [reflexivity|]. now rewrite IH.
Qed.

Lemma store_all_middle (vs : list Z) :
  forall (pre old post : list Z) (sp : list (nat * Z)),
    length old = length vs ->
    store_all (length pre) vs {| cells := pre ++ old ++ post; spilled := sp |}
    = {| cells := pre ++ vs ++ post; spilled := sp |}.
Proof.
  unfold store_all.
  induction vs as [|v t IH]; intros pre [|o old] post sp H;
    simpl in H; try discriminate; [reflexivity|].
  cbn [store_each]. unfold array_store at 2. cbn [cells spilled].
  replace (length pre <? length (pre ++ (o :: old) ++ post))%nat with true.
  2:{ symmetry. apply Nat.ltb_lt. rewrite length_app. simpl. lia. }
  cbn [app]. rewrite list_set_middle.
  replace (S (length pre)) with (length (pre ++ [v]))
    by (rewrite length_app; simpl; lia).
  replace (pre ++ v :: old ++ post) with ((pre ++ [v]) ++ old ++ post)
    by (now rewrite <- app_assoc).
  rewrite IH by (now injection H).
  now rewrite <- app_assoc.
Qed.

(** Stores that fit: the first cells take the values, nothing spills. *)
Lemma store_all_fits (vs : list Z) (a : carray) :
  (length vs <= length (cells a))%nat ->
  firstn (length vs) (cells (store_all 0 vs a)) = vs
  /\ length (cells (store_all 0 vs a)) = length (cells a)
  /\ spilled (store_all 0 vs a) = spilled a.
Proof.
  intros H. destruct a as [l sp]. cbn [cells spilled] in *.
  assert (E : store_all 0 vs {| cells := l; spilled := sp |}
              = {| cells := vs ++ skipn (length vs) l; spilled := sp |}).
  { rewrite <- (firstn_skipn (length vs) l) at 1.
    apply (store_all_middle vs [] (firstn (length vs) l)).
    rewrite length_firstn. lia. }
  rewrite E. cbn [cells spilled]. split; [|split; [|reflexivity]].
  - rewrite firstn_app, Nat.sub_diag, firstn_all. cbn [firstn].
    now rewrite app_nil_r.
  - rewrite length_app, length_skipn. lia.
Qed.

(** ** Read Identification *)

Section IdentificationFacts.
Context {dev : Type} {T : Transport dev}.


Lemma reported_cfd_length_in_frame (n : nat) (b : bus dev) :
  nth 4 (fst (transaction (0x9F :: repeat 0 (4 + n)) b)) 0
  = reported_cfd_length (hw b).
Proof.
  rewrite transaction_answers. unfold reported_cfd_length.
  change (0x9F :: repeat 0 (4 + n))
    with ([0x9F; 0x00; 0x00; 0x00; 0x00] ++ repeat 0 n).
  rewrite exchange_app. cbn [fst].
  pose proof (exchange_length [0x9F; 0x00; 0x00; 0x00; 0x00]
                (hw_assert (hw b))) as Hl.
  destruct (fst (exchange [0x9F; 0x00; 0x00; 0x00; 0x00] (hw_assert (hw b))))
    as [|r0 [|r1 [|r2 [|r3 [|r4 [|? ?]]]]]]; try discriminate.
  reflexivity.
Qed.
End IdentificationFacts.

Section IdentificationClaim.
Context {dev : Type} {T : Transport dev}.

Lemma identification_frame_facts (b : bus dev) (arr : carray) :
  reported_cfd_length (hw b) <= 16 ->
  length (cells arr) = 16%nat ->
  let n := Z.to_nat (reported_cfd_length (hw b)) in
  let ins := fst (transaction (0x9F :: repeat 0 (4 + n)) b) in
  length ins = (5 + n)%nat
  /\ nth 4 ins 0 = reported_cfd_length (hw b)
  /\ firstn n (cells (store_all 0 (skipn 5 ins) arr)) = skipn 5 ins
  /\ spilled (store_all 0 (skipn 5 ins) arr) = spilled arr.
Proof.
  intros Hle Harr n ins.
  assert (Hlen : length ins = (5 + n)%nat).
  { subst ins. rewrite transaction_length. cbn [length].
    rewrite repeat_length. reflexivity. }
  assert (Hskip : length (skipn 5 ins) = n)
    by (rewrite length_skipn; lia).
  split; [exact Hlen|]. split; [apply reported_cfd_length_in_frame|].
  destruct (store_all_fits (skipn 5 ins) arr) as (Hf & _ & Hs).
  { rewrite Hskip, Harr. subst n. lia. }
  rewrite Hskip in Hf. now split.
Qed.
End IdentificationClaim.

(** C4.  When the fourth byte answered after the opcode, the CFD length the
    device reports, is at most 16, [read_identification] (of either driver)
    sends the opcode 0x9F and then clocks exactly [1 + 2 + 1 + cfd_length]
    further bytes inside the same frame; the first three bytes received
    after the opcode become [manufacturer], [memory_type] and
    [memory_capacity], the fourth becomes [cfd_length], and the following
    [cfd_length] bytes become [cfd_content[0]], [cfd_content[1]], ... in
    order, all inside the sixteen cells of the array. *)
Theorem read_identification_is_length_prefixed :
  forall (dev : Type) (T : Transport dev) (b : bus dev),
    reported_cfd_length (hw b) <= 16 ->
    (forall p : m25p16_identification_t,
        length (cells (cfd_content p)) = 16%nat ->
        exists ins,
          let p' := fst (m25p16_read_identification p b) in
          let b' := snd (m25p16_read_identification p b) in
          let n := Z.to_nat (reported_cfd_length (hw b)) in
          wire b' = wire b ++ frame (0x9F :: repeat 0x00 (1 + 2 + 1 + n)) ins
          /\ length ins = (1 + (1 + 2 + 1 + n))%nat
          /\ manufacturer p' = nth 1 ins 0
          /\ memory_type p' = nth 2 ins 0
          /\ memory_capacity p' = nth 3 ins 0
          /\ cfd_length p' = nth 4 ins 0
          /\ cfd_length p' = reported_cfd_length (hw b)
          /\ firstn n (cells (cfd_content p')) = skipn 5 ins
          /\ spilled (cfd_content p') = spilled (cfd_content p))
    /\ (forall p : M25PX16.m25px16_identification_t,
        length (cells (M25PX16.cfd_content p)) = 16%nat ->
        exists ins,
          let p' := fst (M25PX16.m25px16_read_identification p b) in
          let b' := snd (M25PX16.m25px16_read_identification p b) in
          let n := Z.to_nat (reported_cfd_length (hw b)) in
          wire b' = wire b ++ frame (0x9F :: repeat 0x00 (1 + 2 + 1 + n)) ins
          /\ length ins = (1 + (1 + 2 + 1 + n))%nat
          /\ M25PX16.manufacturer p' = nth 1 ins 0
          /\ M25PX16.memory_type p' = nth 2 ins 0
          /\ M25PX16.memory_capacity p' = nth 3 ins 0
          /\ M25PX16.cfd_length p' = nth 4 ins 0
          /\ M25PX16.cfd_length p' = reported_cfd_length (hw b)
          /\ firstn n (cells (M25PX16.cfd_content p')) = skipn 5 ins
          /\ spilled (M25PX16.cfd_content p')
             = spilled (M25PX16.cfd_content p)).
Proof.
  intros dev T b Hle. split; intros p Hp.
  - pose proof (m25p16_read_identification_frame p b) as H. cbv zeta in H.
    destruct (identification_frame_facts b (cfd_content p) Hle Hp)
      as (Hlen & H4 & Hf & Hs).
    eexists. cbv zeta. rewrite H.
    cbn [fst snd manufacturer memory_type memory_capacity cfd_length
         cfd_content].
    split; [apply transaction_wire|]. split; [exact Hlen|].
    do 3 (split; [reflexivity|]). split; [reflexivity|].
    split; [exact H4|]. split; [exact Hf | exact Hs].
  - pose proof (X16Frames.m25px16_read_identification_frame p b) as H.
    cbv zeta in H.
    destruct (identification_frame_facts b (M25PX16.cfd_content p) Hle Hp)
      as (Hlen & H4 & Hf & Hs).
    eexists. cbv zeta. rewrite H.
    cbn [fst snd M25PX16.manufacturer M25PX16.memory_type
         M25PX16.memory_capacity M25PX16.cfd_length M25PX16.cfd_content].
    split; [apply transaction_wire|]. split; [exact Hlen|].
    do 3 (split; [reflexivity|]). split; [reflexivity|].
    split; [exact H4|]. split; [exact Hf | exact Hs].
Qed.

Lemma read_identification_is_length_prefixed_witness :
  reported_cfd_length
    (hw (playback_bus [0xFF; 0x20; 0x20; 0x15; 0x03; 0x0A; 0x0B; 0x0C])) <= 16
  /\ cfd_length
       (fst (m25p16_read_identification blank_identification
               (playback_bus
                  [0xFF; 0x20; 0x20; 0x15; 0x03; 0x0A; 0x0B; 0x0C]))) = 3
  /\ M25PX16.cfd_length
       (fst (M25PX16.m25px16_read_identification
               M25PX16.blank_identification
               (playback_bus
                  [0xFF; 0x20; 0x20; 0x15; 0x03; 0x0A; 0x0B; 0x0C]))) = 3.
Proof.
  assert (H : reported_cfd_length
                (hw (playback_bus
                       [0xFF; 0x20; 0x20; 0x15; 0x03; 0x0A; 0x0B; 0x0C]))
              <= 16) by (vm_compute; discriminate).
  split; [exact H|].
  destruct (read_identification_is_length_prefixed playback _
              (playback_bus [0xFF; 0x20; 0x20; 0x15; 0x03; 0x0A; 0x0B; 0x0C])
              H) as [H16 HX16].
  split.
  - destruct (H16 blank_identification eq_refl)
      as (ins & _ & _ & _ & _ & _ & _ & Hc & _).
    exact Hc.
  - destruct (HX16 M25PX16.blank_identification eq_refl)
      as (ins & _ & _ & _ & _ & _ & _ & Hc & _).
    exact Hc.
Defined.

(** C9 fails on the code.  With the data line idle (every exchange answers
    0xFF) both [read_identification] functions take 255 as the CFD length
    and store 255 bytes through [cfd_content]: the stores at indices 16 to
    254 fall outside the sixteen cells of the array.  A device that reports
    a length of 17 makes exactly one store, at index 16, fall outside. *)
Theorem cfd_content_overrun :
  (let p := fst (m25p16_read_identification blank_identification
                   (playback_bus [])) in
   cfd_length p = 255
   /\ length (cells (cfd_content p)) = 16%nat
   /\ map fst (spilled (cfd_content p)) = seq 16 239)
  /\ (let p := fst (M25PX16.m25px16_read_identification
                      M25PX16.blank_identification (playback_bus [])) in
      M25PX16.cfd_length p = 255
      /\ length (cells (M25PX16.cfd_content p)) = 16%nat
      /\ map fst (spilled (M25PX16.cfd_content p)) = seq 16 239)
  /\ spilled
       (cfd_content
          (fst (m25p16_read_identification blank_identification
                  (playback_bus
                     [0xFF; 0x20; 0x20; 0x15; 0x11;
                      1; 2; 3; 4; 5; 6; 7; 8; 9; 10; 11; 12; 13; 14; 15; 16;
                      0x5A]))))
     = [(16%nat, 0x5A)]
  /\ spilled
       (M25PX16.cfd_content
          (fst (M25PX16.m25px16_read_identification
                  M25PX16.blank_identification
                  (playback_bus
                     [0xFF; 0x20; 0x20; 0x15; 0x11;
                      1; 2; 3; 4; 5; 6; 7; 8; 9; 10; 11; 12; 13; 14; 15; 16;
                      0x5A]))))
     = [(16%nat, 0x5A)].
Proof. vm_compute. repeat split. Qed.

(** ** The in-memory double *)

Module DoubleFacts.
Import Double.

Lemma chip_status_answer (c : chip) : status_answer c = status c.
Proof.
  destruct c as [m w bz cy l]. unfold status_answer, status.
  cbn. destruct bz, w; reflexivity.
Qed.

Lemma chip_status_bit (c : chip) :
  Z.testbit (status_answer c) 0 = (0 <? busy c)%nat.
Proof.
  rewrite chip_status_answer. unfold status.
  destruct (0 <? busy c)%nat, (wel c); reflexivity.
Qed.

Lemma chip_after_status (c : chip) :
  after_frame [0x05; 0x00] c = with_busy (pred (busy c)) (with_latched [] c).
Proof.
  destruct c as [m w bz cy l]. unfold after_frame. cbn.
  unfold chip_deassert. cbn. destruct bz as [|[|bz]]; reflexivity.
Qed.

Lemma chip_after_write_enable (c : chip) :
  busy c = 0%nat ->
  after_frame (wire_out call_write_enable) c
  = with_wel true (with_latched [] c).
Proof.
  destruct c as [m w bz cy l]. cbn [busy]. intros ->. reflexivity.
Qed.

Lemma chip_after_write_disable (c : chip) :
  busy c = 0%nat ->
  after_frame (wire_out call_write_disable) c
  = with_wel false (with_latched [] c).
Proof.
  destruct c as [m w bz cy l]. cbn [busy]. intros ->. reflexivity.
Qed.

(** The bytes that follow a Page Program opcode are latched as they come. *)
Lemma chip_latches_program (data : list Z) :
  forall (pre : list Z) (c : chip),
    latched c = 0x02 :: pre ->
    snd (exchange data c)
    = with_latched (0x02 :: pre ++ map to_uint8 data) c.
Proof.
  induction data as [|x t IH]; intros pre c Hl.
  - cbn. rewrite app_nil_r, <- Hl. now destruct c.
  - cbn [exchange map].
    assert (E : hw_transmit (to_uint8 x) c
                = (0xFF, with_latched (0x02 :: pre ++ [to_uint8 x]) c)).
    { cbn [hw_transmit chip_transport]. unfold chip_transmit. rewrite Hl.
      cbn [Z.eqb]. destruct pre as [|a2 [|a1 [|a0 got]]]; reflexivity. }
    rewrite E.
    specialize (IH (pre ++ [to_uint8 x])
                  (with_latched (0x02 :: pre ++ [to_uint8 x]) c) eq_refl).
    destruct (exchange t _) as [rs d2]. cbn [snd] in *. rewrite IH.
    rewrite <- app_assoc. now destruct c.
Qed.

Lemma chip_after_page_program (a : Z) (data : list Z) (c : chip) :
  busy c = 0%nat ->
  wel c = true ->
  data <> [] ->
  after_frame (wire_out (call_page_program a data)) c
  = start_cycle
      (with_mem
         (program_page
            (address ((a / 65536) mod 256) ((a / 256) mod 256) (a mod 256))
            (map to_uint8 data) (mem c))
         (with_latched [] c)).
Proof.
  intros Hb Hw Hd. unfold after_frame. cbn [wire_out].
  change (0x02 :: address_bytes a ++ data)
    with ([0x02] ++ address_bytes a ++ data).
  rewrite exchange_app. cbn [snd].
  assert (E : snd (exchange [0x02] (hw_assert c)) = with_latched [0x02] c)
    by (now destruct c).
  rewrite E.
  rewrite (chip_latches_program (address_bytes a ++ data) []
             (with_latched [0x02] c) eq_refl).
  rewrite map_app, address_bytes_bytes.
  destruct c as [m w bz cy l]. cbn [busy wel] in *. subst bz w.
  destruct data as [|d0 data]; [contradiction|].
  reflexivity.
Qed.

(** A Read Data Bytes frame answers the memory from the address on. *)
Lemma chip_reads (n : nat) :
  forall (a2 a1 a0 : Z) (got : list Z) (c : chip),
    busy c = 0%nat ->
    latched c = 0x03 :: a2 :: a1 :: a0 :: got ->
    fst (exchange (repeat 0 n) c)
    = map (fun j =>
             to_uint8
               (mem c ((address a2 a1 a0 + Z.of_nat (length got + j))
                       mod CAPACITY)))
        (seq 0 n).
Proof.
  induction n as [|n IH]; intros a2 a1 a0 got c Hb Hl; [reflexivity|].
  cbn [repeat exchange].
  assert (E : hw_transmit (to_uint8 0) c
              = (mem c ((address a2 a1 a0 + Z.of_nat (length got))
                        mod CAPACITY),
                 with_latched (0x03 :: a2 :: a1 :: a0 :: got ++ [0]) c)).
  { cbn [hw_transmit chip_transport]. unfold chip_transmit.
    rewrite Hl, Hb. reflexivity. }
  rewrite E.
  specialize (IH a2 a1 a0 (got ++ [0])
                (with_latched (0x03 :: a2 :: a1 :: a0 :: got ++ [0]) c)
                Hb eq_refl).
  destruct (exchange (repeat 0 n) _) as [rs d2]. cbn [fst] in *.
  rewrite IH. cbn [seq map]. rewrite Nat.add_0_r. f_equal.
  rewrite <- seq_shift, map_map. apply map_ext. intros j.
  rewrite length_app. cbn [length mem with_latched].
  do 4 f_equal. lia.
Qed.

Lemma chip_read_data (a : Z) (n : nat) (c : chip) :
  busy c = 0%nat ->
  skipn 4
    (fst (exchange (0x03 :: address_bytes a ++ repeat 0 n) (hw_assert c)))
  = map (fun j =>
           to_uint8
             (mem c
                ((address ((a / 65536) mod 256) ((a / 256) mod 256)
                    (a mod 256) + Z.of_nat j) mod CAPACITY)))
      (seq 0 n).
Proof.
  intros Hb.
  change (0x03 :: address_bytes a ++ repeat 0 n)
    with ((0x03 :: address_bytes a) ++ repeat 0 n).
  rewrite exchange_app. cbn [fst].
  pose proof (exchange_length (0x03 :: address_bytes a) (hw_assert c)) as Hl.
  assert (E : snd (exchange (0x03 :: address_bytes a) (hw_assert c))
              = with_latched
                  [0x03; (a / 65536) mod 256; (a / 256) mod 256; a mod 256]
                  c).
  { unfold address_bytes. cbn [exchange].
    rewrite !to_uint8_small by (try apply Z.mod_pos_bound; lia).
    destruct c as [m w bz cy l]. reflexivity. }
  rewrite E.
  rewrite skipn_app, Hl. cbn [length address_bytes Nat.sub].
  rewrite skipn_all2 by (rewrite Hl; cbn; lia). cbn [app skipn].
  rewrite (chip_reads n _ _ _ []
             (with_latched
                [0x03; (a / 65536) mod 256; (a / 256) mod 256; a mod 256] c)
             Hb eq_refl).
  reflexivity.
Qed.
End DoubleFacts.

Module RoundTrip.
Import Double DoubleFacts.

Lemma buffer_bytes_all (buf : list Z) :
  buffer_bytes buf (Z.of_nat (length buf)) = buf.
Proof.
  unfold buffer_bytes. rewrite Nat2Z.id.
  induction buf as [|h t IH]; [reflexivity|].
  cbn [length seq map nth]. f_equal.
  rewrite <- seq_shift, map_map. exact IH.
Qed.

Lemma land_erased (d : Z) : 0 <= d < 256 -> Z.land 0xFF d = d.
Proof.
  intros H. rewrite Z.land_comm. change 0xFF with (Z.ones 8).
  rewrite Z.land_ones by lia. now apply Z.mod_small.
Qed.

Lemma page_address (page : Z) :
  0 <= page < M25P16_PAGE_COUNT ->
  address ((page * M25P16_PAGE_BYTE_SIZE / 65536) mod 256)
    ((page * M25P16_PAGE_BYTE_SIZE / 256) mod 256)
    ((page * M25P16_PAGE_BYTE_SIZE) mod 256)
  = page * M25P16_PAGE_BYTE_SIZE.
Proof.
  unfold address, CAPACITY, M25P16_PAGE_COUNT, M25P16_PAGE_BYTE_SIZE.
  intros H. change (8192 * 256) with 2097152.
  Z.div_mod_to_equations. lia.
Qed.

Lemma program_page_at (A : Z) (data : list Z) (m : Z -> Z) (j : Z) :
  A mod 256 = 0 ->
  (length data <= 256)%nat ->
  0 <= j < Z.of_nat (length data) ->
  program_page A data m (A + j)
  = Z.land (m (A + j)) (nth (Z.to_nat j) data 0xFF).
Proof.
  intros HA Hlen Hj. unfold program_page.
  replace (length data - 256)%nat with 0%nat by lia.
  cbn [skipn Z.of_nat]. rewrite Z.add_0_r, HA.
  replace ((A + j - 0) mod 256) with j
    by (Z.div_mod_to_equations; lia).
  replace ((A + j) / 256 =? A / 256) with true
    by (symmetry; apply Z.eqb_eq; Z.div_mod_to_equations; lia).
  replace (j <? Z.of_nat (length data)) with true
    by (symmetry; apply Z.ltb_lt; lia).
  reflexivity.
Qed.

Lemma program_page_nothing (A : Z) (m : Z -> Z) (a : Z) :
  program_page A [] m a = m a.
Proof.
  unfold program_page. cbn [length Nat.sub skipn Z.of_nat].
  replace ((a - (A + 0) mod 256) mod 256 <? 0) with false.
  - now rewrite andb_false_r.
  - symmetry. apply Z.ltb_ge. apply Z.mod_pos_bound. lia.
Qed.

Lemma chip_after_empty_program (a : Z) (c : chip) :
  busy c = 0%nat ->
  after_frame (wire_out (call_page_program a [])) c = with_latched [] c.
Proof.
  intros Hb. destruct c as [m w bz cy l]. cbn [busy] in Hb. subst bz.
  unfold after_frame, address_bytes. cbn [wire_out app exchange].
  rewrite !to_uint8_small by (try apply Z.mod_pos_bound; lia).
  cbn. unfold chip_deassert. cbn. now destruct w.
Qed.

(** The poll loop of the facade against the double. *)
Lemma chip_poll (k : nat) :
  forall (polls : nat) (b : bus chip),
    busy (hw b) = k ->
    (k < polls)%nat ->
    exists s b',
      poll_while_busy polls b = (Some s, b')
      /\ hw b' = with_busy 0 (with_latched [] (hw b)).
Proof.
  induction k as [|k IH]; intros polls b Hk Hlt;
    (destruct polls as [|q]; [lia|]); cbn [poll_while_busy];
    destruct (read_status_register_on_wire b) as (tr & _ & _ & Hs & Hhw);
    destruct (m25p16_read_status_register b) as [s b1];
    cbn [fst snd] in *; subst s;
    rewrite wip_test_bit0, chip_status_bit, Hk; cbn [Nat.ltb Nat.leb].
  - eexists _, _. split; [reflexivity|].
    rewrite Hhw, chip_after_status, Hk. reflexivity.
  - rewrite chip_after_status, Hk in Hhw. cbn [pred] in Hhw.
    destruct (IH q b1) as (s & b' & Hrun & Hhw').
    + rewrite Hhw. reflexivity.
    + lia.
    + exists s, b'. split; [exact Hrun|]. rewrite Hhw', Hhw.
      now destruct (hw b).
Qed.

Lemma chip_page_write (polls : nat) (page : Z) (buf : list Z)
  (w : list spi_event) (c : chip) :
  busy c = 0%nat ->
  (cycle c < polls)%nat ->
  (length buf <= 256)%nat ->
  0 <= page < M25P16_PAGE_COUNT ->
  exists b1,
    flash_page_write polls page buf (Z.of_nat (length buf))
      {| hw := c; wire := w |} = (Some 0, b1)
    /\ busy (hw b1) = 0%nat
    /\ forall a,
        mem (hw b1) a
        = program_page (page * M25P16_PAGE_BYTE_SIZE) (map to_uint8 buf)
            (mem c) a.
Proof.
  intros Hb Hcy Hlen Hpage. unfold flash_page_write.
  destruct (Z.ltb_spec M25P16_PAGE_BYTE_SIZE (Z.of_nat (length buf)))
    as [Hbad|_]; [unfold M25P16_PAGE_BYTE_SIZE in Hbad; lia|].
  destruct (write_enable_on_wire {| hw := c; wire := w |})
    as (tr1 & _ & _ & Hhw1).
  destruct (m25p16_write_enable _) as [[] b1]. cbn [snd hw] in Hhw1.
  rewrite (Z.mul_comm M25P16_PAGE_BYTE_SIZE page).
  destruct (page_program_on_wire (page * M25P16_PAGE_BYTE_SIZE) buf
              (Z.of_nat (length buf)) b1) as (tr2 & _ & _ & Hhw2).
  destruct (m25p16_page_program _ buf _ b1) as [[] b2]. cbn [snd] in Hhw2.
  rewrite buffer_bytes_all, Hhw1, chip_after_write_enable in Hhw2 by exact Hb.
  assert (Hc2 : exists c2,
             hw b2 = c2 /\ (busy c2 < polls)%nat
             /\ forall a,
                 mem c2 a
                 = program_page (page * M25P16_PAGE_BYTE_SIZE)
                     (map to_uint8 buf) (mem c) a).
  { destruct buf as [|d0 buf].
    - rewrite chip_after_empty_program in Hhw2 by (now destruct c).
      eexists. split; [exact Hhw2|]. split; [destruct c; cbn in *; lia|].
      intros a. cbn [map]. rewrite program_page_nothing. now destruct c.
    - rewrite chip_after_page_program in Hhw2
        by (try discriminate; now destruct c).
      rewrite page_address in Hhw2 by exact Hpage.
      eexists. split; [exact Hhw2|]. split; [now destruct c|].
      intros a. now destruct c. }
  destruct Hc2 as (c2 & Hc2 & Hbusy2 & Hmem2).
  destruct (chip_poll (busy (hw b2)) polls b2 eq_refl)
    as (s & b3 & Hrun & Hhw3); [now rewrite Hc2|].
  rewrite Hrun.
  destruct (write_disable_on_wire b3) as (tr4 & _ & _ & Hhw4).
  destruct (m25p16_write_disable b3) as [[] b4]. cbn [snd] in Hhw4.
  rewrite chip_after_write_disable in Hhw4
    by (rewrite Hhw3; reflexivity).
  exists b4. split; [reflexivity|].
  rewrite Hhw4, Hhw3, Hc2. split; [reflexivity|].
  intros a. rewrite <- Hmem2. reflexivity.
Qed.

Lemma chip_page_read (page : Z) (out : carray) (n : nat) (b : bus chip) :
  busy (hw b) = 0%nat ->
  0 <= page < M25P16_PAGE_COUNT ->
  (n <= 256)%nat ->
  (n <= length (cells out))%nat ->
  exists out' b',
    flash_page_read page out (Z.of_nat n) b = (0, out', b')
    /\ firstn n (cells out')
       = map (fun j =>
                to_uint8
                  (mem (hw b)
                     (page * M25P16_PAGE_BYTE_SIZE + Z.of_nat j)))
           (seq 0 n).
Proof.
  intros Hb Hpage Hn Hout.
  pose proof (flash_page_read_run page out (Z.of_nat n) b) as H.
  cbv zeta in H. rewrite H by (unfold M25P16_PAGE_BYTE_SIZE; lia).
  eexists _, _. split; [reflexivity|].
  rewrite transaction_answers, Nat2Z.id.
  rewrite (chip_read_data _ n (hw b) Hb), page_address by exact Hpage.
  set (vs := map _ (seq 0 n)).
  assert (Hvs : length vs = n) by (subst vs; now rewrite length_map, length_seq).
  destruct (store_all_fits vs out) as (Hf & _); [lia|].
  rewrite Hvs in Hf. rewrite Hf. subst vs.
  apply map_ext_in. intros j Hj. apply in_seq in Hj.
  do 2 f_equal. apply Z.mod_small.
  unfold CAPACITY, M25P16_PAGE_COUNT, M25P16_PAGE_BYTE_SIZE in *. lia.
Qed.
End RoundTrip.

(** C3, as amended.  Against the in-memory double at rest, for every page
    [p] in [[0, page_count)] and every buffer of at most [page_bytes] bytes
    whose target bytes in the page are erased (0xFF) beforehand,
    [flash_page_write(p, buf, len(buf))] returns 0 and a following
    [flash_page_read(p, out, len(buf))] returns 0 with [buf] unchanged in
    the first [len(buf)] cells of [out]. *)
Theorem write_read_round_trip_on_erased_page :
  forall (c : Double.chip) (w : list spi_event) (polls : nat) (page : Z)
         (buf : list Z) (out : carray),
    0 <= page < M25P16_PAGE_COUNT ->
    Z.of_nat (length buf) <= M25P16_PAGE_BYTE_SIZE ->
    Forall (fun x => 0 <= x < 256) buf ->
    (length buf <= length (cells out))%nat ->
    Double.busy c = 0%nat ->
    (Double.cycle c < polls)%nat ->
    (forall j, 0 <= j < Z.of_nat (length buf) ->
               Double.mem c (page * M25P16_PAGE_BYTE_SIZE + j) = 0xFF) ->
    exists b1 out' b2,
      flash_page_write polls page buf (Z.of_nat (length buf))
        {| hw := c; wire := w |} = (Some 0, b1)
      /\ flash_page_read page out (Z.of_nat (length buf)) b1 = (0, out', b2)
      /\ firstn (length buf) (cells out') = buf.
Proof.
  intros c w polls page buf out Hpage Hlen Hbytes Hout Hidle Hcy Herased.
  assert (Hlen' : (length buf <= 256)%nat)
    by (unfold M25P16_PAGE_BYTE_SIZE in Hlen; lia).
  destruct (RoundTrip.chip_page_write polls page buf w c Hidle Hcy Hlen' Hpage)
    as (b1 & Hwrite & Hb1 & Hmem).
  destruct (RoundTrip.chip_page_read page out (length buf) b1 Hb1 Hpage Hlen'
              Hout) as (out' & b2 & Hread & Hcells).
  exists b1, out', b2. split; [exact Hwrite|]. split; [exact Hread|].
  rewrite Hcells.
  rewrite <- (RoundTrip.buffer_bytes_all buf) at 2.
  unfold buffer_bytes. rewrite Nat2Z.id.
  apply map_ext_in. intros j Hj. apply in_seq in Hj.
  assert (Hbyte : 0 <= nth j buf 0 < 256).
  { rewrite Forall_forall in Hbytes. apply Hbytes, nth_In. lia. }
  rewrite Hmem, RoundTrip.program_page_at.
  - rewrite Nat2Z.id, Herased by lia.
    rewrite (nth_indep _ 0xFF (to_uint8 0)) by (rewrite length_map; lia).
    rewrite map_nth, (to_uint8_small (nth j buf 0)) by exact Hbyte.
    rewrite RoundTrip.land_erased by exact Hbyte.
    now apply to_uint8_small.
  - unfold M25P16_PAGE_BYTE_SIZE. now rewrite Z.mod_mul by lia.
  - now rewrite length_map.
  - rewrite length_map. lia.
Qed.

Lemma write_read_round_trip_on_erased_page_witness :
  exists b1 out' b2,
    flash_page_write 3 0 [0xAA; 0xBB] 2
      {| hw := Double.idle_chip (fun _ => 0xFF) 2; wire := [] |}
    = (Some 0, b1)
    /\ flash_page_read 0 (fresh_array 2) 2 b1 = (0, out', b2)
    /\ firstn 2 (cells out') = [0xAA; 0xBB].
Proof.
  apply (write_read_round_trip_on_erased_page
           (Double.idle_chip (fun _ => 0xFF) 2) [] 3 0 [0xAA; 0xBB]
           (fresh_array 2)).
  - unfold M25P16_PAGE_COUNT. lia.
  - unfold M25P16_PAGE_BYTE_SIZE. simpl. lia.
  - repeat constructor; lia.
  - simpl. lia.
  - reflexivity.
  - simpl. lia.
  - intros j _. reflexivity.
Defined.

(** C3 as stated fails: on a page that already holds 0x0F in every byte,
    writing [0xAA; 0xBB] to page 0 succeeds and reading the two bytes back
    succeeds, but the read-back buffer holds [0x0A; 0x0B], the old contents
    ANDed with the data, since programming only clears bits. *)
Lemma round_trip_fails_on_programmed_page :
  fst (flash_page_write 1 0 [0xAA; 0xBB] 2
         (Double.chip_bus (Double.idle_chip (fun _ => 0x0F) 0))) = Some 0
  /\ fst (fst (flash_page_read 0 (fresh_array 2) 2
                 (snd (flash_page_write 1 0 [0xAA; 0xBB] 2
                         (Double.chip_bus
                            (Double.idle_chip (fun _ => 0x0F) 0)))))) = 0
  /\ cells (snd (fst (flash_page_read 0 (fresh_array 2) 2
                        (snd (flash_page_write 1 0 [0xAA; 0xBB] 2
                                (Double.chip_bus
                                   (Double.idle_chip (fun _ => 0x0F) 0)))))))
     = [0x0A; 0x0B]
  /\ cells (snd (fst (flash_page_read 0 (fresh_array 2) 2
                        (snd (flash_page_write 1 0 [0xAA; 0xBB] 2
                                (Double.chip_bus
                                   (Double.idle_chip (fun _ => 0x0F) 0)))))))
     <> [0xAA; 0xBB].
Proof. vm_compute. repeat split. discriminate. Qed.

(** * Further properties of the drivers and of the facade *)

(** ** Frames of the single commands *)

Section SingleFrames.
Context {dev : Type} {T : Transport dev}.

Lemma transaction_one_byte (op : Z) (b : bus dev) :
  0 <= op < 256 ->
  exists r,
    wire (snd (transaction [op] b))
    = wire b ++ [EvAssert; EvTransmit op r; EvDeassert]
    /\ hw (snd (transaction [op] b))
       = hw_deassert (snd (hw_transmit op (hw_assert (hw b)))).
Proof.
  intros Hop. unfold transaction, frame. cbn [exchange].
  rewrite (to_uint8_small op Hop).
  destruct (hw_transmit op (hw_assert (hw b))) as [r d].
  exists (to_uint8 r). cbn [snd wire hw combine map fst app].
  rewrite (to_uint8_small op Hop). split; reflexivity.
Qed.
End SingleFrames.

(** X1.  The commands that consist of an opcode alone (Write Enable, Write
    Disable, Bulk Erase, Deep Power Down and Release from Deep Power Down,
    in both drivers) select the chip, exchange exactly one byte, the
    opcode, and deselect: no further clock byte is ever sent. *)
Theorem opcode_only_commands_send_one_byte :
  forall (dev : Type) (T : Transport dev) (b : bus dev),
    sends_only 0x06 m25p16_write_enable b
    /\ sends_only 0x04 m25p16_write_disable b
    /\ sends_only 0xC7 m25p16_bulk_erase b
    /\ sends_only 0xB9 m25p16_deep_power_down b
    /\ sends_only 0xAB m25p16_release_from_deep_power_down b
    /\ sends_only 0x06 M25PX16.m25px16_write_enable b
    /\ sends_only 0x04 M25PX16.m25px16_write_disable b
    /\ sends_only 0xC7 M25PX16.m25px16_bulk_erase b
    /\ sends_only 0xB9 M25PX16.m25px16_deep_power_down b
    /\ sends_only 0xAB M25PX16.m25px16_release_from_deep_power_down b.
Proof.
  intros dev T b. unfold sends_only.
  rewrite m25p16_write_enable_frame, m25p16_write_disable_frame,
    m25p16_bulk_erase_frame, m25p16_deep_power_down_frame,
    m25p16_release_from_deep_power_down_frame,
    X16Frames.m25px16_write_enable_frame,
    X16Frames.m25px16_write_disable_frame,
    X16Frames.m25px16_bulk_erase_frame,
    X16Frames.m25px16_deep_power_down_frame,
    X16Frames.m25px16_release_from_deep_power_down_frame.
  cbn [snd].
  repeat split; apply transaction_one_byte; lia.
Qed.

(** ** Addresses of the addressed commands *)

Lemma shifted_address_bytes (a : Z) :
  map to_uint8 [Z.shiftr a 16; Z.shiftr a 8; Z.shiftr a 0] = address_bytes a.
Proof.
  unfold address_bytes, to_uint8. cbn [map].
  rewrite !Z.shiftr_div_pow2 by lia.
  change (2 ^ 16) with 65536. change (2 ^ 8) with 256. change (2 ^ 0) with 1.
  now rewrite Z.div_1_r.
Qed.

Lemma address_bytes_mod (a : Z) :
  address_bytes (a mod 16777216) = address_bytes a.
Proof.
  unfold address_bytes.
  f_equal; [|f_equal; [|f_equal]]; Z.div_mod_to_equations; lia.
Qed.

Lemma header_bytes (op a : Z) (rest : list Z) :
  map to_uint8 ([op; Z.shiftr a 16; Z.shiftr a 8; Z.shiftr a 0] ++ rest)
  = map to_uint8 (op :: address_bytes a ++ rest).
Proof.
  rewrite map_cons, (map_app _ (address_bytes a)), address_bytes_bytes,
    <- shifted_address_bytes.
  reflexivity.
Qed.

Lemma header_bytes_mod (op a : Z) (rest : list Z) :
  map to_uint8
    ([op; Z.shiftr (a mod 16777216) 16; Z.shiftr (a mod 16777216) 8;
      Z.shiftr (a mod 16777216) 0] ++ rest)
  = map to_uint8 ([op; Z.shiftr a 16; Z.shiftr a 8; Z.shiftr a 0] ++ rest).
Proof. now rewrite !header_bytes, address_bytes_mod. Qed.

(** X2.  The addressed commands of both drivers (Sector Erase, Read Data
    Bytes, Page Program, and the lock register commands of the M25PX16) use
    the low 24 bits of their [uint32_t] address and nothing else: an address
    and the same address with its top byte cleared give the same result and
    leave the bus, log included, in the same state. *)
Theorem addressed_commands_use_24_bits :
  forall (dev : Type) (T : Transport dev) (addr : Z) (buf : list Z)
         (out : carray) (siz v : Z) (b : bus dev),
    m25p16_sector_erase (addr mod 16777216) b = m25p16_sector_erase addr b
    /\ m25p16_read_data_bytes (addr mod 16777216) out siz b
       = m25p16_read_data_bytes addr out siz b
    /\ m25p16_page_program (addr mod 16777216) buf siz b
       = m25p16_page_program addr buf siz b
    /\ M25PX16.m25px16_sector_erase (addr mod 16777216) b
       = M25PX16.m25px16_sector_erase addr b
    /\ M25PX16.m25px16_read_data_bytes (addr mod 16777216) out siz b
       = M25PX16.m25px16_read_data_bytes addr out siz b
    /\ M25PX16.m25px16_page_program (addr mod 16777216) buf siz b
       = M25PX16.m25px16_page_program addr buf siz b
    /\ M25PX16.m25px16_write_lock_register (addr mod 16777216) v b
       = M25PX16.m25px16_write_lock_register addr v b
    /\ M25PX16.m25px16_read_lock_register (addr mod 16777216) b
       = M25PX16.m25px16_read_lock_register addr b.
Proof.
  intros dev T addr buf out siz v b.
  rewrite ?m25p16_sector_erase_frame, ?m25p16_read_data_bytes_frame,
    ?m25p16_page_program_frame, ?X16Frames.m25px16_sector_erase_frame,
    ?X16Frames.m25px16_read_data_bytes_frame,
    ?X16Frames.m25px16_page_program_frame,
    ?X16Frames.m25px16_write_lock_register_frame,
    ?X16Frames.m25px16_read_lock_register_frame.
  repeat split;
    match goal with
    | |- context [transaction ([?op; Z.shiftr (addr mod _) 16; _; _] ++ ?r) b]
      => rewrite (transaction_ext _ _ b (header_bytes_mod op addr r));
         reflexivity
    | |- context [transaction [?op; Z.shiftr (addr mod _) 16; _; _] b]
      => rewrite (transaction_ext _ _ b (header_bytes_mod op addr []));
         reflexivity
    | |- context [transaction [?op; Z.shiftr (addr mod _) 16; _; _; ?x] b]
      => rewrite (transaction_ext _ _ b (header_bytes_mod op addr [x]));
         reflexivity
    end.
Qed.

(** ** Payloads *)

Lemma buffer_bytes_firstn (buf : list Z) (siz : Z) :
  siz <= Z.of_nat (length buf) ->
  buffer_bytes buf siz = firstn (Z.to_nat siz) buf.
Proof.
  intros H. unfold buffer_bytes.
  assert (Hn : (Z.to_nat siz <= length buf)%nat) by lia.
  generalize dependent (Z.to_nat siz). clear H. intros n. revert n.
  induction buf as [|h t IH]; intros [|n] Hn; cbn in *; try reflexivity;
    try lia.
  f_equal. rewrite <- seq_shift, map_map. apply IH. lia.
Qed.

Lemma in_firstn {A : Type} (n : nat) (l : list A) (x : A) :
  In x (firstn n l) -> In x l.
Proof.
  intros H. rewrite <- (firstn_skipn n l). apply in_or_app. now left.
Qed.

Lemma transmit_events_app (o1 o2 i1 i2 : list Z) :
  length o1 = length i1 ->
  transmit_events (o1 ++ o2) (i1 ++ i2)
  = transmit_events o1 i1 ++ transmit_events o2 i2.
Proof.
  intros H. unfold transmit_events.
  now rewrite combine_split_app, map_app.
Qed.

Lemma frame_of_bytes (out ins : list Z) :
  Forall is_byte out ->
  frame out ins = EvAssert :: transmit_events out ins ++ [EvDeassert].
Proof.
  intros H. unfold frame, transmit_events. do 2 f_equal.
  revert ins. induction H as [|x l Hx Hl IH]; intros [|r ins];
    cbn [combine map]; try reflexivity.
  cbn [fst snd]. rewrite (to_uint8_small x Hx). f_equal. apply IH.
Qed.

Lemma frame_to_bytes (out ins : list Z) :
  frame out ins = frame (map to_uint8 out) ins.
Proof.
  apply frame_ext. rewrite map_map. apply map_ext. intros x.
  now rewrite to_uint8_idem.
Qed.

Lemma address_bytes_are_bytes (a : Z) : Forall is_byte (address_bytes a).
Proof.
  unfold address_bytes, is_byte.
  repeat constructor; apply Z.mod_pos_bound; lia.
Qed.

Lemma split_answers (n : nat) (ins : list Z) (m : nat) :
  length ins = (n + m)%nat ->
  exists hdr rest, ins = hdr ++ rest /\ length hdr = n /\ length rest = m.
Proof.
  intros H. exists (firstn n ins), (skipn n ins).
  rewrite firstn_skipn, length_firstn, length_skipn. repeat split; lia.
Qed.

Section PayloadFacts.
Context {dev : Type} {T : Transport dev}.

(** What a transaction with a four-byte header and a payload of bytes
    leaves in the log. *)
Lemma header_payload_wire (op a : Z) (payload : list Z) (b : bus dev) :
  is_byte op ->
  exists hdr rs,
    fst (transaction
           ([op; Z.shiftr a 16; Z.shiftr a 8; Z.shiftr a 0] ++ payload) b)
    = hdr ++ rs
    /\ length hdr = 4%nat /\ length rs = length payload
    /\ Forall is_byte rs
    /\ wire (snd (transaction
                    ([op; Z.shiftr a 16; Z.shiftr a 8; Z.shiftr a 0]
                       ++ payload) b))
       = wire b ++ [EvAssert]
         ++ transmit_events (op :: address_bytes a) hdr
         ++ transmit_events (map to_uint8 payload) rs
         ++ [EvDeassert].
Proof.
  intros Hop.
  set (out := [op; Z.shiftr a 16; Z.shiftr a 8; Z.shiftr a 0] ++ payload).
  pose proof (transaction_length out b) as Hlen.
  pose proof (transaction_bytes out b) as Hbytes.
  destruct (split_answers 4 (fst (transaction out b)) (length payload))
    as (hdr & rs & Hins & Hh & Hr).
  { rewrite Hlen. subst out. now rewrite length_app. }
  exists hdr, rs. split; [exact Hins|]. split; [exact Hh|].
  split; [exact Hr|]. split.
  - rewrite Hins in Hbytes. apply Forall_app in Hbytes. apply Hbytes.
  - rewrite transaction_wire, Hins. f_equal.
    rewrite frame_to_bytes. subst out. rewrite header_bytes.
    rewrite map_cons, map_app, address_bytes_bytes, (to_uint8_small op Hop).
    rewrite frame_of_bytes.
    + change (op :: address_bytes a ++ map to_uint8 payload)
        with ((op :: address_bytes a) ++ map to_uint8 payload).
      rewrite transmit_events_app by (rewrite Hh; reflexivity).
      cbn [app]. now rewrite <- app_assoc.
    + constructor; [exact Hop|]. apply Forall_app. split.
      * apply address_bytes_are_bytes.
      * apply Forall_forall. intros x Hx. apply in_map_iff in Hx.
        destruct Hx as [y [<- _]]. apply to_uint8_range.
Qed.
End PayloadFacts.

(** X3.  Page Program (both drivers) sends, inside one frame, the opcode
    0x02, the three address bytes most significant first, and then the
    first [siz] bytes of the buffer in their order, one exchange each, and
    nothing else. *)
Theorem page_program_sends_buffer_in_order :
  forall (dev : Type) (T : Transport dev) (addr : Z) (buf : list Z)
         (siz : Z) (b : bus dev),
    siz <= Z.of_nat (length buf) ->
    Forall is_byte buf ->
    (exists hdr rs,
        length hdr = 4%nat /\ length rs = Z.to_nat siz
        /\ wire (snd (m25p16_page_program addr buf siz b))
           = wire b ++ [EvAssert]
             ++ transmit_events (0x02 :: address_bytes addr) hdr
             ++ transmit_events (firstn (Z.to_nat siz) buf) rs
             ++ [EvDeassert])
    /\ (exists hdr rs,
        length hdr = 4%nat /\ length rs = Z.to_nat siz
        /\ wire (snd (M25PX16.m25px16_page_program addr buf siz b))
           = wire b ++ [EvAssert]
             ++ transmit_events (0x02 :: address_bytes addr) hdr
             ++ transmit_events (firstn (Z.to_nat siz) buf) rs
             ++ [EvDeassert]).
Proof.
  intros dev T addr buf siz b Hsiz Hbuf.
  assert (Hpay : map to_uint8 (buffer_bytes buf siz)
                 = firstn (Z.to_nat siz) buf).
  { rewrite buffer_bytes_firstn by exact Hsiz.
    rewrite <- (map_id (firstn _ buf)) at 2. apply map_ext_in.
    intros x Hx. apply to_uint8_small.
    rewrite Forall_forall in Hbuf. apply Hbuf.
    now apply (in_firstn (Z.to_nat siz)). }
  assert (Hlen : length (buffer_bytes buf siz) = Z.to_nat siz)
    by (unfold buffer_bytes; now rewrite length_map, length_seq).
  split.
  - rewrite m25p16_page_program_frame. cbn [snd].
    destruct (header_payload_wire CMD_PAGE_PROGRAM addr
                (buffer_bytes buf siz) b ltac:(unfold is_byte, CMD_PAGE_PROGRAM; lia))
      as (hdr & rs & _ & Hh & Hr & _ & Hw).
    exists hdr, rs. rewrite Hpay, Hlen in *. now repeat split.
  - rewrite X16Frames.m25px16_page_program_frame. cbn [snd].
    destruct (header_payload_wire M25PX16.CMD_PAGE_PROGRAM addr
                (buffer_bytes buf siz) b
                ltac:(unfold is_byte, M25PX16.CMD_PAGE_PROGRAM; lia))
      as (hdr & rs & _ & Hh & Hr & _ & Hw).
    exists hdr, rs. rewrite Hpay, Hlen in *. now repeat split.
Qed.

Lemma page_program_sends_buffer_in_order_witness :
  3 <= Z.of_nat (length [0x10; 0x20; 0x30; 0x40])
  /\ exists hdr rs,
      length hdr = 4%nat /\ length rs = Z.to_nat 3
      /\ wire (snd (m25p16_page_program 0x012345 [0x10; 0x20; 0x30; 0x40] 3
                      (playback_bus [])))
         = wire (playback_bus []) ++ [EvAssert]
           ++ transmit_events (0x02 :: address_bytes 0x012345) hdr
           ++ transmit_events (firstn (Z.to_nat 3) [0x10; 0x20; 0x30; 0x40])
                rs
           ++ [EvDeassert].
Proof.
  assert (H : 3 <= Z.of_nat (length [0x10; 0x20; 0x30; 0x40]))
    by (simpl; lia).
  split; [exact H|].
  apply (page_program_sends_buffer_in_order playback _ 0x012345
           [0x10; 0x20; 0x30; 0x40] 3 (playback_bus []) H).
  unfold is_byte. repeat constructor; lia.
Defined.

(** ** Stores past the end of an array *)

Lemma store_all_app (v1 v2 : list Z) :
  forall (i : nat) (a : carray),
    store_all i (v1 ++ v2) a
    = store_all (i + length v1) v2 (store_all i v1 a).
Proof.
  unfold store_all. induction v1 as [|v t IH]; intros i a; cbn [app store_each length].
  - now rewrite Nat.add_0_r.
  - rewrite IH. f_equal. lia.
Qed.

Lemma store_all_spills (vs : list Z) :
  forall (i : nat) (a : carray),
    (length (cells a) <= i)%nat ->
    store_all i vs a
    = {| cells := cells a;
         spilled := spilled a ++ combine (seq i (length vs)) vs |}.
Proof.
  unfold store_all. induction vs as [|v t IH]; intros i a Hi;
    cbn [store_each length seq combine].
  - rewrite app_nil_r. now destruct a.
  - unfold array_store at 2.
    replace (i <? length (cells a))%nat with false
      by (symmetry; apply Nat.ltb_ge; exact Hi).
    rewrite IH by (cbn [cells]; lia). cbn [cells spilled].
    now rewrite <- app_assoc.
Qed.

(** Stores at [0], [1], ... into an array of any size: the cells take what
    fits, the rest is spilled with its indices. *)
Lemma store_all_general (vs : list Z) (a : carray) :
  cells (store_all 0 vs a)
  = firstn (length (cells a)) vs ++ skipn (length vs) (cells a)
  /\ spilled (store_all 0 vs a)
     = spilled a
       ++ combine (seq (length (cells a)) (length vs - length (cells a)))
            (skipn (length (cells a)) vs).
Proof.
  destruct a as [l sp]. cbn [cells spilled].
  destruct (Nat.le_gt_cases (length vs) (length l)) as [Hfit|Hover].
  - assert (E : store_all 0 vs {| cells := l; spilled := sp |}
                = {| cells := vs ++ skipn (length vs) l; spilled := sp |}).
    { rewrite <- (firstn_skipn (length vs) l) at 1.
      apply (store_all_middle vs [] (firstn (length vs) l)).
      rewrite length_firstn. lia. }
    rewrite E. cbn [cells spilled].
    rewrite firstn_all2 by exact Hfit.
    replace (length vs - length l)%nat with 0%nat by lia.
    cbn [seq combine]. now rewrite app_nil_r.
  - assert (Hf : length (firstn (length l) vs) = length l)
      by (rewrite length_firstn; lia).
    assert (E : store_all 0 (firstn (length l) vs)
                  {| cells := l; spilled := sp |}
                = {| cells := firstn (length l) vs; spilled := sp |}).
    { pose proof (store_all_middle (firstn (length l) vs) [] l [] sp
                    (eq_sym Hf)) as H.
      cbn [app length] in H. now rewrite !app_nil_r in H. }
    assert (E2 : store_all 0 vs {| cells := l; spilled := sp |}
                 = {| cells := firstn (length l) vs;
                      spilled :=
                        sp ++ combine (seq (length l) (length vs - length l))
                                (skipn (length l) vs) |}).
    { rewrite <- (firstn_skipn (length l) vs) at 1.
      rewrite store_all_app, E, Hf. cbn [Nat.add].
      rewrite store_all_spills by (cbn [cells]; lia).
      cbn [cells spilled]. now rewrite length_skipn. }
    rewrite E2. cbn [cells spilled].
    rewrite (skipn_all2 l) by lia. rewrite app_nil_r.
    split; reflexivity.
Qed.

(** X4.  Read Data Bytes (both drivers) sends the opcode 0x03 and the three
    address bytes, then clocks out exactly [siz] zero bytes in the same
    frame, and stores the [siz] bytes received for them at [buf[0]],
    [buf[1]], ... in order.  The cells of the buffer beyond [siz] keep their
    contents.  Nothing checks [siz] against the buffer: when [siz] exceeds
    its size, the bytes received past its end are stored beyond it. *)
Theorem read_data_bytes_fills_buffer_in_order :
  forall (dev : Type) (T : Transport dev) (addr : Z) (buf : carray)
         (siz : Z) (b : bus dev),
    (exists hdr data,
        length hdr = 4%nat /\ length data = Z.to_nat siz
        /\ Forall is_byte data
        /\ wire (snd (m25p16_read_data_bytes addr buf siz b))
           = wire b ++ [EvAssert]
             ++ transmit_events (0x03 :: address_bytes addr) hdr
             ++ transmit_events (repeat 0 (Z.to_nat siz)) data
             ++ [EvDeassert]
        /\ cells (fst (m25p16_read_data_bytes addr buf siz b))
           = firstn (length (cells buf)) data
             ++ skipn (Z.to_nat siz) (cells buf)
        /\ spilled (fst (m25p16_read_data_bytes addr buf siz b))
           = spilled buf
             ++ combine
                  (seq (length (cells buf))
                     (Z.to_nat siz - length (cells buf)))
                  (skipn (length (cells buf)) data))
    /\ M25PX16.m25px16_read_data_bytes addr buf siz b
       = m25p16_read_data_bytes addr buf siz b.
Proof.
  intros dev T addr buf siz b. split; [|reflexivity].
  rewrite m25p16_read_data_bytes_frame. cbn [fst snd].
  destruct (header_payload_wire CMD_READ_DATA_BYTES addr
              (repeat 0 (Z.to_nat siz)) b
              ltac:(unfold is_byte, CMD_READ_DATA_BYTES; lia))
    as (hdr & data & Hins & Hh & Hd & Hbytes & Hw).
  rewrite repeat_length in Hd.
  exists hdr, data. split; [exact Hh|]. split; [exact Hd|].
  split; [exact Hbytes|]. split.
  - assert (Hz : map to_uint8 (repeat 0 (Z.to_nat siz))
                 = repeat 0 (Z.to_nat siz)).
    { clear. induction (Z.to_nat siz) as [|n IH]; [reflexivity|].
      cbn [repeat map]. now rewrite IH. }
    now rewrite Hw, Hz.
  - rewrite Hins.
    replace (skipn 4 (hdr ++ data)) with data.
    2:{ rewrite skipn_app, skipn_all2 by lia.
        now replace (4 - length hdr)%nat with 0%nat by lia. }
    destruct (store_all_general data buf) as [Hc Hs].
    rewrite Hd in Hc, Hs. now split.
Qed.

(** ** Read Identification, whatever length the device reports *)

Section IdentificationStores.
Context {dev : Type} {T : Transport dev}.


End IdentificationStores.



(** ** The register commands *)

Section RegisterFrames.
Context {dev : Type} {T : Transport dev}.

Lemma transaction_two_bytes (op x : Z) (b : bus dev) :
  is_byte op ->
  exists r0 r1,
    fst (transaction [op; x] b) = [r0; r1]
    /\ is_byte r1
    /\ wire (snd (transaction [op; x] b))
       = wire b
         ++ [EvAssert; EvTransmit op r0; EvTransmit (x mod 256) r1;
             EvDeassert].
Proof.
  intros Hop. pose proof (transaction_length [op; x] b) as Hl.
  pose proof (transaction_bytes [op; x] b) as Hb.
  rewrite transaction_wire.
  destruct (fst (transaction [op; x] b)) as [|r0 [|r1 [|? ?]]];
    try discriminate.
  exists r0, r1. split; [reflexivity|]. split.
  - apply Forall_inv_tail in Hb. now apply Forall_inv in Hb.
  - unfold frame. cbn [combine map fst snd app].
    now rewrite (to_uint8_small op Hop).
Qed.

Lemma transaction_five_bytes (op a x : Z) (b : bus dev) :
  is_byte op ->
  exists r0 r1 r2 r3 r4 a2 a1 a0,
    address_bytes a = [a2; a1; a0]
    /\ fst (transaction
              [op; Z.shiftr a 16; Z.shiftr a 8; Z.shiftr a 0; x] b)
       = [r0; r1; r2; r3; r4]
    /\ is_byte r4
    /\ wire (snd (transaction
                    [op; Z.shiftr a 16; Z.shiftr a 8; Z.shiftr a 0; x] b))
       = wire b
         ++ [EvAssert; EvTransmit op r0; EvTransmit a2 r1; EvTransmit a1 r2;
             EvTransmit a0 r3; EvTransmit (x mod 256) r4; EvDeassert].
Proof.
  intros Hop.
  set (out := [op; Z.shiftr a 16; Z.shiftr a 8; Z.shiftr a 0; x]).
  pose proof (transaction_length out b) as Hl.
  pose proof (transaction_bytes out b) as Hb.
  rewrite transaction_wire.
  destruct (fst (transaction out b))
    as [|r0 [|r1 [|r2 [|r3 [|r4 [|? ?]]]]]]; try discriminate.
  exists r0, r1, r2, r3, r4.
  exists ((a / 65536) mod 256), ((a / 256) mod 256), (a mod 256).
  split; [reflexivity|]. split; [reflexivity|]. split.
  - do 4 apply Forall_inv_tail in Hb. now apply Forall_inv in Hb.
  - rewrite (frame_ext out (op :: address_bytes a ++ [x]))
      by (subst out; apply (header_bytes op a [x])).
    unfold frame, address_bytes. cbn [combine map fst snd app].
    rewrite (to_uint8_small op Hop).
    rewrite !(to_uint8_small (_ mod 256)) by (apply Z.mod_pos_bound; lia).
    reflexivity.
Qed.
End RegisterFrames.

(** X6.  The register commands.  Read Status Register (both drivers) sends
    0x05 and one zero byte and returns the byte received for the zero byte,
    always a value in [[0, 255]]; Write Status Register sends 0x01 and the
    low byte of its argument.  On the M25PX16, Read Lock Register sends
    0xE8, the three address bytes most significant first and one zero byte
    and returns the byte received last; Write Lock Register sends 0xE5, the
    address bytes and the low byte of the register value. *)
Theorem register_commands_on_wire :
  forall (dev : Type) (T : Transport dev) (addr sreg v : Z) (b : bus dev),
    (exists r0,
        is_byte (fst (m25p16_read_status_register b))
        /\ wire (snd (m25p16_read_status_register b))
           = wire b
             ++ [EvAssert; EvTransmit 0x05 r0;
                 EvTransmit 0x00 (fst (m25p16_read_status_register b));
                 EvDeassert])
    /\ (exists r0,
        is_byte (fst (M25PX16.m25px16_read_status_register b))
        /\ wire (snd (M25PX16.m25px16_read_status_register b))
           = wire b
             ++ [EvAssert; EvTransmit 0x05 r0;
                 EvTransmit 0x00
                   (fst (M25PX16.m25px16_read_status_register b));
                 EvDeassert])
    /\ (exists r0 r1,
        wire (snd (m25p16_write_status_register sreg b))
        = wire b
          ++ [EvAssert; EvTransmit 0x01 r0; EvTransmit (sreg mod 256) r1;
              EvDeassert])
    /\ (exists r0 r1,
        wire (snd (M25PX16.m25px16_write_status_register sreg b))
        = wire b
          ++ [EvAssert; EvTransmit 0x01 r0; EvTransmit (sreg mod 256) r1;
              EvDeassert])
    /\ (exists r0 r1 r2 r3 a2 a1 a0,
        address_bytes addr = [a2; a1; a0]
        /\ is_byte (fst (M25PX16.m25px16_read_lock_register addr b))
        /\ wire (snd (M25PX16.m25px16_read_lock_register addr b))
           = wire b
             ++ [EvAssert; EvTransmit 0xE8 r0; EvTransmit a2 r1;
                 EvTransmit a1 r2; EvTransmit a0 r3;
                 EvTransmit 0x00
                   (fst (M25PX16.m25px16_read_lock_register addr b));
                 EvDeassert])
    /\ (exists r0 r1 r2 r3 r4 a2 a1 a0,
        address_bytes addr = [a2; a1; a0]
        /\ wire (snd (M25PX16.m25px16_write_lock_register addr v b))
           = wire b
             ++ [EvAssert; EvTransmit 0xE5 r0; EvTransmit a2 r1;
                 EvTransmit a1 r2; EvTransmit a0 r3;
                 EvTransmit (v mod 256) r4; EvDeassert]).
Proof.
  intros dev T addr sreg v b.
  assert (Hrs : exists r0,
             is_byte (fst (m25p16_read_status_register b))
             /\ wire (snd (m25p16_read_status_register b))
                = wire b
                  ++ [EvAssert; EvTransmit 0x05 r0;
                      EvTransmit 0x00 (fst (m25p16_read_status_register b));
                      EvDeassert]).
  { rewrite m25p16_read_status_register_frame. cbn [fst snd].
    destruct (transaction_two_bytes CMD_READ_STATUS_REGISTER 0 b
                ltac:(unfold is_byte, CMD_READ_STATUS_REGISTER; lia))
      as (r0 & r1 & -> & Hb & Hw).
    exists r0. cbn [nth]. split; [exact Hb | exact Hw]. }
  assert (Hws : exists r0 r1,
             wire (snd (m25p16_write_status_register sreg b))
             = wire b
               ++ [EvAssert; EvTransmit 0x01 r0; EvTransmit (sreg mod 256) r1;
                   EvDeassert]).
  { rewrite m25p16_write_status_register_frame. cbn [snd].
    destruct (transaction_two_bytes CMD_WRITE_STATUS_REGISTER sreg b
                ltac:(unfold is_byte, CMD_WRITE_STATUS_REGISTER; lia))
      as (r0 & r1 & _ & _ & Hw).
    now exists r0, r1. }
  split; [exact Hrs|]. split; [exact Hrs|].
  split; [exact Hws|]. split; [exact Hws|]. split.
  - rewrite X16Frames.m25px16_read_lock_register_frame. cbn [fst snd].
    destruct (transaction_five_bytes M25PX16.CMD_READ_LOCK_REGISTER addr 0 b
                ltac:(unfold is_byte, M25PX16.CMD_READ_LOCK_REGISTER; lia))
      as (r0 & r1 & r2 & r3 & r4 & a2 & a1 & a0 & Ha & -> & Hb & Hw).
    exists r0, r1, r2, r3, a2, a1, a0. cbn [nth].
    split; [exact Ha|]. split; [exact Hb | exact Hw].
  - rewrite X16Frames.m25px16_write_lock_register_frame. cbn [snd].
    destruct (transaction_five_bytes M25PX16.CMD_WRITE_LOCK_REGISTER addr v b
                ltac:(unfold is_byte, M25PX16.CMD_WRITE_LOCK_REGISTER; lia))
      as (r0 & r1 & r2 & r3 & r4 & a2 & a1 & a0 & Ha & _ & _ & Hw).
    exists r0, r1, r2, r3, r4, a2, a1, a0. now split.
Qed.

(** ** The bit tests of the headers *)

Lemma land_single_bit (a n : Z) :
  0 <= n ->
  Z.land a (Z.shiftl 1 n) = if Z.testbit a n then 2 ^ n else 0.
Proof.
  intros Hn. rewrite Z.shiftl_1_l. apply Z.bits_inj'. intros m Hm.
  rewrite Z.land_spec, Z.pow2_bits_eqb by exact Hn.
  destruct (Z.eqb_spec n m) as [->|Hne].
  - destruct (Z.testbit a m) eqn:E; cbn.
    + now rewrite Z.pow2_bits_true.
    + now rewrite Z.bits_0.
  - rewrite andb_false_r. destruct (Z.testbit a n).
    + now rewrite Z.pow2_bits_false.
    + now rewrite Z.bits_0.
Qed.

(** X7.  The status register macros of both headers test the bit the data
    sheet gives to the flag, for every value they are applied to: WIP is
    bit 0, WEL bit 1, BP0, BP1 and BP2 bits 2, 3 and 4, and SRWD bit 7.
    Each yields the weight of its bit when the bit is set and 0 when it is
    clear, so as a C condition it holds exactly when the bit is set.  The
    two lock register masks of the M25PX16 are bit 0 (write lock) and bit 1
    (lock down). *)
Theorem status_macros_test_their_bits :
  forall sreg : Z,
    M25P16_SREG_WRITE_IN_PROGRESS sreg = (if Z.testbit sreg 0 then 1 else 0)
    /\ M25P16_SREG_WRITE_ENABLE_LATCH sreg
       = (if Z.testbit sreg 1 then 2 else 0)
    /\ M25P16_SREG_BLOCK_PROTECT_BP0 sreg = (if Z.testbit sreg 2 then 4 else 0)
    /\ M25P16_SREG_BLOCK_PROTECT_BP1 sreg = (if Z.testbit sreg 3 then 8 else 0)
    /\ M25P16_SREG_BLOCK_PROTECT_BP2 sreg
       = (if Z.testbit sreg 4 then 16 else 0)
    /\ M25P16_SREG_WRITE_PROTECT sreg = (if Z.testbit sreg 7 then 128 else 0)
    /\ c_true (M25P16_SREG_WRITE_ENABLE_LATCH sreg) = Z.testbit sreg 1
    /\ c_true (M25P16_SREG_BLOCK_PROTECT_BP0 sreg) = Z.testbit sreg 2
    /\ c_true (M25P16_SREG_BLOCK_PROTECT_BP1 sreg) = Z.testbit sreg 3
    /\ c_true (M25P16_SREG_BLOCK_PROTECT_BP2 sreg) = Z.testbit sreg 4
    /\ c_true (M25P16_SREG_WRITE_PROTECT sreg) = Z.testbit sreg 7
    /\ M25PX16.M25PX16_SREG_WRITE_IN_PROGRESS sreg
       = M25P16_SREG_WRITE_IN_PROGRESS sreg
    /\ M25PX16.M25PX16_SREG_WRITE_ENABLE_LATCH sreg
       = M25P16_SREG_WRITE_ENABLE_LATCH sreg
    /\ M25PX16.M25PX16_SREG_BLOCK_PROTECT_BP0 sreg
       = M25P16_SREG_BLOCK_PROTECT_BP0 sreg
    /\ M25PX16.M25PX16_SREG_BLOCK_PROTECT_BP1 sreg
       = M25P16_SREG_BLOCK_PROTECT_BP1 sreg
    /\ M25PX16.M25PX16_SREG_BLOCK_PROTECT_BP2 sreg
       = M25P16_SREG_BLOCK_PROTECT_BP2 sreg
    /\ M25PX16.M25PX16_SREG_WRITE_PROTECT sreg
       = M25P16_SREG_WRITE_PROTECT sreg
    /\ c_true
         (Z.land sreg M25PX16.M25PX16_LOCK_REGISTER_BIT_SECTOR_WRITE_LOCK)
       = Z.testbit sreg 0
    /\ c_true
         (Z.land sreg M25PX16.M25PX16_LOCK_REGISTER_BIT_SECTOR_LOCK_DOWN)
       = Z.testbit sreg 1.
Proof.
  intros sreg.
  unfold M25P16_SREG_WRITE_IN_PROGRESS, M25P16_SREG_WRITE_ENABLE_LATCH,
    M25P16_SREG_BLOCK_PROTECT_BP0, M25P16_SREG_BLOCK_PROTECT_BP1,
    M25P16_SREG_BLOCK_PROTECT_BP2, M25P16_SREG_WRITE_PROTECT,
    M25PX16.M25PX16_SREG_WRITE_IN_PROGRESS,
    M25PX16.M25PX16_SREG_WRITE_ENABLE_LATCH,
    M25PX16.M25PX16_SREG_BLOCK_PROTECT_BP0,
    M25PX16.M25PX16_SREG_BLOCK_PROTECT_BP1,
    M25PX16.M25PX16_SREG_BLOCK_PROTECT_BP2,
    M25PX16.M25PX16_SREG_WRITE_PROTECT,
    M25PX16.M25PX16_LOCK_REGISTER_BIT_SECTOR_WRITE_LOCK,
    M25PX16.M25PX16_LOCK_REGISTER_BIT_SECTOR_LOCK_DOWN, c_true.
  rewrite !land_single_bit by lia.
  repeat split; try reflexivity;
    match goal with
    | |- context [Z.testbit sreg ?n] => destruct (Z.testbit sreg n)
    end; reflexivity.
Qed.

(** ** The two drivers side by side *)

(** X8.  On the eleven commands they share, the M25PX16 driver and the
    M25P16 driver do the same thing: the same result and the same bus
    afterwards, log included, for every argument and every device.  For
    Read Identification the two structures are compared member by
    member. *)
Theorem drivers_agree_on_shared_commands :
  forall (dev : Type) (T : Transport dev) (addr sreg siz : Z)
         (buf : list Z) (out : carray) (p : m25p16_identification_t)
         (b : bus dev),
    M25PX16.m25px16_init b = m25p16_init b
    /\ M25PX16.m25px16_write_enable b = m25p16_write_enable b
    /\ M25PX16.m25px16_write_disable b = m25p16_write_disable b
    /\ M25PX16.m25px16_read_status_register b = m25p16_read_status_register b
    /\ M25PX16.m25px16_write_status_register sreg b
       = m25p16_write_status_register sreg b
    /\ M25PX16.m25px16_read_data_bytes addr out siz b
       = m25p16_read_data_bytes addr out siz b
    /\ M25PX16.m25px16_page_program addr buf siz b
       = m25p16_page_program addr buf siz b
    /\ M25PX16.m25px16_sector_erase addr b = m25p16_sector_erase addr b
    /\ M25PX16.m25px16_bulk_erase b = m25p16_bulk_erase b
    /\ M25PX16.m25px16_deep_power_down b = m25p16_deep_power_down b
    /\ M25PX16.m25px16_release_from_deep_power_down b
       = m25p16_release_from_deep_power_down b
    /\ M25PX16.m25px16_read_identification (as_m25px16 p) b
       = (as_m25px16 (fst (m25p16_read_identification p b)),
          snd (m25p16_read_identification p b)).
Proof.
  intros dev T addr sreg siz buf out p b.
  do 11 (split; [reflexivity|]).
  pose proof (m25p16_read_identification_frame p b) as H16.
  pose proof (X16Frames.m25px16_read_identification_frame (as_m25px16 p) b)
    as HX.
  cbv zeta in H16, HX. rewrite H16, HX. reflexivity.
Qed.

(** ** Geometry *)



(** ** Indices beyond the geometry *)

Section Aliasing.
Context {dev : Type} {T : Transport dev}.

Lemma sector_erase_same_bytes (a a' : Z) (b : bus dev) :
  address_bytes a = address_bytes a' ->
  m25p16_sector_erase a b = m25p16_sector_erase a' b.
Proof.
  intros H. rewrite !m25p16_sector_erase_frame.
  rewrite (transaction_ext _ _ b (header_bytes CMD_SECTOR_ERASE a [])).
  rewrite (transaction_ext
             [CMD_SECTOR_ERASE; Z.shiftr a' 16; Z.shiftr a' 8;
              Z.shiftr a' 0]
             _ b (header_bytes CMD_SECTOR_ERASE a' [])).
  now rewrite H.
Qed.

Lemma page_program_same_bytes (a a' : Z) (buf : list Z) (siz : Z)
  (b : bus dev) :
  address_bytes a = address_bytes a' ->
  m25p16_page_program a buf siz b = m25p16_page_program a' buf siz b.
Proof.
  intros H. rewrite !m25p16_page_program_frame.
  rewrite (transaction_ext _ _ b (header_bytes CMD_PAGE_PROGRAM a _)).
  rewrite (transaction_ext
             ([CMD_PAGE_PROGRAM; Z.shiftr a' 16; Z.shiftr a' 8;
               Z.shiftr a' 0] ++ buffer_bytes buf siz)
             _ b (header_bytes CMD_PAGE_PROGRAM a' _)).
  now rewrite H.
Qed.

Lemma read_data_bytes_same_bytes (a a' : Z) (buf : carray) (siz : Z)
  (b : bus dev) :
  address_bytes a = address_bytes a' ->
  m25p16_read_data_bytes a buf siz b = m25p16_read_data_bytes a' buf siz b.
Proof.
  intros H. rewrite !m25p16_read_data_bytes_frame.
  rewrite (transaction_ext _ _ b (header_bytes CMD_READ_DATA_BYTES a _)).
  rewrite (transaction_ext
             ([CMD_READ_DATA_BYTES; Z.shiftr a' 16; Z.shiftr a' 8;
               Z.shiftr a' 0] ++ repeat 0 (Z.to_nat siz))
             _ b (header_bytes CMD_READ_DATA_BYTES a' _)).
  now rewrite H.
Qed.
End Aliasing.

Lemma sector_address_alias (sector k : Z) :
  address_bytes (to_uint32 (M25P16_SECTOR_BYTE_SIZE * (sector + 256 * k)))
  = address_bytes (to_uint32 (M25P16_SECTOR_BYTE_SIZE * sector)).
Proof.
  unfold address_bytes, to_uint32, M25P16_SECTOR_BYTE_SIZE.
  f_equal; [|f_equal; [|f_equal]]; Z.div_mod_to_equations; lia.
Qed.

Lemma page_address_alias (page k : Z) :
  address_bytes (to_uint32 (M25P16_PAGE_BYTE_SIZE * (page + 65536 * k)))
  = address_bytes (to_uint32 (M25P16_PAGE_BYTE_SIZE * page)).
Proof.
  unfold address_bytes, to_uint32, M25P16_PAGE_BYTE_SIZE.
  f_equal; [|f_equal; [|f_equal]]; Z.div_mod_to_equations; lia.
Qed.

(** X10.  Since no index is checked and only three address bytes go on the
    wire, the facade cannot tell a sector index from the same index plus a
    multiple of 256, nor a page index from the same index plus a multiple
    of 65536: the calls give the same result and the same bus, log
    included.  (So [flash_sector_erase(256)] erases sector 0.) *)
Theorem facade_indices_alias :
  forall (dev : Type) (T : Transport dev) (polls : nat)
         (sector page k siz : Z) (buf : list Z) (out : carray) (b : bus dev),
    flash_sector_erase polls (sector + 256 * k) b
    = flash_sector_erase polls sector b
    /\ flash_page_write polls (page + 65536 * k) buf siz b
       = flash_page_write polls page buf siz b
    /\ flash_page_read (page + 65536 * k) out siz b
       = flash_page_read page out siz b.
Proof.
  intros dev T polls sector page k siz buf out b.
  unfold flash_sector_erase, flash_page_write, flash_page_read.
  split; [|split].
  - destruct (m25p16_write_enable b) as [[] b1].
    now rewrite (sector_erase_same_bytes _ _ b1 (sector_address_alias sector k)).
  - destruct (M25P16_PAGE_BYTE_SIZE <? siz); [reflexivity|].
    destruct (m25p16_write_enable b) as [[] b1].
    now rewrite (page_program_same_bytes _ _ buf siz b1
                   (page_address_alias page k)).
  - destruct (M25P16_PAGE_BYTE_SIZE <? siz); [reflexivity|].
    now rewrite (read_data_bytes_same_bytes _ _ out siz b
                   (page_address_alias page k)).
Qed.

(** ** Page operations stay inside their page *)

Lemma frame_header_payload (op a : Z) (payload ins : list Z) :
  is_byte op ->
  length ins = length (op :: address_bytes a ++ payload) ->
  exists hdr rs,
    ins = hdr ++ rs /\ length hdr = 4%nat /\ length rs = length payload
    /\ frame (op :: address_bytes a ++ payload) ins
       = [EvAssert]
         ++ transmit_events (op :: address_bytes a) hdr
         ++ transmit_events (map to_uint8 payload) rs
         ++ [EvDeassert].
Proof.
  intros Hop Hlen.
  destruct (split_answers 4 ins (length payload))
    as (hdr & rs & Hins & Hh & Hr).
  { rewrite Hlen. cbn [length]. rewrite length_app. reflexivity. }
  exists hdr, rs. split; [exact Hins|]. split; [exact Hh|].
  split; [exact Hr|].
  rewrite frame_to_bytes, map_cons, map_app, address_bytes_bytes,
    (to_uint8_small op Hop).
  rewrite frame_of_bytes.
  - rewrite Hins.
    change (op :: address_bytes a ++ map to_uint8 payload)
      with ((op :: address_bytes a) ++ map to_uint8 payload).
    rewrite transmit_events_app by (rewrite Hh; reflexivity).
    cbn [app]. now rewrite <- app_assoc.
  - constructor; [exact Hop|]. apply Forall_app. split.
    + apply address_bytes_are_bytes.
    + apply Forall_forall. intros x Hx. apply in_map_iff in Hx.
      destruct Hx as [y [<- _]]. apply to_uint8_range.
Qed.

Lemma page_address_bytes (page : Z) :
  address_bytes (page * M25P16_PAGE_BYTE_SIZE)
  = [(page / 256) mod 256; page mod 256; 0].
Proof.
  unfold address_bytes, M25P16_PAGE_BYTE_SIZE.
  f_equal; [|f_equal; [|f_equal]]; Z.div_mod_to_equations; lia.
Qed.

(** X11.  Every Page Program and Read Data Bytes frame of the facade starts
    on a page boundary and stays inside that page: for every page index the
    address bytes sent are [(page / 256) mod 256], [page mod 256] and 0,
    and once the size check has passed at most 256 data bytes follow them.
    A write of [siz = 0] still sends Write Enable and a Page Program frame,
    one that carries no data byte. *)
Theorem page_operations_stay_in_page :
  forall (dev : Type) (T : Transport dev) (polls : nat) (page : Z)
         (buf : list Z) (out : carray) (siz : Z) (b : bus dev),
    siz <= M25P16_PAGE_BYTE_SIZE ->
    (exists tr1 hdr rs rest,
        on_wire call_write_enable tr1
        /\ length hdr = 4%nat /\ length rs = Z.to_nat siz
        /\ (length rs <= 256)%nat
        /\ wire (snd (flash_page_write polls page buf siz b))
           = wire b ++ tr1
             ++ ([EvAssert]
                 ++ transmit_events
                      [0x02; (page / 256) mod 256; page mod 256; 0] hdr
                 ++ transmit_events (map to_uint8 (buffer_bytes buf siz)) rs
                 ++ [EvDeassert])
             ++ rest)
    /\ (exists hdr data,
        length hdr = 4%nat /\ length data = Z.to_nat siz
        /\ (length data <= 256)%nat
        /\ wire (snd (flash_page_read page out siz b))
           = wire b
             ++ [EvAssert]
             ++ transmit_events
                  [0x03; (page / 256) mod 256; page mod 256; 0] hdr
             ++ transmit_events (repeat 0 (Z.to_nat siz)) data
             ++ [EvDeassert]).
Proof.
  intros dev T polls page buf out siz b Hsiz.
  assert (Hn : (Z.to_nat siz <= 256)%nat)
    by (unfold M25P16_PAGE_BYTE_SIZE in Hsiz; lia).
  assert (Hlen : length (buffer_bytes buf siz) = Z.to_nat siz)
    by (unfold buffer_bytes; now rewrite length_map, length_seq).
  split.
  - destruct (flash_page_write_prefix polls page buf siz b Hsiz)
      as (tr1 & tr2 & rest & Hw & Hon1 & Hon2).
    destruct Hon2 as (ins & Hl & -> & _). cbn [wire_out] in *.
    destruct (frame_header_payload 0x02 (page * M25P16_PAGE_BYTE_SIZE)
                (buffer_bytes buf siz) ins ltac:(unfold is_byte; lia) Hl)
      as (hdr & rs & _ & Hh & Hr & Hf).
    rewrite Hf, page_address_bytes in Hw.
    exists tr1, hdr, rs, rest. rewrite Hlen in Hr.
    split; [exact Hon1|]. split; [exact Hh|]. split; [exact Hr|].
    split; [lia | exact Hw].
  - pose proof (flash_page_read_run page out siz b Hsiz) as H.
    cbv zeta in H. rewrite H. cbn [snd].
    rewrite transaction_wire.
    destruct (frame_header_payload 0x03 (page * M25P16_PAGE_BYTE_SIZE)
                (repeat 0 (Z.to_nat siz))
                (fst (transaction
                        (0x03 :: address_bytes (page * M25P16_PAGE_BYTE_SIZE)
                              ++ repeat 0 (Z.to_nat siz)) b))
                ltac:(unfold is_byte; lia) (transaction_length _ b))
      as (hdr & data & _ & Hh & Hd & Hf).
    rewrite Hf, page_address_bytes. rewrite repeat_length in Hd.
    exists hdr, data. split; [exact Hh|]. split; [exact Hd|].
    split; [lia|].
    assert (Hz : map to_uint8 (repeat 0 (Z.to_nat siz))
                 = repeat 0 (Z.to_nat siz)).
    { clear. induction (Z.to_nat siz) as [|n IH]; [reflexivity|].
      cbn [repeat map]. now rewrite IH. }
    now rewrite Hz.
Qed.

Lemma page_operations_stay_in_page_witness :
  0 <= M25P16_PAGE_BYTE_SIZE
  /\ exists hdr data,
      length hdr = 4%nat /\ length data = Z.to_nat 0
      /\ (length data <= 256)%nat
      /\ wire (snd (flash_page_read 8191 (fresh_array 0) 0 (playback_bus [])))
         = wire (playback_bus [])
           ++ [EvAssert]
           ++ transmit_events
                [0x03; (8191 / 256) mod 256; 8191 mod 256; 0] hdr
           ++ transmit_events (repeat 0 (Z.to_nat 0)) data
           ++ [EvDeassert].
Proof.
  assert (H : 0 <= M25P16_PAGE_BYTE_SIZE)
    by (unfold M25P16_PAGE_BYTE_SIZE; lia).
  split; [exact H|].
  exact (proj2 (page_operations_stay_in_page playback _ 1 8191 []
                  (fresh_array 0) 0 (playback_bus []) H)).
Defined.

(** ** A device that never becomes ready *)

Section Stuck.
Context {dev : Type} {T : Transport dev}.

Lemma stuck_next (d : dev) : stuck d -> stuck (after_frame [0x05; 0x00] d).
Proof.
  intros H k. specialize (H (S k)).
  now rewrite Nat.iter_succ_r in H.
Qed.

Lemma poll_while_busy_stuck (polls : nat) :
  forall b : bus dev,
    stuck (hw b) ->
    exists statuses tr,
      fst (poll_while_busy polls b) = None
      /\ wire (snd (poll_while_busy polls b)) = wire b ++ tr
      /\ issued (map call_read_status_register statuses) tr
      /\ length statuses = polls /\ Forall wip_set statuses.
Proof.
  induction polls as [|k IH]; intros b Hstuck; cbn [poll_while_busy].
  - exists [], []. rewrite app_nil_r. repeat split; constructor.
  - destruct (read_status_register_on_wire b) as (tr & Hw & Hon & Hs & Hhw).
    destruct (m25p16_read_status_register b) as [sreg b1].
    cbn [fst snd] in *. subst sreg.
    rewrite wip_test_bit0.
    pose proof (Hstuck 0%nat) as H0.
    change (Z.testbit (status_answer (hw b)) 0 = true) in H0. rewrite H0.
    destruct (IH b1) as (sts & tr' & Hnone & Hw' & Hiss & Hlen & Hall).
    { rewrite Hhw. now apply stuck_next. }
    exists (status_answer (hw b) :: sts), (tr ++ tr').
    split; [exact Hnone|]. split; [now rewrite Hw', Hw, app_assoc|].
    split; [cbn [map]; now apply issued_cons|].
    split; [cbn [length]; now rewrite Hlen|].
    constructor; assumption.
Qed.

Lemma settle_stuck (polls : nat) (b : bus dev) :
  stuck (hw b) ->
  exists statuses tr,
    fst (match poll_while_busy polls b with
         | (None, b3) => (None, b3)
         | (Some _, b3) =>
             let (_, b4) := m25p16_write_disable b3 in (Some 0, b4)
         end) = None
    /\ wire (snd (match poll_while_busy polls b with
                  | (None, b3) => (None, b3)
                  | (Some _, b3) =>
                      let (_, b4) := m25p16_write_disable b3 in (Some 0, b4)
                  end)) = wire b ++ tr
    /\ issued (map call_read_status_register statuses) tr
    /\ length statuses = polls /\ Forall wip_set statuses.
Proof.
  intros Hstuck.
  destruct (poll_while_busy_stuck polls b Hstuck)
    as (sts & tr & Hnone & Hw & Hiss & Hlen & Hall).
  destruct (poll_while_busy polls b) as [[s|] b3]; cbn [fst snd] in *;
    [discriminate|].
  now exists sts, tr.
Qed.
End Stuck.

Lemma idle_line_is_stuck (d : playback) : pending d = [] -> stuck d.
Proof.
  intros Hd k.
  assert (E : Nat.iter k (after_frame [0x05; 0x00]) d = d).
  { induction k as [|k IH]; [reflexivity|].
    change (Nat.iter (S k) (after_frame [0x05; 0x00]) d)
      with (after_frame [0x05; 0x00]
              (Nat.iter k (after_frame [0x05; 0x00]) d)).
    rewrite IH.
    destruct d as [l]. cbn in Hd. subst l. reflexivity. }
  rewrite E. destruct d as [l]. cbn in Hd. subst l. reflexivity.
Qed.

(** X12.  The busy poll has no way out but the WIP bit: against a device
    that answers WIP set to every status read, [flash_sector_erase] and an
    in-size [flash_page_write] have not returned after any number of polls.
    What they have put on the wire by then is Write Enable, the command,
    and one Read Status Register per poll; Write Disable is never sent. *)
Theorem stuck_device_hangs_mutations :
  forall (dev : Type) (T : Transport dev) (polls : nat) (b : bus dev),
    (forall sector : Z,
        stuck
          (after_frame
             (wire_out (call_sector_erase (sector * M25P16_SECTOR_BYTE_SIZE)))
             (after_frame (wire_out call_write_enable) (hw b))) ->
        exists statuses tr,
          fst (flash_sector_erase polls sector b) = None
          /\ wire (snd (flash_sector_erase polls sector b)) = wire b ++ tr
          /\ issued
               (call_write_enable
                  :: call_sector_erase (sector * M25P16_SECTOR_BYTE_SIZE)
                  :: map call_read_status_register statuses) tr
          /\ length statuses = polls /\ Forall wip_set statuses)
    /\ (forall (page : Z) (buf : list Z) (siz : Z),
        siz <= M25P16_PAGE_BYTE_SIZE ->
        stuck
          (after_frame
             (wire_out (call_page_program (page * M25P16_PAGE_BYTE_SIZE)
                          (buffer_bytes buf siz)))
             (after_frame (wire_out call_write_enable) (hw b))) ->
        exists statuses tr,
          fst (flash_page_write polls page buf siz b) = None
          /\ wire (snd (flash_page_write polls page buf siz b)) = wire b ++ tr
          /\ issued
               (call_write_enable
                  :: call_page_program (page * M25P16_PAGE_BYTE_SIZE)
                       (buffer_bytes buf siz)
                  :: map call_read_status_register statuses) tr
          /\ length statuses = polls /\ Forall wip_set statuses).
Proof.
  intros dev T polls b. split.
  - intros sector Hstuck. unfold flash_sector_erase.
    destruct (write_enable_on_wire b) as (tr1 & Hw1 & Hon1 & Hhw1).
    destruct (m25p16_write_enable b) as [[] b1]. cbn [snd] in *.
    rewrite (Z.mul_comm M25P16_SECTOR_BYTE_SIZE sector).
    destruct (sector_erase_on_wire (sector * M25P16_SECTOR_BYTE_SIZE) b1)
      as (tr2 & Hw2 & Hon2 & Hhw2).
    destruct (m25p16_sector_erase _ b1) as [[] b2]. cbn [snd] in *.
    rewrite <- Hhw1, <- Hhw2 in Hstuck.
    destruct (settle_stuck polls b2 Hstuck)
      as (sts & tr & Hnone & Hw & Hiss & Hlen & Hall).
    exists sts, (tr1 ++ tr2 ++ tr).
    split; [exact Hnone|].
    split; [now rewrite Hw, Hw2, Hw1, <- !app_assoc|].
    split; [|now split].
    apply issued_cons; [exact Hon1|]. now apply issued_cons.
  - intros page buf siz Hsiz Hstuck. unfold flash_page_write.
    destruct (Z.ltb_spec M25P16_PAGE_BYTE_SIZE siz) as [Hbad|_]; [lia|].
    destruct (write_enable_on_wire b) as (tr1 & Hw1 & Hon1 & Hhw1).
    destruct (m25p16_write_enable b) as [[] b1]. cbn [snd] in *.
    rewrite (Z.mul_comm M25P16_PAGE_BYTE_SIZE page).
    destruct (page_program_on_wire (page * M25P16_PAGE_BYTE_SIZE) buf siz b1)
      as (tr2 & Hw2 & Hon2 & Hhw2).
    destruct (m25p16_page_program _ buf siz b1) as [[] b2]. cbn [snd] in *.
    rewrite <- Hhw1, <- Hhw2 in Hstuck.
    destruct (settle_stuck polls b2 Hstuck)
      as (sts & tr & Hnone & Hw & Hiss & Hlen & Hall).
    exists sts, (tr1 ++ tr2 ++ tr).
    split; [exact Hnone|].
    split; [now rewrite Hw, Hw2, Hw1, <- !app_assoc|].
    split; [|now split].
    apply issued_cons; [exact Hon1|]. now apply issued_cons.
Qed.

Lemma stuck_device_hangs_mutations_witness :
  fst (flash_sector_erase 1000 3 (playback_bus [])) = None
  /\ 2 <= M25P16_PAGE_BYTE_SIZE
  /\ fst (flash_page_write 1000 3 [0xAA; 0xBB] 2 (playback_bus [])) = None.
Proof.
  assert (Hs : 2 <= M25P16_PAGE_BYTE_SIZE)
    by (unfold M25P16_PAGE_BYTE_SIZE; lia).
  destruct (stuck_device_hangs_mutations playback _ 1000 (playback_bus []))
    as [He Hw].
  split; [|split; [exact Hs|]].
  - destruct (He 3 (idle_line_is_stuck {| pending := [] |} eq_refl)) as (sts & tr & H & _).
    exact H.
  - destruct (Hw 3 [0xAA; 0xBB] 2 Hs (idle_line_is_stuck {| pending := [] |} eq_refl))
      as (sts & tr & H & _).
    exact H.
Defined.

(** ** More on the in-memory double *)

Module DoubleRuns.
Import Double DoubleFacts RoundTrip.

Lemma chip_after_sector_erase (a : Z) (c : chip) :
  busy c = 0%nat ->
  wel c = true ->
  after_frame (wire_out (call_sector_erase a)) c
  = start_cycle
      (with_mem
         (erase_sector
            (address ((a / 65536) mod 256) ((a / 256) mod 256) (a mod 256))
            (mem c))
         (with_latched [] c)).
Proof.
  intros Hb Hw. destruct c as [m w bz cy l]. cbn [busy wel] in *.
  subst bz w. unfold after_frame. cbn [wire_out].
  unfold address_bytes. cbn [exchange].
  rewrite !to_uint8_small by (try apply Z.mod_pos_bound; lia).
  reflexivity.
Qed.

(** What follows the command, against the double. *)
Lemma chip_settles (polls : nat) (b : bus chip) :
  (busy (hw b) < polls)%nat ->
  exists b',
    match poll_while_busy polls b with
    | (None, b3) => (None, b3)
    | (Some _, b3) => let (_, b4) := m25p16_write_disable b3 in (Some 0, b4)
    end = (Some 0, b')
    /\ hw b' = with_wel false (with_busy 0 (with_latched [] (hw b))).
Proof.
  intros Hlt.
  destruct (chip_poll (busy (hw b)) polls b eq_refl Hlt)
    as (s & b3 & Hrun & Hhw3).
  rewrite Hrun.
  destruct (write_disable_on_wire b3) as (tr & _ & _ & Hhw4).
  destruct (m25p16_write_disable b3) as [[] b4]. cbn [snd] in Hhw4.
  rewrite chip_after_write_disable in Hhw4 by (rewrite Hhw3; reflexivity).
  exists b4. split; [reflexivity|]. rewrite Hhw4, Hhw3.
  now destruct (hw b).
Qed.

Lemma chip_sector_erase (polls : nat) (sector : Z) (w : list spi_event)
  (c : chip) :
  busy c = 0%nat ->
  (cycle c < polls)%nat ->
  0 <= sector < M25P16_SECTOR_COUNT ->
  exists b1,
    flash_sector_erase polls sector {| hw := c; wire := w |} = (Some 0, b1)
    /\ hw b1
       = {| mem := erase_sector (sector * M25P16_SECTOR_BYTE_SIZE) (mem c);
            wel := false; busy := 0; cycle := cycle c; latched := [] |}.
Proof.
  intros Hb Hcy Hs. unfold flash_sector_erase.
  destruct (write_enable_on_wire {| hw := c; wire := w |})
    as (tr1 & _ & _ & Hhw1).
  destruct (m25p16_write_enable _) as [[] b1]. cbn [snd hw] in Hhw1.
  rewrite (Z.mul_comm M25P16_SECTOR_BYTE_SIZE sector).
  destruct (sector_erase_on_wire (sector * M25P16_SECTOR_BYTE_SIZE) b1)
    as (tr2 & _ & _ & Hhw2).
  destruct (m25p16_sector_erase _ b1) as [[] b2]. cbn [snd] in Hhw2.
  rewrite Hhw1, chip_after_write_enable in Hhw2 by exact Hb.
  rewrite chip_after_sector_erase in Hhw2 by (now destruct c).
  assert (Ha : address
                 ((sector * M25P16_SECTOR_BYTE_SIZE / 65536) mod 256)
                 ((sector * M25P16_SECTOR_BYTE_SIZE / 256) mod 256)
                 ((sector * M25P16_SECTOR_BYTE_SIZE) mod 256)
               = sector * M25P16_SECTOR_BYTE_SIZE).
  { unfold address, CAPACITY, M25P16_PAGE_COUNT, M25P16_PAGE_BYTE_SIZE,
      M25P16_SECTOR_BYTE_SIZE, M25P16_SECTOR_COUNT in *.
    change (8192 * 256) with 2097152. Z.div_mod_to_equations. lia. }
  rewrite Ha in Hhw2.
  destruct (chip_settles polls b2) as (b4 & Hrun & Hhw4).
  { rewrite Hhw2. now destruct c. }
  rewrite Hrun. exists b4. split; [reflexivity|].
  rewrite Hhw4, Hhw2. now destruct c.
Qed.

Lemma program_page_outside (A : Z) (data : list Z) (m : Z -> Z) (a : Z) :
  A mod 256 = 0 ->
  (length data <= 256)%nat ->
  ~ (A <= a < A + Z.of_nat (length data)) ->
  program_page A data m a = m a.
Proof.
  intros HA Hlen Hout. unfold program_page.
  replace (length data - 256)%nat with 0%nat by lia.
  cbn [skipn Z.of_nat]. rewrite Z.add_0_r, HA.
  destruct (Z.eqb_spec (a / 256) (A / 256)) as [E|E]; [|reflexivity].
  replace ((a - 0) mod 256 <? Z.of_nat (length data)) with false;
    [reflexivity|].
  symmetry. apply Z.ltb_ge. Z.div_mod_to_equations. lia.
Qed.

Lemma chip_transmit_latches (op x : Z) (pre : list Z) (c : chip) :
  op <> 0x05 ->
  latched c = op :: pre ->
  snd (chip_transmit x c) = with_latched (op :: pre ++ [x]) c.
Proof.
  intros Hop Hl. unfold chip_transmit. rewrite Hl.
  destruct (Z.eqb_spec op 0x05) as [E|_]; [contradiction|].
  destruct pre as [|a2 [|a1 [|a0 got]]]; try reflexivity.
  now destruct ((op =? 0x03) && (busy c =? 0)%nat).
Qed.

Lemma chip_latches (op : Z) (data : list Z) :
  op <> 0x05 ->
  forall (pre : list Z) (c : chip),
    latched c = op :: pre ->
    snd (exchange data c) = with_latched (op :: pre ++ map to_uint8 data) c.
Proof.
  intros Hop. induction data as [|x t IH]; intros pre c Hl.
  - cbn. rewrite app_nil_r, <- Hl. now destruct c.
  - cbn [exchange map].
    pose proof (chip_transmit_latches op (to_uint8 x) pre c Hop Hl) as E.
    change (hw_transmit (to_uint8 x) c) with (chip_transmit (to_uint8 x) c).
    destruct (chip_transmit (to_uint8 x) c) as [r c1]. cbn [snd] in E.
    subst c1.
    specialize (IH (pre ++ [to_uint8 x])
                  (with_latched (op :: pre ++ [to_uint8 x]) c) eq_refl).
    destruct (exchange t _) as [rs d2]. cbn [snd] in *. rewrite IH.
    rewrite <- app_assoc. now destruct c.
Qed.

Lemma chip_after_read (a : Z) (n : nat) (c : chip) :
  busy c = 0%nat ->
  after_frame (0x03 :: address_bytes a ++ repeat 0 n) c = with_latched [] c.
Proof.
  intros Hb. unfold after_frame.
  change (0x03 :: address_bytes a ++ repeat 0 n)
    with ([0x03] ++ address_bytes a ++ repeat 0 n).
  rewrite exchange_app. cbn [snd].
  assert (E : snd (exchange [0x03] (hw_assert c)) = with_latched [0x03] c)
    by (now destruct c).
  rewrite E.
  rewrite (chip_latches 0x03 (address_bytes a ++ repeat 0 n)
             ltac:(discriminate) [] (with_latched [0x03] c) eq_refl).
  rewrite map_app, address_bytes_bytes.
  destruct c as [m w bz cy l]. cbn [busy] in Hb. subst bz. reflexivity.
Qed.
End DoubleRuns.

(** X13.  Against the in-memory double at rest, [flash_sector_erase] of an
    in-range sector [s] returns 0 and leaves every byte of
    [[s * sector_bytes, (s + 1) * sector_bytes)] at 0xFF and every other
    byte as it was; the double is at rest again, write enable latch
    reset. *)
Theorem sector_erase_sets_sector_on_double :
  forall (c : Double.chip) (w : list spi_event) (polls : nat) (s : Z),
    Double.busy c = 0%nat ->
    (Double.cycle c < polls)%nat ->
    0 <= s < M25P16_SECTOR_COUNT ->
    exists b1,
      flash_sector_erase polls s {| hw := c; wire := w |} = (Some 0, b1)
      /\ Double.busy (hw b1) = 0%nat
      /\ Double.wel (hw b1) = false
      /\ (forall a,
            s * M25P16_SECTOR_BYTE_SIZE <= a
              < (s + 1) * M25P16_SECTOR_BYTE_SIZE ->
            Double.mem (hw b1) a = 0xFF)
      /\ (forall a,
            ~ (s * M25P16_SECTOR_BYTE_SIZE <= a
                 < (s + 1) * M25P16_SECTOR_BYTE_SIZE) ->
            Double.mem (hw b1) a = Double.mem c a).
Proof.
  intros c w polls s Hb Hcy Hs.
  destruct (DoubleRuns.chip_sector_erase polls s w c Hb Hcy Hs)
    as (b1 & Hrun & Hhw).
  exists b1. split; [exact Hrun|]. rewrite Hhw.
  cbn [Double.busy Double.wel Double.mem].
  split; [reflexivity|]. split; [reflexivity|].
  unfold Double.erase_sector, M25P16_SECTOR_BYTE_SIZE. split; intros a Ha.
  - replace (a / 65536 =? s * 65536 / 65536) with true; [reflexivity|].
    symmetry. apply Z.eqb_eq. Z.div_mod_to_equations. lia.
  - replace (a / 65536 =? s * 65536 / 65536) with false; [reflexivity|].
    symmetry. apply Z.eqb_neq. Z.div_mod_to_equations. lia.
Qed.

Lemma sector_erase_sets_sector_on_double_witness :
  exists b1,
    flash_sector_erase 3 31
      {| hw := Double.idle_chip (fun _ => 0x00) 2; wire := [] |}
    = (Some 0, b1)
    /\ Double.busy (hw b1) = 0%nat
    /\ Double.wel (hw b1) = false
    /\ (forall a,
          31 * M25P16_SECTOR_BYTE_SIZE <= a
            < (31 + 1) * M25P16_SECTOR_BYTE_SIZE ->
          Double.mem (hw b1) a = 0xFF)
    /\ (forall a,
          ~ (31 * M25P16_SECTOR_BYTE_SIZE <= a
               < (31 + 1) * M25P16_SECTOR_BYTE_SIZE) ->
          Double.mem (hw b1) a
          = Double.mem (Double.idle_chip (fun _ => 0x00) 2) a).
Proof.
  apply (sector_erase_sets_sector_on_double
           (Double.idle_chip (fun _ => 0x00) 2) [] 3 31).
  - reflexivity.
  - simpl. lia.
  - unfold M25P16_SECTOR_COUNT. lia.
Defined.

Module DoubleWrites.
Import Double DoubleFacts RoundTrip DoubleRuns.

Lemma chip_page_write_state (polls : nat) (page : Z) (buf : list Z)
  (w : list spi_event) (c : chip) :
  busy c = 0%nat ->
  (cycle c < polls)%nat ->
  (length buf <= 256)%nat ->
  0 <= page < M25P16_PAGE_COUNT ->
  exists b1 m',
    flash_page_write polls page buf (Z.of_nat (length buf))
      {| hw := c; wire := w |} = (Some 0, b1)
    /\ hw b1
       = {| mem := m'; wel := false; busy := 0; cycle := cycle c;
            latched := [] |}
    /\ forall a,
        m' a
        = program_page (page * M25P16_PAGE_BYTE_SIZE) (map to_uint8 buf)
            (mem c) a.
Proof.
  intros Hb Hcy Hlen Hpage. unfold flash_page_write.
  destruct (Z.ltb_spec M25P16_PAGE_BYTE_SIZE (Z.of_nat (length buf)))
    as [Hbad|_]; [unfold M25P16_PAGE_BYTE_SIZE in Hbad; lia|].
  destruct (write_enable_on_wire {| hw := c; wire := w |})
    as (tr1 & _ & _ & Hhw1).
  destruct (m25p16_write_enable _) as [[] b1]. cbn [snd hw] in Hhw1.
  rewrite (Z.mul_comm M25P16_PAGE_BYTE_SIZE page).
  destruct (page_program_on_wire (page * M25P16_PAGE_BYTE_SIZE) buf
              (Z.of_nat (length buf)) b1) as (tr2 & _ & _ & Hhw2).
  destruct (m25p16_page_program _ buf _ b1) as [[] b2]. cbn [snd] in Hhw2.
  rewrite buffer_bytes_all, Hhw1, chip_after_write_enable in Hhw2 by exact Hb.
  destruct buf as [|d0 buf].
  - rewrite chip_after_empty_program in Hhw2 by (now destruct c).
    destruct (chip_settles polls b2) as (b4 & Hrun & Hhw4).
    { rewrite Hhw2. destruct c. cbn in *. lia. }
    rewrite Hrun. exists b4, (mem c). split; [reflexivity|]. split.
    + rewrite Hhw4, Hhw2. now destruct c.
    + intros a. cbn [map]. now rewrite program_page_nothing.
  - rewrite chip_after_page_program in Hhw2
      by (try discriminate; now destruct c).
    rewrite page_address in Hhw2 by exact Hpage.
    destruct (chip_settles polls b2) as (b4 & Hrun & Hhw4).
    { rewrite Hhw2. now destruct c. }
    rewrite Hrun. eexists b4, _. split; [reflexivity|]. split.
    + rewrite Hhw4, Hhw2. destruct c. reflexivity.
    + intros a. reflexivity.
Qed.

Lemma chip_page_read_state (page : Z) (out : carray) (n : nat)
  (b : bus chip) :
  busy (hw b) = 0%nat ->
  (n <= 256)%nat ->
  hw (snd (flash_page_read page out (Z.of_nat n) b)) = with_latched [] (hw b).
Proof.
  intros Hb Hn.
  pose proof (flash_page_read_run page out (Z.of_nat n) b) as H.
  cbv zeta in H. rewrite H by (unfold M25P16_PAGE_BYTE_SIZE; lia).
  cbn [snd]. rewrite transaction_hw. now apply chip_after_read.
Qed.

(** The bytes read back from a page that was just programmed over old
    contents [m]. *)
Lemma programmed_bytes (A : Z) (buf : list Z) (m m' : Z -> Z) :
  A mod 256 = 0 ->
  (length buf <= 256)%nat ->
  Forall is_byte buf ->
  (forall a, m' a = program_page A (map to_uint8 buf) m a) ->
  forall j : nat,
    (j < length buf)%nat ->
    m' (A + Z.of_nat j) = Z.land (m (A + Z.of_nat j)) (nth j buf 0).
Proof.
  intros HA Hlen Hbytes Hm j Hj.
  assert (Hbyte : is_byte (nth j buf 0)).
  { rewrite Forall_forall in Hbytes. apply Hbytes, nth_In. lia. }
  rewrite Hm, program_page_at; rewrite ?length_map; try lia; try exact HA.
  rewrite Nat2Z.id.
  rewrite (nth_indep _ 0xFF (to_uint8 0)) by (rewrite length_map; lia).
  now rewrite map_nth, (to_uint8_small (nth j buf 0)) by exact Hbyte.
Qed.
End DoubleWrites.

(** X14.  Against the in-memory double at rest, an in-size
    [flash_page_write] to an in-range page returns 0 and does nothing but
    clear bits in the bytes it targets: byte [j] of the page becomes its old
    value ANDed with [buf[j]], every byte outside the written range keeps
    its value, and the double is at rest again with the write enable latch
    reset (also for an empty buffer, where no program cycle starts). *)
Theorem page_write_only_clears_bits_on_double :
  forall (c : Double.chip) (w : list spi_event) (polls : nat) (page : Z)
         (buf : list Z),
    Double.busy c = 0%nat ->
    (Double.cycle c < polls)%nat ->
    0 <= page < M25P16_PAGE_COUNT ->
    Z.of_nat (length buf) <= M25P16_PAGE_BYTE_SIZE ->
    Forall is_byte buf ->
    exists b1,
      flash_page_write polls page buf (Z.of_nat (length buf))
        {| hw := c; wire := w |} = (Some 0, b1)
      /\ Double.busy (hw b1) = 0%nat
      /\ Double.wel (hw b1) = false
      /\ (forall j : nat,
            (j < length buf)%nat ->
            Double.mem (hw b1) (page * M25P16_PAGE_BYTE_SIZE + Z.of_nat j)
            = Z.land
                (Double.mem c (page * M25P16_PAGE_BYTE_SIZE + Z.of_nat j))
                (nth j buf 0))
      /\ (forall a,
            ~ (page * M25P16_PAGE_BYTE_SIZE <= a
                 < page * M25P16_PAGE_BYTE_SIZE + Z.of_nat (length buf)) ->
            Double.mem (hw b1) a = Double.mem c a).
Proof.
  intros c w polls page buf Hb Hcy Hpage Hlen Hbytes.
  assert (Hlen' : (length buf <= 256)%nat)
    by (unfold M25P16_PAGE_BYTE_SIZE in Hlen; lia).
  assert (HA : (page * M25P16_PAGE_BYTE_SIZE) mod 256 = 0)
    by (unfold M25P16_PAGE_BYTE_SIZE; now rewrite Z.mod_mul by lia).
  destruct (DoubleWrites.chip_page_write_state polls page buf w c Hb Hcy
              Hlen' Hpage) as (b1 & m' & Hrun & Hhw & Hm).
  exists b1. split; [exact Hrun|]. rewrite Hhw.
  cbn [Double.busy Double.wel Double.mem].
  split; [reflexivity|]. split; [reflexivity|]. split.
  - intros j Hj.
    now apply (DoubleWrites.programmed_bytes _ buf (Double.mem c) m').
  - intros a Ha. rewrite Hm.
    apply DoubleRuns.program_page_outside; rewrite ?length_map; assumption.
Qed.

Lemma page_write_only_clears_bits_on_double_witness :
  exists b1,
    flash_page_write 1 7 [0xF0; 0x3C] (Z.of_nat (length [0xF0; 0x3C]))
      {| hw := Double.idle_chip (fun _ => 0x5A) 0; wire := [] |}
    = (Some 0, b1)
    /\ Double.mem (hw b1) (7 * M25P16_PAGE_BYTE_SIZE + Z.of_nat 1)
       = Z.land 0x5A 0x3C.
Proof.
  destruct (page_write_only_clears_bits_on_double
              (Double.idle_chip (fun _ => 0x5A) 0) [] 1 7 [0xF0; 0x3C])
    as (b1 & Hrun & _ & _ & Hin & _).
  - reflexivity.
  - simpl. lia.
  - unfold M25P16_PAGE_COUNT. lia.
  - unfold M25P16_PAGE_BYTE_SIZE. simpl. lia.
  - unfold is_byte. repeat constructor; lia.
  - exists b1. split; [exact Hrun|]. apply (Hin 1%nat). simpl. lia.
Defined.

(** X15.  Against the in-memory double at rest, an in-size
    [flash_page_read] of an in-range page returns 0 with the bytes of the
    page, in order, in the first [n] cells of the buffer, and changes
    nothing in the device: memory, write enable latch and cycle state are
    as before, so reading again gives the same bytes. *)
Theorem page_read_returns_memory_on_double :
  forall (b : bus Double.chip) (page : Z) (out : carray) (n : nat),
    Double.busy (hw b) = 0%nat ->
    0 <= page < M25P16_PAGE_COUNT ->
    Z.of_nat n <= M25P16_PAGE_BYTE_SIZE ->
    (n <= length (cells out))%nat ->
    exists out' b',
      flash_page_read page out (Z.of_nat n) b = (0, out', b')
      /\ firstn n (cells out')
         = map (fun j =>
                  to_uint8
                    (Double.mem (hw b)
                       (page * M25P16_PAGE_BYTE_SIZE + Z.of_nat j)))
             (seq 0 n)
      /\ Double.mem (hw b') = Double.mem (hw b)
      /\ Double.wel (hw b') = Double.wel (hw b)
      /\ Double.busy (hw b') = 0%nat
      /\ exists out'' b'',
          flash_page_read page out (Z.of_nat n) b' = (0, out'', b'')
          /\ firstn n (cells out'') = firstn n (cells out').
Proof.
  intros b page out n Hb Hpage Hn Hout.
  assert (Hn' : (n <= 256)%nat)
    by (unfold M25P16_PAGE_BYTE_SIZE in Hn; lia).
  destruct (RoundTrip.chip_page_read page out n b Hb Hpage Hn' Hout)
    as (out' & b' & Hread & Hcells).
  pose proof (DoubleWrites.chip_page_read_state page out n b Hb Hn') as Hhw.
  rewrite Hread in Hhw. cbn [snd] in Hhw.
  exists out', b'. split; [exact Hread|]. split; [exact Hcells|].
  rewrite Hhw. destruct (hw b) as [m wl bz cy l] eqn:Ehw.
  cbn [Double.mem Double.wel Double.busy Double.with_latched] in *.
  split; [reflexivity|]. split; [reflexivity|]. split; [exact Hb|].
  assert (Hb' : Double.busy (hw b') = 0%nat) by (now rewrite Hhw).
  destruct (RoundTrip.chip_page_read page out n b' Hb' Hpage Hn' Hout)
    as (out'' & b'' & Hr2 & Hc2).
  exists out'', b''. split; [exact Hr2|].
  rewrite Hc2, Hcells, Hhw. reflexivity.
Qed.

Lemma page_read_returns_memory_on_double_witness :
  exists out' b',
    flash_page_read 2 (fresh_array 3) (Z.of_nat 3)
      (Double.chip_bus (Double.idle_chip (fun a => a) 0)) = (0, out', b')
    /\ firstn 3 (cells out') = [0; 1; 2].
Proof.
  destruct (page_read_returns_memory_on_double
              (Double.chip_bus (Double.idle_chip (fun a => a) 0)) 2
              (fresh_array 3) 3)
    as (out' & b' & Hread & Hcells & _).
  - reflexivity.
  - unfold M25P16_PAGE_COUNT. lia.
  - unfold M25P16_PAGE_BYTE_SIZE. lia.
  - simpl. lia.
  - exists out', b'. split; [exact Hread|]. rewrite Hcells. reflexivity.
Defined.

(** X16.  Erase, write, read compose to a round trip from any prior
    contents: against the in-memory double at rest, erasing the sector that
    holds an in-range page ([page / 256]), then writing a buffer of at most
    [page_bytes] bytes to the page, then reading as many bytes back, all
    return 0 and the read-back buffer holds the written bytes. *)
Theorem erase_write_read_round_trip_on_double :
  forall (c : Double.chip) (w : list spi_event) (polls : nat) (page : Z)
         (buf : list Z) (out : carray),
    Double.busy c = 0%nat ->
    (Double.cycle c < polls)%nat ->
    0 <= page < M25P16_PAGE_COUNT ->
    Z.of_nat (length buf) <= M25P16_PAGE_BYTE_SIZE ->
    Forall is_byte buf ->
    (length buf <= length (cells out))%nat ->
    exists b1 b2 out' b3,
      flash_sector_erase polls (page / 256) {| hw := c; wire := w |}
      = (Some 0, b1)
      /\ flash_page_write polls page buf (Z.of_nat (length buf)) b1
         = (Some 0, b2)
      /\ flash_page_read page out (Z.of_nat (length buf)) b2 = (0, out', b3)
      /\ firstn (length buf) (cells out') = buf.
Proof.
  intros c w polls page buf out Hb Hcy Hpage Hlen Hbytes Hout.
  assert (Hlen' : (length buf <= 256)%nat)
    by (unfold M25P16_PAGE_BYTE_SIZE in Hlen; lia).
  assert (HA : (page * M25P16_PAGE_BYTE_SIZE) mod 256 = 0)
    by (unfold M25P16_PAGE_BYTE_SIZE; now rewrite Z.mod_mul by lia).
  assert (Hs : 0 <= page / 256 < M25P16_SECTOR_COUNT).
  { unfold M25P16_SECTOR_COUNT, M25P16_PAGE_COUNT in *.
    Z.div_mod_to_equations. lia. }
  destruct (DoubleRuns.chip_sector_erase polls (page / 256) w c Hb Hcy Hs)
    as (b1 & Herase & Hhw1).
  destruct b1 as [c1 w1]. cbn [hw] in Hhw1.
  assert (Hb1 : Double.busy c1 = 0%nat) by (now rewrite Hhw1).
  assert (Hcy1 : (Double.cycle c1 < polls)%nat) by (now rewrite Hhw1).
  destruct (DoubleWrites.chip_page_write_state polls page buf w1 c1 Hb1 Hcy1
              Hlen' Hpage) as (b2 & m2 & Hwrite & Hhw2 & Hm2).
  assert (Hb2 : Double.busy (hw b2) = 0%nat) by (now rewrite Hhw2).
  destruct (RoundTrip.chip_page_read page out (length buf) b2 Hb2 Hpage
              Hlen' Hout) as (out' & b3 & Hread & Hcells).
  exists {| hw := c1; wire := w1 |}, b2, out', b3.
  split; [exact Herase|]. split; [exact Hwrite|]. split; [exact Hread|].
  rewrite Hcells, Hhw2. cbn [Double.mem].
  rewrite <- (RoundTrip.buffer_bytes_all buf) at 2.
  unfold buffer_bytes. rewrite Nat2Z.id.
  apply map_ext_in. intros j Hj. apply in_seq in Hj.
  assert (Hbyte : is_byte (nth j buf 0)).
  { rewrite Forall_forall in Hbytes. apply Hbytes, nth_In. lia. }
  rewrite (DoubleWrites.programmed_bytes _ buf (Double.mem c1) m2)
    by (assumption || lia).
  rewrite Hhw1. cbn [Double.mem]. unfold Double.erase_sector.
  replace ((page * M25P16_PAGE_BYTE_SIZE + Z.of_nat j) / 65536
           =? page / 256 * M25P16_SECTOR_BYTE_SIZE / 65536) with true.
  - rewrite RoundTrip.land_erased by exact Hbyte.
    now apply to_uint8_small.
  - symmetry. apply Z.eqb_eq.
    unfold M25P16_PAGE_BYTE_SIZE, M25P16_SECTOR_BYTE_SIZE,
      M25P16_PAGE_COUNT in *.
    Z.div_mod_to_equations. lia.
Qed.

Lemma erase_write_read_round_trip_on_double_witness :
  exists b1 b2 out' b3,
    flash_sector_erase 2 (300 / 256)
      {| hw := Double.idle_chip (fun _ => 0x00) 1; wire := [] |}
    = (Some 0, b1)
    /\ flash_page_write 2 300 [0xAA; 0xBB]
         (Z.of_nat (length [0xAA; 0xBB])) b1 = (Some 0, b2)
    /\ flash_page_read 300 (fresh_array 2)
         (Z.of_nat (length [0xAA; 0xBB])) b2 = (0, out', b3)
    /\ firstn (length [0xAA; 0xBB]) (cells out') = [0xAA; 0xBB].
Proof.
  apply (erase_write_read_round_trip_on_double
           (Double.idle_chip (fun _ => 0x00) 1) [] 2 300 [0xAA; 0xBB]
           (fresh_array 2)).
  - reflexivity.
  - simpl. lia.
  - unfold M25P16_PAGE_COUNT. lia.
  - unfold M25P16_PAGE_BYTE_SIZE. simpl. lia.
  - unfold is_byte. repeat constructor; lia.
  - simpl. lia.
Defined.
